(** * Image to Video AI: the session controller and the Gemini client

    A shallow embedding of [src/services/geminiService.ts] and of the
    controller part of [src/App.tsx].

    The two asynchronous functions of the service and the click handler of
    the controller are interaction trees over one event signature [appE]:
    every [await] on something outside the program (the file reader, the
    remote service, the timer, the download) and every call of a React state
    setter is an event.  The [while] loop of [pollOperation] is [ITree.iter],
    so the embedding has no bound on the number of polls.  A run is the
    deterministic interpretation of a tree against a [World], which answers
    the outside events; it is driven by a step budget and records every
    event it performs. *)

From Stdlib Require Import String Ascii List Arith NArith Lia Bool.
From ITree Require Import ITree ITreeFacts.
Import ITreeNotations ListNotations.

Local Open Scope string_scope.
Local Open Scope list_scope.
Local Open Scope itree_scope.

Set Implicit Arguments.

(* ===================================================================== *)
(** * JavaScript values the code handles *)
(* ===================================================================== *)

(** What a [throw] or a [reject] carries in these two files: an [Error]
    object ([throw new Error(..)], and what the SDK and [fetch] raise), a
    primitive string ([reject('FileReader did not return a string.')]) or the
    event object the file reader hands to [onerror]. *)
Inductive JsValue : Type :=
| JsError (message : string)
| JsString (s : string)
| JsProgressEvent (type : string).

(** [err.message]: defined on an [Error] object only. *)
Definition message_of (err : JsValue) : option string :=
  match err with
  | JsError m => Some m
  | JsString _ => None
  | JsProgressEvent _ => None
  end.

(** Truthiness of a [string | undefined | null]: the empty string is falsy. *)
Definition truthy (v : option string) : bool :=
  match v with
  | Some s => negb (s =? "")
  | None => false
  end.

(** Truthiness of an object reference or [null]. *)
Definition truthy_obj {A : Type} (v : option A) : bool :=
  match v with
  | Some _ => true
  | None => false
  end.

(** [a || b] on strings. *)
Definition or_else (a : option string) (b : string) : string :=
  match a with
  | Some s => if s =? "" then b else s
  | None => b
  end.

(** [`${v}`]: how a template literal prints a [string | undefined]. *)
Definition template (v : option string) : string :=
  match v with
  | Some s => s
  | None => "undefined"
  end.

(** [s.split(sep)] for a one-character separator: never the empty list. *)
Fixpoint split (sep : ascii) (s : string) : list string :=
  match s with
  | EmptyString => [EmptyString]
  | String c rest =>
      if Ascii.eqb c sep then EmptyString :: split sep rest
      else match split sep rest with
           | [] => [String c EmptyString]
           | piece :: pieces => String c piece :: pieces
           end
  end.

(* ===================================================================== *)
(** * Browser and SDK data *)
(* ===================================================================== *)

Record Blob : Type := { blobType : string; blobBytes : string }.

(** A [File] of the browser: the code reads its [type] and its content. *)
Record File : Type := { type : string; bytes : string }.

(** [reader.result] after [readAsDataURL]: a string, or something that is
    not one. *)
Inductive ReaderResult : Type :=
| ResultString (s : string)
| ResultArrayBuffer
| ResultNull.

(** How a [FileReader] settles: it fires [onload] or [onerror]. *)
Inductive ReaderOutcome : Type :=
| Onload (result : ReaderResult)
| Onerror (error : JsValue).

(** [e.target.files] of a change event on the file input. *)
Record ChangeEvent : Type := { files : option (list File) }.

Record Video : Type := { uri : option string }.
Record GeneratedVideo : Type := { video : option Video }.
Record GenerateVideosResponse : Type :=
  { generatedVideos : option (list GeneratedVideo) }.

(** [GenerateVideosOperation] of the SDK, with the optional fields the code
    reads. *)
Record GenerateVideosOperation : Type :=
  { name : string;
    done : option bool;
    response : option GenerateVideosResponse }.

Definition truthy_bool (v : option bool) : bool :=
  match v with
  | Some b => b
  | None => false
  end.

Record GoogleGenAI : Type := { apiKey : option string }.

Record GenerateVideosParameters : Type :=
  { gv_model : string;
    gv_prompt : string;
    gv_imageBytes : option string;
    gv_mimeType : string;
    gv_numberOfVideos : nat }.

(** The [Response] of [fetch]. *)
Record Response : Type := { ok : bool; statusText : string; url : string }.

(** [process.env]. *)
Record ProcessEnv : Type := { API_KEY : option string }.

(** An argument of [console.error]. *)
Inductive LogArg : Type :=
| LogString (s : string)
| LogValue (v : JsValue)
| LogOperation (op : GenerateVideosOperation).

(** Modelled from the spec: the enum [AppState] of [./types], which is not
    among the sources; the four states are the ones the spec lists (Idle,
    Generating, Success, Error) under the names [App.tsx] uses. *)
Inductive AppState : Type := IDLE | GENERATING | SUCCESS | ERROR.


(* ===================================================================== *)
(** * Events *)
(* ===================================================================== *)

(** The outside calls of the two files.  A call that returns a promise
    answers with [inl] of the rejection or [inr] of the value. *)
Variant appE : Type -> Type :=
| ReadAsDataURL (file : File) : appE ReaderOutcome
| GenerateVideos (ai : GoogleGenAI) (params : GenerateVideosParameters)
  : appE (JsValue + GenerateVideosOperation)
| SetTimeout (ms : N) : appE unit
| GetVideosOperation (ai : GoogleGenAI) (operation : GenerateVideosOperation)
  : appE (JsValue + GenerateVideosOperation)
| Fetch (href : string) : appE (JsValue + Response)
| ResponseBlob (r : Response) : appE (JsValue + Blob)
| CreateObjectURL (obj : File + Blob) : appE string
| ConsoleError (args : list LogArg) : appE unit
| SetAppState (v : AppState) : appE unit
| SetImageFile (v : option File) : appE unit
| SetImagePreviewUrl (v : option string) : appE unit
| SetPrompt (v : string) : appE unit
| SetGeneratedVideoUrl (v : option string) : appE unit
| SetError (v : option string) : appE unit
| SetLoadingMessage (v : string) : appE unit.

(** A promise-returning computation: it settles with [inl] (rejected) or
    [inr] (resolved). *)
Definition Async (A : Type) : Type := itree appE (JsValue + A).

Definition resolve {A : Type} (a : A) : Async A := Ret (inr a).

Definition throw {A : Type} (e : JsValue) : Async A := Ret (inl e).

(** [await p] inside an [async] function: a rejection of [p] leaves the
    function. *)
Definition await {A B : Type} (p : Async A) (k : A -> Async B) : Async B :=
  ITree.bind p (fun r => match r with
                         | inl e => throw e
                         | inr a => k a
                         end).

Notation "x <~ p ;; k" := (await p (fun x => k))
  (at level 61, p at next level, right associativity) : itree_scope.

(* ===================================================================== *)
(** * [src/services/geminiService.ts] *)
(* ===================================================================== *)

(** [fileToBase64]: the promise settles when the reader fires [onload] or
    [onerror]; [split(',')[1]] is [undefined] when the result has no comma. *)
Definition fileToBase64 (file : File) : Async (option string) :=
  settled <- ITree.trigger (ReadAsDataURL file);;
  match settled with
  | Onload result =>
      match result with
      | ResultString s => resolve (nth_error (split "," s) 1)
      | _ => throw (JsString "FileReader did not return a string.")
      end
  | Onerror error => throw error
  end.

Definition progressMessages : list string :=
  [ "Warming up the AI generators...";
    "Analyzing image composition...";
    "Dreaming up video frames...";
    "Stitching scenes together...";
    "Applying cinematic effects...";
    "Rendering the final cut...";
    "Almost there, adding final touches..." ].

(** The loop variables of [pollOperation]: [currentOperation] and
    [messageIndex].  [messageIndex] is a natural number: a JavaScript number
    counts exactly far beyond any number of ten-second polls. *)
Definition PollState : Type := (GenerateVideosOperation * nat)%type.

(** One turn of [while (!currentOperation.done) { .. }]: [inr] leaves the
    loop with the function's result, [inl] goes round again. *)
Definition pollOperation_body (ai : GoogleGenAI)
    (onProgress : string -> itree appE unit) (vars : PollState)
  : itree appE (PollState + (JsValue + GenerateVideosOperation)) :=
  let '(currentOperation, messageIndex) := vars in
  if negb (truthy_bool (done currentOperation)) then
    onProgress (nth (messageIndex mod length progressMessages) progressMessages "");;
    let messageIndex := S messageIndex in
    ITree.trigger (SetTimeout 10000%N);;
    polled <- ITree.trigger (GetVideosOperation ai currentOperation);;
    match polled with
    | inr answer => Ret (inl (answer, messageIndex))
    | inl e =>
        ITree.trigger (ConsoleError [LogString "Polling failed"; LogValue e]);;
        Ret (inl (currentOperation, messageIndex))
    end
  else Ret (inr (inr currentOperation)).

(** The loop entered with given values of its variables. *)
Definition pollOperation_from (ai : GoogleGenAI)
    (onProgress : string -> itree appE unit) (vars : PollState)
  : Async GenerateVideosOperation :=
  ITree.iter (pollOperation_body ai onProgress) vars.

Definition pollOperation (ai : GoogleGenAI) (operation : GenerateVideosOperation)
    (onProgress : string -> itree appE unit) : Async GenerateVideosOperation :=
  pollOperation_from ai onProgress (operation, 0).

(** [completedOperation.response?.generatedVideos?.[0]?.video?.uri] *)
Definition downloadLink_of (completedOperation : GenerateVideosOperation)
  : option string :=
  match response completedOperation with
  | None => None
  | Some r =>
      match generatedVideos r with
      | None => None
      | Some vs =>
          match nth_error vs 0 with
          | None => None
          | Some g =>
              match video g with
              | None => None
              | Some v => uri v
              end
          end
      end
  end.

(** The part of [generateVideoFromImage] after the poll loop has returned:
    the download link is read from the completed operation and fetched. *)
Definition generateVideoFromImage_download (env : ProcessEnv)
    (onProgress : string -> itree appE unit)
    (completedOperation : GenerateVideosOperation) : Async Blob :=
  let downloadLink := downloadLink_of completedOperation in
  if negb (truthy downloadLink) then
    ITree.trigger (ConsoleError [LogString "API Response:";
                                 LogOperation completedOperation]);;
    throw (JsError "Video generation failed or did not return a valid download link.")
  else
    onProgress "Downloading generated video...";;
    videoResponse <~ ITree.trigger
      (Fetch (template downloadLink ++ "&key=" ++ template (API_KEY env)));;
    if negb (ok videoResponse) then
      throw (JsError ("Failed to download video: " ++ statusText videoResponse))
    else
      videoBlob <~ ITree.trigger (ResponseBlob videoResponse);;
      resolve videoBlob.

(** The arguments of [ai.models.generateVideos]. *)
Definition generateVideos_params (base64Image : option string)
    (mimeType prompt : string) : GenerateVideosParameters :=
  {| gv_model := "veo-2.0-generate-001";
     gv_prompt := prompt;
     gv_imageBytes := base64Image;
     gv_mimeType := mimeType;
     gv_numberOfVideos := 1 |}.

Definition generateVideoFromImage (env : ProcessEnv)
    (base64Image : option string) (mimeType prompt : string)
    (onProgress : string -> itree appE unit) : Async Blob :=
  if negb (truthy (API_KEY env)) then
    throw (JsError "API key not found. Please ensure the API_KEY environment variable is set.")
  else
    let ai := {| apiKey := API_KEY env |} in
    onProgress "Initializing video generation...";;
    operation <~ ITree.trigger
      (GenerateVideos ai (generateVideos_params base64Image mimeType prompt));;
    onProgress "Video generation started. This may take a few minutes.";;
    completedOperation <~ pollOperation ai operation onProgress;;
    generateVideoFromImage_download env onProgress completedOperation.

(* ===================================================================== *)
(** * [src/App.tsx]: the session and its handlers *)
(* ===================================================================== *)

(** The seven [useState] cells of [App]. *)
Record Session : Type :=
  { appState : AppState;
    imageFile : option File;
    imagePreviewUrl : option string;
    prompt : string;
    generatedVideoUrl : option string;
    error : option string;
    loadingMessage : string }.

(** The initial values given to [useState]. *)
Definition initialSession : Session :=
  {| appState := IDLE;
     imageFile := None;
     imagePreviewUrl := None;
     prompt := "";
     generatedVideoUrl := None;
     error := None;
     loadingMessage := "" |}.

Definition setLoadingMessage (message : string) : itree appE unit :=
  ITree.trigger (SetLoadingMessage message).

Definition handleImageChange (e : ChangeEvent) : itree appE unit :=
  let file := match files e with
              | Some fs => nth_error fs 0
              | None => None
              end in
  match file with
  | Some file =>
      if prefix "image/" (type file) then
        ITree.trigger (SetImageFile (Some file));;
        previewUrl <- ITree.trigger (CreateObjectURL (inl file));;
        ITree.trigger (SetImagePreviewUrl (Some previewUrl));;
        ITree.trigger (SetError None)
      else
        ITree.trigger (SetError
          (Some "Please upload a valid image file (e.g., PNG, JPG, WEBP)."));;
        ITree.trigger (SetImageFile None);;
        ITree.trigger (SetImagePreviewUrl None)
  | None => Ret tt
  end.

(** The [try] block of [handleGenerateVideo]. *)
Definition handleGenerateVideo_try (env : ProcessEnv) (imageFile : File)
    (prompt : string) : Async unit :=
  base64Image <~ fileToBase64 imageFile;;
  videoBlob <~ generateVideoFromImage env base64Image (type imageFile) prompt
                 setLoadingMessage;;
  videoUrl <- ITree.trigger (CreateObjectURL (inr videoBlob));;
  ITree.trigger (SetGeneratedVideoUrl (Some videoUrl));;
  ITree.trigger (SetAppState SUCCESS);;
  resolve tt.

(** The [catch] block of [handleGenerateVideo]. *)
Definition handleGenerateVideo_catch (err : JsValue) : itree appE unit :=
  ITree.trigger (ConsoleError [LogValue err]);;
  ITree.trigger (SetError (Some
    (or_else (message_of err)
       "An unknown error occurred during video generation.")));;
  ITree.trigger (SetAppState ERROR).

(** [handleGenerateVideo], closed over the [imageFile] and [prompt] of the
    render it was created in.  After the guard [imageFile] is not [null]. *)
Definition handleGenerateVideo (env : ProcessEnv) (imageFile : option File)
    (prompt : string) : itree appE unit :=
  if negb (truthy_obj imageFile) || negb (truthy (Some prompt)) then
    ITree.trigger (SetError (Some "Please upload an image and provide a prompt."))
  else
    match imageFile with
    | None => Ret tt
    | Some file =>
        ITree.trigger (SetAppState GENERATING);;
        ITree.trigger (SetError None);;
        ITree.trigger (SetLoadingMessage "Preparing your image...");;
        settled <- handleGenerateVideo_try env file prompt;;
        match settled with
        | inl err => handleGenerateVideo_catch err
        | inr _ => Ret tt
        end
    end.

Definition resetState : itree appE unit :=
  ITree.trigger (SetAppState IDLE);;
  ITree.trigger (SetImageFile None);;
  ITree.trigger (SetImagePreviewUrl None);;
  ITree.trigger (SetPrompt "");;
  ITree.trigger (SetGeneratedVideoUrl None);;
  ITree.trigger (SetError None);;
  ITree.trigger (SetLoadingMessage "").

(** ** What [renderContent] puts on the page *)

(** The functions of [App] that the page binds to a control. *)
Inductive Handler : Type :=
| OnHandleImageChange
| OnSetPrompt
| OnHandleGenerateVideo
| OnResetState.

(** The elements of [renderContent] that carry data or a handler; layout
    and styling are left out. *)
Inductive Element : Type :=
| LoadingSpinner
| Heading (text : string)
| Paragraph (text : string)
| VideoPlayer (src : string)
| Img (src : string)
| UploadHint
| FileInput (onChange : Handler) (accept : string)
| Textarea (value : string) (onChange : Handler)
| Button (label : string) (onClick : Handler) (disabled : bool).

(** [{v}] in JSX: [null] renders nothing. *)
Definition jsx_text (v : option string) : string :=
  match v with
  | Some s => s
  | None => ""
  end.

Definition renderContent (s : Session) : list Element :=
  match appState s with
  | GENERATING =>
      [ LoadingSpinner;
        Paragraph "Generating Your Video";
        Paragraph (loadingMessage s) ]
  | SUCCESS =>
      [ Heading "Video Generated Successfully!" ]
      ++ (if truthy (generatedVideoUrl s)
          then [ VideoPlayer (jsx_text (generatedVideoUrl s)) ] else [])
      ++ [ Button "Create Another Video" OnResetState false ]
  | ERROR =>
      [ Heading "An Error Occurred";
        Paragraph (jsx_text (error s));
        Button "Try Again" OnResetState false ]
  | IDLE =>
      [ Heading "1. Upload Image";
        (if truthy (imagePreviewUrl s)
         then Img (jsx_text (imagePreviewUrl s)) else UploadHint);
        FileInput OnHandleImageChange "image/*";
        Heading "2. Describe the Video";
        Textarea (prompt s) OnSetPrompt ]
      ++ (if truthy (error s) then [ Paragraph (jsx_text (error s)) ] else [])
      ++ [ Button "Generate Video" OnHandleGenerateVideo
             (negb (truthy_obj (imageFile s)) || negb (truthy (Some (prompt s)))) ]
  end.

(** ** What the user can do on the rendered page *)

Inductive UserAction : Type :=
| Click (label : string)
| ChooseFile (e : ChangeEvent)
| TypePrompt (text : string).

(** The handler of the enabled button with the given label, if the page
    has one. *)
Fixpoint find_button (label : string) (page : list Element) : option Handler :=
  match page with
  | [] => None
  | Button l h disabled :: rest =>
      if (l =? label) && negb disabled then Some h else find_button label rest
  | _ :: rest => find_button label rest
  end.

Fixpoint find_file_input (page : list Element) : option Handler :=
  match page with
  | [] => None
  | FileInput h _ :: _ => Some h
  | _ :: rest => find_file_input rest
  end.

Fixpoint find_textarea (page : list Element) : option Handler :=
  match page with
  | [] => None
  | Textarea _ h :: _ => Some h
  | _ :: rest => find_textarea rest
  end.

(** The body a handler runs, with the values of the render it closes over. *)
Definition handler_body (env : ProcessEnv) (s : Session) (h : Handler)
    (a : UserAction) : itree appE unit :=
  match h, a with
  | OnHandleGenerateVideo, _ => handleGenerateVideo env (imageFile s) (prompt s)
  | OnResetState, _ => resetState
  | OnHandleImageChange, ChooseFile e => handleImageChange e
  | OnSetPrompt, TypePrompt text => ITree.trigger (SetPrompt text)
  | _, _ => Ret tt
  end.

(** The code a user action starts on the page rendered for [s]; [None] when
    the page has no enabled control for it. *)
Definition dispatch (env : ProcessEnv) (s : Session) (a : UserAction)
  : option (itree appE unit) :=
  let page := renderContent s in
  let control := match a with
                 | Click label => find_button label page
                 | ChooseFile _ => find_file_input page
                 | TypePrompt _ => find_textarea page
                 end in
  match control with
  | Some h => Some (handler_body env s h a)
  | None => None
  end.

(** The user's submit action: a click on the "Generate Video" button. *)
Definition submit : UserAction := Click "Generate Video".

(** The user's reset action on the Error page. *)
Definition tryAgain : UserAction := Click "Try Again".

(* ===================================================================== *)
(** * Running the code against a world *)
(* ===================================================================== *)

(** What lies outside the program.  The answer to a status query may depend
    on how many queries came before it, so a job can complete after any
    number of polls, or never. *)
Record World : Type :=
  { readAsDataURL : File -> ReaderOutcome;
    generateVideos : GoogleGenAI -> GenerateVideosParameters ->
                     JsValue + GenerateVideosOperation;
    getVideosOperation : nat -> GenerateVideosOperation ->
                         JsValue + GenerateVideosOperation;
    fetch : string -> JsValue + Response;
    blob : Response -> JsValue + Blob;
    createObjectURL : File + Blob -> string }.

(** An event that was performed, whatever its answer type. *)
Definition Event : Type := sigT appE.

Definition ev {X : Type} (e : appE X) : Event := existT appE X e.

(** The state of a run: the session, the number of status queries made so
    far, and the events performed so far, oldest first. *)
Record RunState : Type :=
  { session : Session;
    polls : nat;
    trace : list Event }.

(** A state setter replaces one cell of the session. *)
Definition update {X : Type} (e : appE X) (s : Session) : Session :=
  match e with
  | SetAppState v =>
      {| appState := v; imageFile := imageFile s;
         imagePreviewUrl := imagePreviewUrl s; prompt := prompt s;
         generatedVideoUrl := generatedVideoUrl s; error := error s;
         loadingMessage := loadingMessage s |}
  | SetImageFile v =>
      {| appState := appState s; imageFile := v;
         imagePreviewUrl := imagePreviewUrl s; prompt := prompt s;
         generatedVideoUrl := generatedVideoUrl s; error := error s;
         loadingMessage := loadingMessage s |}
  | SetImagePreviewUrl v =>
      {| appState := appState s; imageFile := imageFile s;
         imagePreviewUrl := v; prompt := prompt s;
         generatedVideoUrl := generatedVideoUrl s; error := error s;
         loadingMessage := loadingMessage s |}
  | SetPrompt v =>
      {| appState := appState s; imageFile := imageFile s;
         imagePreviewUrl := imagePreviewUrl s; prompt := v;
         generatedVideoUrl := generatedVideoUrl s; error := error s;
         loadingMessage := loadingMessage s |}
  | SetGeneratedVideoUrl v =>
      {| appState := appState s; imageFile := imageFile s;
         imagePreviewUrl := imagePreviewUrl s; prompt := prompt s;
         generatedVideoUrl := v; error := error s;
         loadingMessage := loadingMessage s |}
  | SetError v =>
      {| appState := appState s; imageFile := imageFile s;
         imagePreviewUrl := imagePreviewUrl s; prompt := prompt s;
         generatedVideoUrl := generatedVideoUrl s; error := v;
         loadingMessage := loadingMessage s |}
  | SetLoadingMessage v =>
      {| appState := appState s; imageFile := imageFile s;
         imagePreviewUrl := imagePreviewUrl s; prompt := prompt s;
         generatedVideoUrl := generatedVideoUrl s; error := error s;
         loadingMessage := v |}
  | _ => s
  end.

Definition is_poll {X : Type} (e : appE X) : bool :=
  match e with
  | GetVideosOperation _ _ => true
  | _ => false
  end.

(** The answer of the world to an event, given the number of status queries
    made before it. *)
Definition answer (w : World) (asked : nat) {X : Type} (e : appE X) : X :=
  match e in appE X return X with
  | ReadAsDataURL file => readAsDataURL w file
  | GenerateVideos ai params => generateVideos w ai params
  | SetTimeout _ => tt
  | GetVideosOperation _ operation => getVideosOperation w asked operation
  | Fetch href => fetch w href
  | ResponseBlob r => blob w r
  | CreateObjectURL obj => createObjectURL w obj
  | ConsoleError _ => tt
  | SetAppState _ => tt
  | SetImageFile _ => tt
  | SetImagePreviewUrl _ => tt
  | SetPrompt _ => tt
  | SetGeneratedVideoUrl _ => tt
  | SetError _ => tt
  | SetLoadingMessage _ => tt
  end.

(** Performing one event. *)
Definition perform (w : World) (st : RunState) {X : Type} (e : appE X)
  : RunState * X :=
  ({| session := update e (session st);
      polls := if is_poll e then S (polls st) else polls st;
      trace := trace st ++ [ev e] |},
   answer w (polls st) e).

(** The result of a run on a budget: the tree returned [r], with [rest] of
    the budget unspent, or the budget ran out first. *)
Inductive Run (R : Type) : Type :=
| Done (st : RunState) (r : R) (rest : nat)
| Pending (st : RunState).

Arguments Done {R} st r rest.
Arguments Pending {R} st.

Definition state_of {R : Type} (x : Run R) : RunState :=
  match x with
  | Done st _ _ => st
  | Pending st => st
  end.

(** Every event, and every turn of a loop, costs one unit of the budget. *)
Fixpoint run {R : Type} (fuel : nat) (w : World) (st : RunState)
    (t : itree appE R) : Run R :=
  match observe t with
  | RetF r => Done st r fuel
  | TauF t' =>
      match fuel with
      | 0 => Pending st
      | S n => run n w st t'
      end
  | VisF e k =>
      match fuel with
      | 0 => Pending st
      | S n => let '(st', x) := perform w st e in run n w st' (k x)
      end
  end.

(** A run that starts from a session, with no query made and nothing
    performed yet. *)
Definition start (s : Session) : RunState :=
  {| session := s; polls := 0; trace := [] |}.

(* ===================================================================== *)
(** * What a piece of code may perform *)
(* ===================================================================== *)

(** The session after the setters among [evs] have been applied in order. *)
Definition replay (evs : list Event) (s : Session) : Session :=
  fold_left (fun s e => update (projT2 e) s) evs s.

(** [performs P t]: on every budget and in every world, what a run of [t]
    adds to the trace satisfies [P] event by event, and the session is the
    old one with the new setters applied. *)
Definition performs (P : Event -> bool) {R : Type} (t : itree appE R) : Prop :=
  forall (w : World) (fuel : nat) (st : RunState),
  exists evs : list Event,
    trace (state_of (run fuel w st t)) = trace st ++ evs
    /\ session (state_of (run fuel w st t)) = replay evs (session st)
    /\ forallb P evs = true.


(** ** Classes of events *)

(** The calls that leave the browser for the remote service. *)
Definition is_network (e : Event) : bool :=
  match projT2 e with
  | GenerateVideos _ _ => true
  | GetVideosOperation _ _ => true
  | Fetch _ => true
  | ResponseBlob _ => true
  | _ => false
  end.

Definition is_fetch (e : Event) : bool :=
  match projT2 e with
  | Fetch _ => true
  | _ => false
  end.

(** What the poll loop does when its callback is [setLoadingMessage]; the
    messages it shows are not empty. *)
Definition poll_event (e : Event) : bool :=
  match projT2 e with
  | SetLoadingMessage m => negb (m =? "")
  | SetTimeout _ => true
  | GetVideosOperation _ _ => true
  | ConsoleError _ => true
  | _ => false
  end.

(** What [generateVideoFromImage] does with that callback. *)
Definition service_event (e : Event) : bool :=
  match projT2 e with
  | SetLoadingMessage m => negb (m =? "")
  | GenerateVideos _ _ => true
  | SetTimeout _ => true
  | GetVideosOperation _ _ => true
  | Fetch _ => true
  | ResponseBlob _ => true
  | ConsoleError _ => true
  | _ => false
  end.

Definition reader_event (e : Event) : bool :=
  match projT2 e with
  | ReadAsDataURL _ => true
  | _ => false
  end.

(** What the [try] block of [handleGenerateVideo] does before the download
    has succeeded. *)
Definition try_event (e : Event) : bool := reader_event e || service_event e.

(** The events that leave every cell of the session but [loadingMessage]
    alone. *)
Definition keeps_cells (e : Event) : bool :=
  match projT2 e with
  | SetAppState _ => false
  | SetImageFile _ => false
  | SetImagePreviewUrl _ => false
  | SetPrompt _ => false
  | SetGeneratedVideoUrl _ => false
  | SetError _ => false
  | _ => true
  end.

(** Two sessions that differ at most in [loadingMessage]. *)
Definition same_cells (s s' : Session) : Prop :=
  appState s' = appState s
  /\ imageFile s' = imageFile s
  /\ imagePreviewUrl s' = imagePreviewUrl s
  /\ prompt s' = prompt s
  /\ generatedVideoUrl s' = generatedVideoUrl s
  /\ error s' = error s.


(* ===================================================================== *)
(** * Describing a run of the poll loop *)
(* ===================================================================== *)

(** [currentOperation] after the status query numbered [asked]: the answer,
    or the old value when the query failed. *)
Definition next (w : World) (asked : nat) (operation : GenerateVideosOperation)
  : GenerateVideosOperation :=
  match getVideosOperation w asked operation with
  | inr answered => answered
  | inl _ => operation
  end.

(** [currentOperation] after [n] more queries, the first of them numbered
    [asked]. *)
Fixpoint currentAfter (w : World) (asked : nat)
    (operation : GenerateVideosOperation) (n : nat) : GenerateVideosOperation :=
  match n with
  | 0 => operation
  | S n' => currentAfter w (S asked) (next w asked operation) n'
  end.

(** The job never reports completion. *)
Definition never_done (w : World) (asked : nat)
    (operation : GenerateVideosOperation) : Prop :=
  forall n, truthy_bool (done (currentAfter w asked operation n)) = false.

(** The events of one turn of the loop. *)
Definition turn_events (ai : GoogleGenAI) (w : World) (asked : nat)
    (operation : GenerateVideosOperation) (messageIndex : nat) : list Event :=
  [ ev (SetLoadingMessage
          (nth (messageIndex mod length progressMessages) progressMessages ""));
    ev (SetTimeout 10000%N);
    ev (GetVideosOperation ai operation) ]
  ++ match getVideosOperation w asked operation with
     | inl e => [ ev (ConsoleError [LogString "Polling failed"; LogValue e]) ]
     | inr _ => []
     end.

(** The events of [n] turns in a row. *)
Fixpoint poll_events (ai : GoogleGenAI) (w : World) (asked : nat)
    (operation : GenerateVideosOperation) (messageIndex n : nat) : list Event :=
  match n with
  | 0 => []
  | S n' =>
      turn_events ai w asked operation messageIndex
      ++ poll_events ai w (S asked) (next w asked operation) (S messageIndex) n'
  end.

(** The two things the claims about the loop count: a call of [onProgress]
    and a status query. *)
Inductive Call : Type :=
| Progress (message : string)
| Poll.

Definition call_of (e : Event) : list Call :=
  match projT2 e with
  | SetLoadingMessage m => [Progress m]
  | GetVideosOperation _ _ => [Poll]
  | _ => []
  end.

Definition calls (evs : list Event) : list Call := flat_map call_of evs.

(** The messages given to [setLoadingMessage], oldest first: what the
    Generating view shows, one after the other. *)
Definition shown (evs : list Event) : list string :=
  flat_map (fun e => match projT2 e with
                     | SetLoadingMessage m => [m]
                     | _ => []
                     end) evs.

(** The state of a run after it has performed [evs], [asked] of them status
    queries. *)
Definition advance (st : RunState) (evs : list Event) (asked : nat) : RunState :=
  {| session := replay evs (session st);
     polls := asked + polls st;
     trace := trace st ++ evs |}.

(** What [generateVideoFromImage] performs before it enters the poll loop. *)
Definition submit_events (env : ProcessEnv) (base64Image : option string)
    (mimeType prompt : string) : list Event :=
  [ ev (SetLoadingMessage "Initializing video generation...");
    ev (GenerateVideos {| apiKey := API_KEY env |}
          (generateVideos_params base64Image mimeType prompt));
    ev (SetLoadingMessage "Video generation started. This may take a few minutes.") ].

(** [returns Q t]: whenever a run of [t] finishes, its result satisfies
    [Q]. *)
Definition returns {R : Type} (Q : R -> Prop) (t : itree appE R) : Prop :=
  forall (w : World) (fuel : nat) (st st' : RunState) (r : R) (rest : nat),
    run fuel w st t = Done st' r rest -> Q r.

(** A promise that resolved. *)
Definition resolved {A : Type} (r : JsValue + A) : Prop :=
  exists a, r = inr a.

(** What [handleGenerateVideo] performs before its [try] block, and what its
    [catch] block performs. *)
Definition start_events : list Event :=
  [ ev (SetAppState GENERATING);
    ev (SetError None);
    ev (SetLoadingMessage "Preparing your image...") ].

Definition catch_events (err : JsValue) : list Event :=
  [ ev (ConsoleError [LogValue err]);
    ev (SetError (Some (or_else (message_of err)
            "An unknown error occurred during video generation.")));
    ev (SetAppState ERROR) ].



(** The job completes with the status query numbered [n] from [asked] on
    (with [n = 0]: it was complete when submitted), and not before. *)
Definition completes_at (w : World) (asked : nat)
    (operation : GenerateVideosOperation) (n : nat) : Prop :=
  (forall i, i < n ->
     truthy_bool (done (currentAfter w asked operation i)) = false)
  /\ truthy_bool (done (currentAfter w asked operation n)) = true.

Definition not_fetch (e : Event) : bool := negb (is_fetch e).

(** An event that stays in the browser. *)
Definition local_event (e : Event) : bool := negb (is_network e).

(** The message on display after [evs], when [current] was on display
    before. *)
Definition shown_after (current : string) (evs : list Event) : string :=
  fold_left (fun m e => match projT2 e with
                        | SetLoadingMessage m' => m'
                        | _ => m
                        end) evs current.

(** A call of [setLoadingMessage], if [e] is one, has a non-empty message. *)
Definition says_something (e : Event) : bool :=
  match projT2 e with
  | SetLoadingMessage m => negb (m =? "")
  | _ => true
  end.

(** A failure inside the [try] block of [handleGenerateVideo], entered in
    state [st] on budget [fuel]: the encode step rejects with [err], or it
    resolves and [generateVideoFromImage] rejects with [err].  [st_f] is the
    state at the time of the rejection and [rest] the budget left. *)
Definition fails_with (w : World) (env : ProcessEnv) (file : File)
    (prompt : string) (st : RunState) (fuel : nat)
    (err : JsValue) (st_f : RunState) (rest : nat) : Prop :=
  run fuel w st (fileToBase64 file) = Done st_f (inl err) rest
  \/ exists (st1 : RunState) (base64Image : option string) (rest1 : nat),
       run fuel w st (fileToBase64 file) = Done st1 (inr base64Image) rest1
       /\ run rest1 w st1
            (generateVideoFromImage env base64Image (type file) prompt
               setLoadingMessage)
          = Done st_f (inl err) rest.

(* ===================================================================== *)
(** * Concrete sessions and worlds *)
(* ===================================================================== *)

Module Scenario.

Definition png : File := {| type := "image/png"; bytes := "iVBORw0KGgo=" |}.

Definition notes : File := {| type := "text/plain"; bytes := "bm90ZXM=" |}.

Definition keyed : ProcessEnv := {| API_KEY := Some "KEY" |}.

Definition unkeyed : ProcessEnv := {| API_KEY := None |}.

Definition submitted : GenerateVideosOperation :=
  {| name := "operations/1"; done := None; response := None |}.

Definition completed : GenerateVideosOperation :=
  {| name := "operations/1";
     done := Some true;
     response := Some {| generatedVideos := Some
       [ {| video := Some {| uri := Some "https://video.test/1?alt=media" |} |} ] |} |}.

Definition completedEmpty : GenerateVideosOperation :=
  {| name := "operations/1";
     done := Some true;
     response := Some {| generatedVideos := None |} |}.

Definition mp4 : Blob := {| blobType := "video/mp4"; blobBytes := "mp4" |}.

(** The job completes with the first status query and the download
    succeeds. *)
Definition happy : World :=
  {| readAsDataURL := fun f =>
       Onload (ResultString ("data:" ++ type f ++ ";base64," ++ bytes f));
     generateVideos := fun _ _ => inr submitted;
     getVideosOperation := fun _ _ => inr completed;
     fetch := fun href => inr {| ok := true; statusText := "OK"; url := href |};
     blob := fun _ => inr mp4;
     createObjectURL := fun _ => "blob:1" |}.

(** The job never completes: every other status query fails, the others
    answer that the job is not done. *)
Definition stuck : World :=
  {| readAsDataURL := readAsDataURL happy;
     generateVideos := fun _ _ => inr submitted;
     getVideosOperation := fun n _ =>
       if Nat.even n then inl (JsError "Failed to fetch") else inr submitted;
     fetch := fetch happy;
     blob := blob happy;
     createObjectURL := createObjectURL happy |}.

(** The job completes, but its payload has no video. *)
Definition linkless : World :=
  {| readAsDataURL := readAsDataURL happy;
     generateVideos := fun _ _ => inr submitted;
     getVideosOperation := fun _ _ => inr completedEmpty;
     fetch := fetch happy;
     blob := blob happy;
     createObjectURL := createObjectURL happy |}.

(** The file cannot be read: the reader fires [onerror]. *)
Definition unreadable : World :=
  {| readAsDataURL := fun _ => Onerror (JsProgressEvent "error");
     generateVideos := generateVideos happy;
     getVideosOperation := getVideosOperation happy;
     fetch := fetch happy;
     blob := blob happy;
     createObjectURL := createObjectURL happy |}.

(** An idle session with an image and a prompt. *)
Definition ready : Session :=
  {| appState := IDLE;
     imageFile := Some png;
     imagePreviewUrl := Some "blob:0";
     prompt := "a cat walking";
     generatedVideoUrl := None;
     error := None;
     loadingMessage := "" |}.

(** An idle session with an image and no prompt. *)
Definition promptless : Session :=
  {| appState := IDLE;
     imageFile := Some png;
     imagePreviewUrl := Some "blob:0";
     prompt := "";
     generatedVideoUrl := None;
     error := None;
     loadingMessage := "" |}.

(** A session in which a job is outstanding. *)
Definition generating : Session :=
  {| appState := GENERATING;
     imageFile := Some png;
     imagePreviewUrl := Some "blob:0";
     prompt := "a cat walking";
     generatedVideoUrl := None;
     error := None;
     loadingMessage := "Rendering the final cut..." |}.

End Scenario.

(* ===================================================================== *)
(** * Further descriptions of runs and of the page *)
(* ===================================================================== *)

(** The address [generateVideoFromImage] fetches for a completed operation:
    the link with the credential appended. *)
Definition download_url (env : ProcessEnv)
    (completedOperation : GenerateVideosOperation) : string :=
  template (downloadLink_of completedOperation) ++ "&key="
  ++ template (API_KEY env).

(** A run of [generateVideoFromImage] that gets as far as the download: the
    credential is there, the submission is accepted, the job completes with
    the status query numbered [n] and its payload has a link. *)
Definition reaches_download (w : World) (env : ProcessEnv)
    (base64Image : option string) (mimeType prompt : string) (st : RunState)
    (operation : GenerateVideosOperation) (n : nat) : Prop :=
  truthy (API_KEY env) = true
  /\ generateVideos w {| apiKey := API_KEY env |}
       (generateVideos_params base64Image mimeType prompt) = inr operation
  /\ completes_at w (polls st) operation n
  /\ truthy (downloadLink_of (currentAfter w (polls st) operation n)) = true.

(** What such a run has performed when it issues the fetch. *)
Definition events_to_fetch (w : World) (env : ProcessEnv)
    (base64Image : option string) (mimeType prompt : string) (st : RunState)
    (operation : GenerateVideosOperation) (n : nat) : list Event :=
  submit_events env base64Image mimeType prompt
  ++ poll_events {| apiKey := API_KEY env |} w (polls st) operation 0 n
  ++ [ ev (SetLoadingMessage "Downloading generated video...");
       ev (Fetch (download_url env (currentAfter w (polls st) operation n))) ].

(** The calls the service makes itself, whatever its callback does. *)
Definition service_call (e : Event) : bool :=
  match projT2 e with
  | GenerateVideos _ _ => true
  | SetTimeout _ => true
  | GetVideosOperation _ _ => true
  | Fetch _ => true
  | ResponseBlob _ => true
  | ConsoleError _ => true
  | _ => false
  end.

Definition either (P Q : Event -> bool) (e : Event) : bool := P e || Q e.

(** [s] has no occurrence of the character [sep]. *)
Fixpoint without (sep : ascii) (s : string) : bool :=
  match s with
  | EmptyString => true
  | String c rest => negb (Ascii.eqb c sep) && without sep rest
  end.

(** More worlds. *)
Module Outage.

(** The first status query fails, the second finds the job running, the
    third finds it complete. *)
Definition slow : World :=
  {| readAsDataURL := readAsDataURL Scenario.happy;
     generateVideos := fun _ _ => inr Scenario.submitted;
     getVideosOperation := fun n _ =>
       match n with
       | 0 => inl (JsError "Failed to fetch")
       | 1 => inr Scenario.submitted
       | _ => inr Scenario.completed
       end;
     fetch := fetch Scenario.happy;
     blob := blob Scenario.happy;
     createObjectURL := createObjectURL Scenario.happy |}.

(** The service refuses the submission. *)
Definition refused : World :=
  {| readAsDataURL := readAsDataURL Scenario.happy;
     generateVideos := fun _ _ => inl (JsError "Quota exceeded");
     getVideosOperation := getVideosOperation Scenario.happy;
     fetch := fetch Scenario.happy;
     blob := blob Scenario.happy;
     createObjectURL := createObjectURL Scenario.happy |}.

(** The download is answered with a status that is not a success. *)
Definition forbidden : World :=
  {| readAsDataURL := readAsDataURL Scenario.happy;
     generateVideos := generateVideos Scenario.happy;
     getVideosOperation := getVideosOperation Scenario.happy;
     fetch := fun href =>
       inr {| ok := false; statusText := "Forbidden"; url := href |};
     blob := blob Scenario.happy;
     createObjectURL := createObjectURL Scenario.happy |}.

(** The download request itself fails. *)
Definition offline : World :=
  {| readAsDataURL := readAsDataURL Scenario.happy;
     generateVideos := generateVideos Scenario.happy;
     getVideosOperation := getVideosOperation Scenario.happy;
     fetch := fun _ => inl (JsError "Failed to fetch");
     blob := blob Scenario.happy;
     createObjectURL := createObjectURL Scenario.happy |}.

(** The body of the download cannot be read. *)
Definition truncated : World :=
  {| readAsDataURL := readAsDataURL Scenario.happy;
     generateVideos := generateVideos Scenario.happy;
     getVideosOperation := getVideosOperation Scenario.happy;
     fetch := fetch Scenario.happy;
     blob := fun _ => inl (JsError "The body stream was interrupted");
     createObjectURL := createObjectURL Scenario.happy |}.

End Outage.

(** A call of [setLoadingMessage]. *)
Definition is_message (e : Event) : bool :=
  match projT2 e with
  | SetLoadingMessage _ => true
  | _ => false
  end.

(** The events that leave the user's inputs alone: the selected file, its
    preview and the prompt. *)
Definition keeps_inputs (e : Event) : bool :=
  match projT2 e with
  | SetImageFile _ => false
  | SetImagePreviewUrl _ => false
  | SetPrompt _ => false
  | _ => true
  end.

Definition any_event (e : Event) : bool := true.

(** A success inside the [try] block of [handleGenerateVideo], entered in
    state [st] on budget [fuel]: the encode step resolves and
    [generateVideoFromImage] resolves with [videoBlob].  [st_s] is the state
    at that time and [rest] the budget left. *)
Definition succeeds_with (w : World) (env : ProcessEnv) (file : File)
    (prompt : string) (st : RunState) (fuel : nat)
    (videoBlob : Blob) (st_s : RunState) (rest : nat) : Prop :=
  exists (st1 : RunState) (base64Image : option string) (rest1 : nat),
    run fuel w st (fileToBase64 file) = Done st1 (inr base64Image) rest1
    /\ run rest1 w st1
         (generateVideoFromImage env base64Image (type file) prompt
            setLoadingMessage)
       = Done st_s (inr videoBlob) rest.

(** What the [try] block performs after the download has succeeded. *)
Definition success_events (w : World) (videoBlob : Blob) : list Event :=
  [ ev (CreateObjectURL (inr videoBlob));
    ev (SetGeneratedVideoUrl (Some (createObjectURL w (inr videoBlob))));
    ev (SetAppState SUCCESS) ].

(** The user's reset action on the Success page. *)
Definition createAnother : UserAction := Click "Create Another Video".

(** The calls of a submit that are made once if at all (the status query and
    its timer are not among them: they repeat). *)
Inductive Outside : Type :=
| ReadsFile
| SubmitsJob
| FetchesVideo
| ReadsBody
| MakesUrl.

Definition Outside_eqb (a b : Outside) : bool :=
  match a, b with
  | ReadsFile, ReadsFile => true
  | SubmitsJob, SubmitsJob => true
  | FetchesVideo, FetchesVideo => true
  | ReadsBody, ReadsBody => true
  | MakesUrl, MakesUrl => true
  | _, _ => false
  end.

Definition is_kind (kind : Outside) (e : Event) : bool :=
  match projT2 e with
  | ReadAsDataURL _ => Outside_eqb kind ReadsFile
  | GenerateVideos _ _ => Outside_eqb kind SubmitsJob
  | Fetch _ => Outside_eqb kind FetchesVideo
  | ResponseBlob _ => Outside_eqb kind ReadsBody
  | CreateObjectURL _ => Outside_eqb kind MakesUrl
  | _ => false
  end.

(** How many of [evs] satisfy [P]. *)
Definition count (P : Event -> bool) (evs : list Event) : nat :=
  length (filter P evs).

(** [at_most P n t]: what a run of [t] adds to the trace has at most [n]
    events that satisfy [P]. *)
Definition at_most (P : Event -> bool) (n : nat) {R : Type}
    (t : itree appE R) : Prop :=
  forall (w : World) (fuel : nat) (st : RunState),
  exists evs : list Event,
    trace (state_of (run fuel w st t)) = trace st ++ evs
    /\ count P evs <= n.

(** 1 when the two kinds are the same, 0 otherwise. *)
Definition one (kind kind' : Outside) : nat :=
  if Outside_eqb kind kind' then 1 else 0.

(** More sessions. *)
Module Outcome.

(** A session whose download was refused. *)
Definition failed : Session :=
  {| appState := ERROR;
     imageFile := Some Scenario.png;
     imagePreviewUrl := Some "blob:0";
     prompt := "a cat walking";
     generatedVideoUrl := None;
     error := Some "Failed to download video: Forbidden";
     loadingMessage := "Downloading generated video..." |}.

(** An idle session that shows a validation error and has no image. *)
Definition warned : Session :=
  {| appState := IDLE;
     imageFile := None;
     imagePreviewUrl := None;
     prompt := "";
     generatedVideoUrl := None;
     error := Some "Please upload a valid image file (e.g., PNG, JPG, WEBP).";
     loadingMessage := "" |}.

End Outcome.
(* ===================================================================== *)
(** * Laws of [run] *)
(* ===================================================================== *)

Section RunLaws.

Variable w : World.

Lemma run_ret (R : Type) (fuel : nat) (st : RunState) (r : R) :
  run fuel w st (Ret r) = Done st r fuel.
Proof. destruct fuel; reflexivity. Qed.


Lemma run_trigger (X : Type) (fuel : nat) (st : RunState) (e : appE X) :
  run (S fuel) w st (ITree.trigger e)
  = Done (fst (perform w st e)) (snd (perform w st e)) fuel.
Proof. cbn. destruct fuel; reflexivity. Qed.

(** Trees with the same first node run alike. *)
Lemma run_observing (R : Type) (fuel : nat) (st : RunState)
    (t1 t2 : itree appE R) :
  observing eq t1 t2 -> run fuel w st t1 = run fuel w st t2.
Proof.
  intros H. destruct fuel; cbn [run]; rewrite (observing_observe H); reflexivity.
Qed.

(** A sequence runs its first part, then the rest on what is left of the
    budget. *)
Lemma run_bind (R S : Type) (fuel : nat) (st : RunState)
    (t : itree appE R) (k : R -> itree appE S) :
  run fuel w st (ITree.bind t k)
  = match run fuel w st t with
    | Done st' r rest => run rest w st' (k r)
    | Pending st' => Pending st'
    end.
Proof.
  revert st t. induction fuel as [|n IH]; intros st t.
  - cbn [run]. rewrite observe_bind.
    destruct (observe t); cbn; reflexivity.
  - cbn [run]. rewrite observe_bind.
    destruct (observe t) as [r|t'|X e ke]; cbn.
    + reflexivity.
    + apply IH.
    + apply IH.
Qed.

Lemma run_await (A B : Type) (fuel : nat) (st : RunState)
    (p : Async A) (k : A -> Async B) :
  run fuel w st (await p k)
  = match run fuel w st p with
    | Done st' (inr a) rest => run rest w st' (k a)
    | Done st' (inl e) rest => Done st' (inl e) rest
    | Pending st' => Pending st'
    end.
Proof.
  unfold await. rewrite run_bind.
  destruct (run fuel w st p) as [st' [e|a] rest|st']; try reflexivity.
  apply run_ret.
Qed.

(** One turn of a loop, then the loop again after a silent step. *)
Lemma run_iter (I R : Type) (fuel : nat) (st : RunState)
    (body : I -> itree appE (I + R)) (i : I) :
  run fuel w st (ITree.iter body i)
  = match run fuel w st (body i) with
    | Done st' (inl i') (S rest) => run rest w st' (ITree.iter body i')
    | Done st' (inl i') 0 => Pending st'
    | Done st' (inr r) rest => Done st' r rest
    | Pending st' => Pending st'
    end.
Proof.
  rewrite (run_observing fuel st (unfold_aloop_ body i)), run_bind.
  destruct (run fuel w st (body i)) as [st' [i'|r] rest|st']; try reflexivity.
  - destruct rest; reflexivity.
  - apply run_ret.
Qed.

(** A finished run has spent part of its budget, and a larger budget only
    leaves more unspent. *)
Lemma run_rest_le (R : Type) (fuel : nat) (st st' : RunState)
    (t : itree appE R) (r : R) (rest : nat) :
  run fuel w st t = Done st' r rest -> rest <= fuel.
Proof.
  revert st t. induction fuel as [|n IH]; intros st t; cbn [run].
  - destruct (observe t); intros H; inversion H; lia.
  - destruct (observe t) as [r0|t'|X e k]; intros H.
    + inversion H; lia.
    + apply IH in H; lia.
    + destruct (perform w st e) as [st1 x]. apply IH in H; lia.
Qed.

Lemma run_more (R : Type) (fuel extra : nat) (st st' : RunState)
    (t : itree appE R) (r : R) (rest : nat) :
  run fuel w st t = Done st' r rest ->
  run (fuel + extra) w st t = Done st' r (rest + extra).
Proof.
  revert st t. induction fuel as [|n IH]; intros st t H.
  - cbn [run] in H. cbn [Nat.add].
    destruct (observe t) eqn:Hobs; inversion H; subst.
    destruct extra; cbn [run]; rewrite Hobs; reflexivity.
  - cbn [run Nat.add] in *.
    destruct (observe t) as [r0|t'|X e k].
    + inversion H; subst. reflexivity.
    + apply IH, H.
    + destruct (perform w st e) as [st1 x]. apply IH, H.
Qed.

End RunLaws.

Lemma replay_app (evs1 evs2 : list Event) (s : Session) :
  replay (evs1 ++ evs2) s = replay evs2 (replay evs1 s).
Proof. unfold replay. apply fold_left_app. Qed.

Section Performs.

Variable P : Event -> bool.

Lemma performs_ret (R : Type) (r : R) : performs P (Ret r : itree appE R).
Proof.
  intros w fuel st. exists []. rewrite run_ret. cbn.
  rewrite app_nil_r. auto.
Qed.

Lemma performs_trigger (X : Type) (e : appE X) :
  P (ev e) = true -> performs P (ITree.trigger e).
Proof.
  intros HP w fuel st. destruct fuel as [|n].
  - exists []. cbn. rewrite app_nil_r. auto.
  - exists [ev e]. rewrite run_trigger. cbn. rewrite HP. auto.
Qed.

Lemma performs_bind (R S : Type) (t : itree appE R) (k : R -> itree appE S) :
  performs P t -> (forall r, performs P (k r)) -> performs P (ITree.bind t k).
Proof.
  intros Ht Hk w fuel st. rewrite run_bind.
  destruct (Ht w fuel st) as (evs1 & Htr1 & Hs1 & HP1).
  destruct (run fuel w st t) as [st1 r rest|st1]; cbn in Htr1, Hs1.
  - destruct (Hk r w rest st1) as (evs2 & Htr2 & Hs2 & HP2).
    exists (evs1 ++ evs2).
    rewrite Htr2, Hs2, Htr1, Hs1, replay_app, forallb_app, HP1, HP2, app_assoc.
    auto.
  - exists evs1. cbn. auto.
Qed.

Lemma performs_await (A B : Type) (p : Async A) (k : A -> Async B) :
  performs P p -> (forall a, performs P (k a)) -> performs P (await p k).
Proof.
  intros Hp Hk. apply performs_bind; [exact Hp|].
  intros [e|a]; [apply performs_ret | apply Hk].
Qed.

Lemma performs_iter (I R : Type) (body : I -> itree appE (I + R)) :
  (forall i, performs P (body i)) -> forall i, performs P (ITree.iter body i).
Proof.
  intros Hbody i w fuel. revert i.
  induction fuel as [fuel IH] using lt_wf_ind. intros i st.
  rewrite run_iter.
  destruct (Hbody i w fuel st) as (evs1 & Htr1 & Hs1 & HP1).
  destruct (run fuel w st (body i)) as [st1 [i'|r] rest|st1] eqn:Hrun;
    cbn in Htr1, Hs1.
  - destruct rest as [|rest].
    + exists evs1. cbn. auto.
    + apply run_rest_le in Hrun.
      destruct (IH rest ltac:(lia) i' st1) as (evs2 & Htr2 & Hs2 & HP2).
      exists (evs1 ++ evs2).
      rewrite Htr2, Hs2, Htr1, Hs1, replay_app, forallb_app, HP1, HP2, app_assoc.
      auto.
  - exists evs1. cbn. auto.
  - exists evs1. cbn. auto.
Qed.

(** Every run only ever adds to the trace. *)
Lemma run_trace_extends (R : Type) (w : World) (fuel : nat) :
  forall (st : RunState) (t : itree appE R),
  exists evs, trace (state_of (run fuel w st t)) = trace st ++ evs.
Proof.
  induction fuel as [|n IH]; intros st t; cbn [run].
  - exists []. rewrite app_nil_r. destruct (observe t); reflexivity.
  - destruct (observe t) as [r|t'|X e k].
    + exists []. rewrite app_nil_r. reflexivity.
    + apply IH.
    + destruct (IH (fst (perform w st e)) (k (snd (perform w st e))))
        as (evs & Hevs).
      exists (ev e :: evs). cbn in Hevs. cbn. rewrite Hevs, <- app_assoc.
      reflexivity.
Qed.

End Performs.

Lemma performs_weaken (P Q : Event -> bool) (R : Type) (t : itree appE R) :
  (forall e, P e = true -> Q e = true) -> performs P t -> performs Q t.
Proof.
  intros HPQ Ht w fuel st.
  destruct (Ht w fuel st) as (evs & Htr & Hs & HP).
  exists evs. repeat split; auto.
  rewrite forallb_forall in *. auto.
Qed.

(** A cell that no event of [evs] sets keeps its value. *)
Lemma replay_frame (A : Type) (f : Session -> A) (P : Event -> bool)
    (evs : list Event) (s : Session) :
  (forall e s', P e = true -> f (update (projT2 e) s') = f s') ->
  forallb P evs = true ->
  f (replay evs s) = f s.
Proof.
  intros Hf. revert s. induction evs as [|e evs IH]; intros s HP; cbn in *.
  - reflexivity.
  - apply andb_true_iff in HP as [He Hevs].
    unfold replay in IH. rewrite IH by assumption. apply Hf, He.
Qed.

Lemma replay_keeps_cells (evs : list Event) (s : Session) :
  forallb keeps_cells evs = true -> same_cells s (replay evs s).
Proof.
  intros H. unfold same_cells.
  repeat split;
    (apply replay_frame with (P := keeps_cells); [|exact H]);
    intros [X e] s' He; destruct e; cbn in *; congruence.
Qed.

(** ** The service functions *)

Lemma performs_fileToBase64 (file : File) :
  performs reader_event (fileToBase64 file).
Proof.
  unfold fileToBase64. apply performs_bind.
  - apply performs_trigger. reflexivity.
  - intros [[s| |]|error]; apply performs_ret.
Qed.

(** Every entry of the message list that the loop can reach is a non-empty
    string. *)
Lemma progress_message_not_empty (messageIndex : nat) :
  negb (nth (messageIndex mod length progressMessages) progressMessages "" =? "")
  = true.
Proof.
  pose proof (Nat.mod_upper_bound messageIndex (length progressMessages)
                ltac:(discriminate)) as Hlt.
  destruct (messageIndex mod length progressMessages)
    as [|[|[|[|[|[|[|i]]]]]]]; try reflexivity.
  cbn in Hlt. lia.
Qed.

Lemma performs_pollOperation_from (ai : GoogleGenAI) (vars : PollState) :
  performs poll_event (pollOperation_from ai setLoadingMessage vars).
Proof.
  unfold pollOperation_from. revert vars. apply performs_iter.
  intros [currentOperation messageIndex]. unfold pollOperation_body.
  destruct (negb (truthy_bool (done currentOperation))).
  - apply performs_bind;
      [apply performs_trigger, progress_message_not_empty|]. intros _.
    apply performs_bind; [apply performs_trigger; reflexivity|]. intros _.
    apply performs_bind; [apply performs_trigger; reflexivity|].
    intros [e|answered].
    + apply performs_bind; [apply performs_trigger; reflexivity|]. intros _.
      apply performs_ret.
    + apply performs_ret.
  - apply performs_ret.
Qed.

Lemma poll_event_service (e : Event) :
  poll_event e = true -> service_event e = true.
Proof. destruct e as [X e]; destruct e; cbn; congruence. Qed.

Lemma performs_generateVideoFromImage_download (env : ProcessEnv)
    (completedOperation : GenerateVideosOperation) :
  performs service_event
    (generateVideoFromImage_download env setLoadingMessage completedOperation).
Proof.
  unfold generateVideoFromImage_download.
  destruct (negb (truthy (downloadLink_of completedOperation))).
  - apply performs_bind; [apply performs_trigger; reflexivity|]. intros _.
    apply performs_ret.
  - apply performs_bind; [apply performs_trigger; reflexivity|]. intros _.
    apply performs_await; [apply performs_trigger; reflexivity|].
    intros videoResponse.
    destruct (negb (ok videoResponse)); [apply performs_ret|].
    apply performs_await; [apply performs_trigger; reflexivity|]. intros videoBlob.
    apply performs_ret.
Qed.

Lemma performs_generateVideoFromImage (env : ProcessEnv)
    (base64Image : option string) (mimeType prompt : string) :
  performs service_event
    (generateVideoFromImage env base64Image mimeType prompt setLoadingMessage).
Proof.
  unfold generateVideoFromImage.
  destruct (negb (truthy (API_KEY env))); [apply performs_ret|].
  apply performs_bind; [apply performs_trigger; reflexivity|]. intros _.
  apply performs_await; [apply performs_trigger; reflexivity|]. intros operation.
  apply performs_bind; [apply performs_trigger; reflexivity|]. intros _.
  apply performs_await.
  { apply performs_weaken with (P := poll_event);
      [apply poll_event_service | apply performs_pollOperation_from]. }
  apply performs_generateVideoFromImage_download.
Qed.

(* ===================================================================== *)
(** * The poll loop, turn by turn *)
(* ===================================================================== *)

Section PollLoop.

Variable w : World.
Variable ai : GoogleGenAI.

(** The loop returns at once when the operation is done. *)
Lemma poll_exit (fuel : nat) (st : RunState)
    (operation : GenerateVideosOperation) (messageIndex : nat) :
  truthy_bool (done operation) = true ->
  run fuel w st (pollOperation_from ai setLoadingMessage (operation, messageIndex))
  = Done st (inr operation) fuel.
Proof.
  intros Hdone. unfold pollOperation_from. rewrite run_iter.
  unfold pollOperation_body. rewrite Hdone. cbn [negb].
  rewrite run_ret. reflexivity.
Qed.

(** One turn with a query that is answered: the callback, the timer, the
    query; then the loop again with the answer. *)
Lemma poll_turn_answered (st : RunState) (operation : GenerateVideosOperation)
    (messageIndex : nat) (answered : GenerateVideosOperation) (fuel : nat) :
  truthy_bool (done operation) = false ->
  getVideosOperation w (polls st) operation = inr answered ->
  run (4 + fuel) w st
    (pollOperation_from ai setLoadingMessage (operation, messageIndex))
  = run fuel w
      (advance st (turn_events ai w (polls st) operation messageIndex) 1)
      (pollOperation_from ai setLoadingMessage (answered, S messageIndex)).
Proof.
  intros Hdone Hq. unfold pollOperation_from at 1. rewrite run_iter.
  unfold pollOperation_body. rewrite Hdone.
  cbn -[Nat.modulo nth progressMessages]. rewrite Hq.
  cbn -[Nat.modulo nth progressMessages].
  unfold advance, turn_events. rewrite ?Hq.
  cbn -[Nat.modulo nth progressMessages]. rewrite <- !app_assoc. reflexivity.
Qed.

(** One turn with a query that fails: the same, and the failure is logged;
    then the loop again with the operation it had. *)
Lemma poll_turn_failed (st : RunState) (operation : GenerateVideosOperation)
    (messageIndex : nat) (e : JsValue) (fuel : nat) :
  truthy_bool (done operation) = false ->
  getVideosOperation w (polls st) operation = inl e ->
  run (5 + fuel) w st
    (pollOperation_from ai setLoadingMessage (operation, messageIndex))
  = run fuel w
      (advance st (turn_events ai w (polls st) operation messageIndex) 1)
      (pollOperation_from ai setLoadingMessage (operation, S messageIndex)).
Proof.
  intros Hdone Hq. unfold pollOperation_from at 1. rewrite run_iter.
  unfold pollOperation_body. rewrite Hdone.
  cbn -[Nat.modulo nth progressMessages]. rewrite Hq.
  cbn -[Nat.modulo nth progressMessages].
  unfold advance, turn_events. rewrite ?Hq.
  cbn -[Nat.modulo nth progressMessages]. rewrite <- !app_assoc. reflexivity.
Qed.

(** One turn, whatever the answer. *)
Lemma poll_turn (st : RunState) (operation : GenerateVideosOperation)
    (messageIndex : nat) :
  truthy_bool (done operation) = false ->
  exists (cost : nat) (st' : RunState),
    4 <= cost <= 5
    /\ (forall fuel,
          run (cost + fuel) w st
            (pollOperation_from ai setLoadingMessage (operation, messageIndex))
          = run fuel w st'
              (pollOperation_from ai setLoadingMessage
                 (next w (polls st) operation, S messageIndex)))
    /\ polls st' = S (polls st)
    /\ trace st' = trace st ++ turn_events ai w (polls st) operation messageIndex
    /\ session st' = replay (turn_events ai w (polls st) operation messageIndex)
                       (session st).
Proof.
  intros Hdone.
  destruct (getVideosOperation w (polls st) operation) as [e|answered] eqn:Hq;
    [exists 5 | exists 4];
    exists (advance st (turn_events ai w (polls st) operation messageIndex) 1);
    (split; [lia|]; split; [|repeat split]); intros fuel; unfold next;
    rewrite Hq.
  - apply poll_turn_failed with (e := e); assumption.
  - apply poll_turn_answered; assumption.
Qed.

(** The loop waits as long as the operation is not done. *)
Lemma poll_waiting (st : RunState) (operation : GenerateVideosOperation)
    (messageIndex : nat) :
  truthy_bool (done operation) = false ->
  run 0 w st (pollOperation_from ai setLoadingMessage (operation, messageIndex))
  = Pending st.
Proof.
  intros Hdone. unfold pollOperation_from. rewrite run_iter.
  unfold pollOperation_body. rewrite Hdone. reflexivity.
Qed.

(** [n] turns in a row, while the operation is not done. *)
Lemma poll_turns (n : nat) :
  forall (st : RunState) (operation : GenerateVideosOperation)
         (messageIndex : nat),
  (forall i, i < n ->
     truthy_bool (done (currentAfter w (polls st) operation i)) = false) ->
  exists (cost : nat) (st' : RunState),
    4 * n <= cost <= 5 * n
    /\ (forall fuel,
          run (cost + fuel) w st
            (pollOperation_from ai setLoadingMessage (operation, messageIndex))
          = run fuel w st'
              (pollOperation_from ai setLoadingMessage
                 (currentAfter w (polls st) operation n, n + messageIndex)))
    /\ polls st' = n + polls st
    /\ trace st' = trace st ++ poll_events ai w (polls st) operation messageIndex n
    /\ session st' = replay (poll_events ai w (polls st) operation messageIndex n)
                       (session st).
Proof.
  induction n as [|n IH]; intros st operation messageIndex Hnot.
  - exists 0, st. cbn. rewrite app_nil_r. repeat split; auto.
  - destruct (poll_turn st operation messageIndex (Hnot 0 ltac:(lia)))
      as (c1 & st1 & Hc1 & Hrun1 & Hp1 & Ht1 & Hs1).
    destruct (IH st1 (next w (polls st) operation) (S messageIndex))
      as (c2 & st2 & Hc2 & Hrun2 & Hp2 & Ht2 & Hs2).
    { intros i Hi. rewrite Hp1. apply (Hnot (S i)). lia. }
    exists (c1 + c2), st2. split; [lia|]. split; [|split; [|split]].
    + intros fuel. rewrite <- Nat.add_assoc, Hrun1, Hrun2, Hp1.
      cbn [currentAfter]. rewrite Nat.add_succ_r. reflexivity.
    + lia.
    + rewrite Ht2, Ht1, Hp1. cbn [poll_events]. rewrite app_assoc. reflexivity.
    + rewrite Hs2, Hs1, Hp1. cbn [poll_events]. rewrite replay_app. reflexivity.
Qed.

End PollLoop.

(** A run that is still pending on a budget was pending on every smaller
    one. *)
Lemma run_pending_earlier (R : Type) (w : World) (fuel extra : nat)
    (st st' : RunState) (t : itree appE R) :
  run (fuel + extra) w st t = Pending st' ->
  exists st'', run fuel w st t = Pending st''.
Proof.
  intros Hlater. destruct (run fuel w st t) as [st1 r rest|st1] eqn:Hrun.
  - apply run_more with (extra := extra) in Hrun. congruence.
  - exists st1. reflexivity.
Qed.

Lemma calls_app (evs1 evs2 : list Event) :
  calls (evs1 ++ evs2) = calls evs1 ++ calls evs2.
Proof. apply flat_map_app. Qed.

Lemma calls_turn_events (ai : GoogleGenAI) (w : World) (asked : nat)
    (operation : GenerateVideosOperation) (messageIndex : nat) :
  calls (turn_events ai w asked operation messageIndex)
  = [ Progress (nth (messageIndex mod 7) progressMessages ""); Poll ].
Proof.
  unfold turn_events.
  destruct (getVideosOperation w asked operation); reflexivity.
Qed.

(** In [n] turns the callback and the query alternate, and the message of
    turn [i] is the one at [i mod 7]. *)
Lemma calls_poll_events (ai : GoogleGenAI) (w : World) (n : nat) :
  forall (asked : nat) (operation : GenerateVideosOperation) (messageIndex : nat),
  calls (poll_events ai w asked operation messageIndex n)
  = flat_map (fun i => [ Progress (nth (i mod 7) progressMessages ""); Poll ])
      (seq messageIndex n).
Proof.
  induction n as [|n IH]; intros asked operation messageIndex.
  - reflexivity.
  - cbn [poll_events seq flat_map].
    rewrite calls_app, calls_turn_events, IH. reflexivity.
Qed.

(** With a credential and an accepted submission, the function performs its
    first three events and enters the loop. *)
Lemma generate_enters_loop (w : World) (env : ProcessEnv)
    (base64Image : option string) (mimeType prompt : string)
    (operation : GenerateVideosOperation) (st : RunState) (fuel : nat) :
  truthy (API_KEY env) = true ->
  generateVideos w {| apiKey := API_KEY env |}
    (generateVideos_params base64Image mimeType prompt) = inr operation ->
  run (3 + fuel) w st
    (generateVideoFromImage env base64Image mimeType prompt setLoadingMessage)
  = run fuel w (advance st (submit_events env base64Image mimeType prompt) 0)
      (completedOperation <~
         pollOperation_from {| apiKey := API_KEY env |} setLoadingMessage
           (operation, 0);;
       generateVideoFromImage_download env setLoadingMessage completedOperation).
Proof.
  intros Hkey Hsubmit. unfold generateVideoFromImage. rewrite Hkey.
  cbn [negb]. cbn [Nat.add].
  unfold setLoadingMessage at 1. rewrite run_bind, run_trigger. cbn [fst snd].
  rewrite run_await, run_trigger. cbn [fst snd perform answer].
  rewrite Hsubmit.
  unfold setLoadingMessage at 1. rewrite run_bind, run_trigger. cbn [fst snd].
  unfold pollOperation, advance, submit_events, perform.
  cbn [session polls trace is_poll replay fold_left projT2 ev Nat.add].
  rewrite <- !app_assoc. reflexivity.
Qed.

(* ===================================================================== *)
(** * What a piece of code may return *)
(* ===================================================================== *)

Section Returns.

Lemma returns_ret (R : Type) (Q : R -> Prop) (r : R) :
  Q r -> returns Q (Ret r : itree appE R).
Proof.
  intros HQ w fuel st st' r' rest H. rewrite run_ret in H.
  inversion H; subst. exact HQ.
Qed.

Lemma returns_bind (R S : Type) (Q : S -> Prop) (t : itree appE R)
    (k : R -> itree appE S) :
  (forall r, returns Q (k r)) -> returns Q (ITree.bind t k).
Proof.
  intros Hk w fuel st st' s rest H. rewrite run_bind in H.
  destruct (run fuel w st t) as [st1 r rest1|st1]; [|discriminate].
  exact (Hk r w rest1 st1 st' s rest H).
Qed.

Lemma returns_iter (I R : Type) (Q : R -> Prop)
    (body : I -> itree appE (I + R)) :
  (forall i, returns (fun x => match x with
                                | inl _ => True
                                | inr r => Q r
                                end) (body i)) ->
  forall i, returns Q (ITree.iter body i).
Proof.
  intros Hbody i w fuel. revert i.
  induction fuel as [fuel IH] using lt_wf_ind.
  intros i st st' r rest H. rewrite run_iter in H.
  destruct (run fuel w st (body i)) as [st1 [i'|r1] rest1|st1] eqn:Hrun;
    [|inversion H; subst; exact (Hbody i w fuel st st' (inr r) rest Hrun)|discriminate].
  destruct rest1 as [|rest1]; [discriminate|].
  apply run_rest_le in Hrun.
  exact (IH rest1 ltac:(lia) i' st1 st' r rest H).
Qed.

End Returns.

(** The poll loop has no way to reject: when it returns, it resolves. *)
Lemma pollOperation_from_resolves (ai : GoogleGenAI)
    (onProgress : string -> itree appE unit) (vars : PollState) :
  returns resolved (pollOperation_from ai onProgress vars).
Proof.
  unfold pollOperation_from. revert vars. apply returns_iter.
  intros [currentOperation messageIndex]. unfold pollOperation_body.
  destruct (negb (truthy_bool (done currentOperation))).
  - apply returns_bind. intros _. apply returns_bind. intros _.
    apply returns_bind. intros [e|answered].
    + apply returns_bind. intros _. apply returns_ret. exact I.
    + apply returns_ret. exact I.
  - apply returns_ret. exists currentOperation. reflexivity.
Qed.

(* ===================================================================== *)
(** * The click handler, piece by piece *)
(* ===================================================================== *)

Lemma reader_event_keeps_cells (e : Event) :
  reader_event e = true -> keeps_cells e = true.
Proof. destruct e as [X e]; destruct e; cbn; congruence. Qed.

Lemma service_event_keeps_cells (e : Event) :
  service_event e = true -> keeps_cells e = true.
Proof. destruct e as [X e]; destruct e; cbn; congruence. Qed.

Lemma try_event_keeps_cells (e : Event) :
  try_event e = true -> keeps_cells e = true.
Proof.
  unfold try_event. intros H. apply orb_true_iff in H as [H|H].
  - apply reader_event_keeps_cells, H.
  - apply service_event_keeps_cells, H.
Qed.

Section Handler.

Variable w : World.
Variable env : ProcessEnv.

(** The guard of [handleGenerateVideo]: one call of [setError], nothing
    else. *)
Lemma handler_rejects_input (imageFile : option File) (prompt : string)
    (st : RunState) (fuel : nat) :
  negb (truthy_obj imageFile) || negb (truthy (Some prompt)) = true ->
  run (S fuel) w st (handleGenerateVideo env imageFile prompt)
  = Done (advance st
            [ ev (SetError (Some "Please upload an image and provide a prompt.")) ]
            0) tt fuel.
Proof.
  intros Hguard. unfold handleGenerateVideo. rewrite Hguard.
  rewrite run_trigger. reflexivity.
Qed.

(** Past the guard: three setters, then the [try] block, then the [catch]
    block when the [try] block rejected. *)
Lemma handler_enters_try (file : File) (prompt : string) (st : RunState)
    (fuel : nat) :
  truthy (Some prompt) = true ->
  run (3 + fuel) w st (handleGenerateVideo env (Some file) prompt)
  = match run fuel w (advance st start_events 0)
            (handleGenerateVideo_try env file prompt) with
    | Done st' (inl err) rest => run rest w st' (handleGenerateVideo_catch err)
    | Done st' (inr _) rest => Done st' tt rest
    | Pending st' => Pending st'
    end.
Proof.
  intros Hprompt. unfold handleGenerateVideo. rewrite Hprompt.
  cbn [truthy_obj negb orb Nat.add].
  rewrite run_bind, run_trigger. cbn [fst snd].
  rewrite run_bind, run_trigger. cbn [fst snd].
  rewrite run_bind, run_trigger. cbn [fst snd].
  rewrite run_bind.
  replace (fst (perform w (fst (perform w (fst (perform w st
             (SetAppState GENERATING))) (SetError None)))
             (SetLoadingMessage "Preparing your image...")))
    with (advance st start_events 0).
  2:{ unfold advance, perform, start_events.
      cbn [session polls trace is_poll replay fold_left projT2 ev Nat.add fst].
      rewrite <- !app_assoc. reflexivity. }
  destruct (run fuel w (advance st start_events 0)
              (handleGenerateVideo_try env file prompt))
    as [st' [err|u] rest|st']; try reflexivity.
  apply run_ret.
Qed.

Lemma catch_finishes (err : JsValue) (st : RunState) (fuel : nat) :
  run (3 + fuel) w st (handleGenerateVideo_catch err)
  = Done (advance st (catch_events err) 0) tt fuel.
Proof.
  unfold handleGenerateVideo_catch. cbn [Nat.add].
  rewrite run_bind, run_trigger. cbn [fst snd].
  rewrite run_bind, run_trigger. cbn [fst snd].
  rewrite run_trigger. unfold advance, perform, catch_events.
  cbn [session polls trace is_poll replay fold_left projT2 ev Nat.add fst snd
       answer].
  rewrite <- !app_assoc. reflexivity.
Qed.

(** Until its last setter the [catch] block leaves [appState] alone. *)
Lemma catch_pending (err : JsValue) (st st' : RunState) (fuel : nat) :
  run fuel w st (handleGenerateVideo_catch err) = Pending st' ->
  appState (session st') = appState (session st).
Proof.
  destruct fuel as [|[|[|fuel]]]; cbn; intros H;
    try (inversion H; reflexivity).
  rewrite run_ret in H. discriminate.
Qed.

(** The [try] block: while it runs, and when it rejects, it has only read
    the file, talked to the service and shown messages; it sets [appState]
    as its last step, when everything has succeeded. *)
Lemma try_outcome (file : File) (prompt : string) (st : RunState)
    (fuel : nat) :
  match run fuel w st (handleGenerateVideo_try env file prompt) with
  | Done st' (inl err) rest =>
      exists evs, trace st' = trace st ++ evs
                  /\ session st' = replay evs (session st)
                  /\ forallb try_event evs = true
  | Done st' (inr _) rest => appState (session st') = SUCCESS
  | Pending st' => appState (session st') = appState (session st)
  end.
Proof.
  unfold handleGenerateVideo_try. rewrite run_await.
  destruct (performs_fileToBase64 file w fuel st) as (evs1 & Ht1 & Hs1 & HP1).
  assert (HP1' : forallb try_event evs1 = true).
  { rewrite forallb_forall in *. intros e He. unfold try_event.
    rewrite (HP1 e He). reflexivity. }
  assert (HK1 : forallb keeps_cells evs1 = true).
  { rewrite forallb_forall in *. intros e He.
    apply try_event_keeps_cells, HP1', He. }
  destruct (run fuel w st (fileToBase64 file)) as [st1 [e|b64] rest1|st1];
    cbn [state_of] in Ht1, Hs1.
  - exists evs1. auto.
  - rewrite run_await.
    destruct (performs_generateVideoFromImage env b64 (type file) prompt
                w rest1 st1) as (evs2 & Ht2 & Hs2 & HP2).
    assert (HP2' : forallb try_event evs2 = true).
    { rewrite forallb_forall in *. intros e He. unfold try_event.
      rewrite (HP2 e He). apply orb_true_r. }
    assert (HK2 : forallb keeps_cells evs2 = true).
    { rewrite forallb_forall in *. intros e He.
      apply try_event_keeps_cells, HP2', He. }
    assert (Hstate : forall st2,
               session st2 = replay evs2 (session st1) ->
               appState (session st2) = appState (session st)).
    { intros st2 Hs. rewrite Hs, Hs1.
      destruct (replay_keeps_cells evs2 (replay evs1 (session st)) HK2)
        as (-> & _).
      destruct (replay_keeps_cells evs1 (session st) HK1) as (-> & _).
      reflexivity. }
    destruct (run rest1 w st1
                (generateVideoFromImage env b64 (type file) prompt
                   setLoadingMessage)) as [st2 [e|videoBlob] rest2|st2];
      cbn [state_of] in Ht2, Hs2.
    + exists (evs1 ++ evs2).
      rewrite Ht2, Hs2, Ht1, Hs1, replay_app, forallb_app, HP1', HP2', app_assoc.
      auto.
    + specialize (Hstate st2 Hs2).
      destruct rest2 as [|[|[|rest2]]]; cbn; try exact Hstate.
      destruct rest2; reflexivity.
    + apply Hstate, Hs2.
  - rewrite Hs1. destruct (replay_keeps_cells evs1 (session st) HK1) as (-> & _).
    reflexivity.
Qed.

End Handler.

(* ===================================================================== *)
(** * The download is requested only with a link *)
(* ===================================================================== *)

Lemma forallb_not_fetch (evs : list Event) :
  forallb not_fetch evs = true -> existsb is_fetch evs = false.
Proof.
  induction evs as [|e evs IH]; cbn; [reflexivity|].
  unfold not_fetch at 1. intros H. apply andb_true_iff in H as [He Hevs].
  apply negb_true_iff in He. rewrite He, IH by assumption. reflexivity.
Qed.

Lemma poll_event_not_fetch (e : Event) :
  poll_event e = true -> not_fetch e = true.
Proof. destruct e as [X e]; destruct e; cbn; congruence. Qed.

Lemma turn_events_no_fetch (ai : GoogleGenAI) (w : World) (asked : nat)
    (operation : GenerateVideosOperation) (messageIndex : nat) :
  existsb is_fetch (turn_events ai w asked operation messageIndex) = false.
Proof.
  unfold turn_events. destruct (getVideosOperation w asked operation); reflexivity.
Qed.

Lemma poll_events_no_fetch (ai : GoogleGenAI) (w : World) (n : nat) :
  forall (asked : nat) (operation : GenerateVideosOperation) (messageIndex : nat),
  existsb is_fetch (poll_events ai w asked operation messageIndex n) = false.
Proof.
  induction n as [|n IH]; intros asked operation messageIndex.
  - reflexivity.
  - cbn [poll_events]. rewrite existsb_app, turn_events_no_fetch, IH. reflexivity.
Qed.

(** Without a link the part after the loop logs and throws. *)
Lemma download_without_link (w : World) (env : ProcessEnv)
    (completedOperation : GenerateVideosOperation) (st : RunState) (fuel : nat) :
  truthy (downloadLink_of completedOperation) = false ->
  run (1 + fuel) w st
    (generateVideoFromImage_download env setLoadingMessage completedOperation)
  = Done (advance st [ ev (ConsoleError [LogString "API Response:";
                                         LogOperation completedOperation]) ] 0)
      (inl (JsError "Video generation failed or did not return a valid download link."))
      fuel.
Proof.
  intros Hlink. unfold generateVideoFromImage_download. rewrite Hlink.
  cbn [negb Nat.add]. rewrite run_bind, run_trigger. cbn [fst snd].
  unfold throw. rewrite run_ret. reflexivity.
Qed.

Lemma performs_download_without_link (env : ProcessEnv)
    (completedOperation : GenerateVideosOperation) :
  truthy (downloadLink_of completedOperation) = false ->
  performs not_fetch
    (generateVideoFromImage_download env setLoadingMessage completedOperation).
Proof.
  intros Hlink. unfold generateVideoFromImage_download. rewrite Hlink.
  apply performs_bind; [apply performs_trigger; reflexivity|]. intros _.
  apply performs_ret.
Qed.

Section FetchNeedsLink.

Variable w : World.
Variable env : ProcessEnv.
Variable ai : GoogleGenAI.

(** From the loop on: a download request in the trace means that the job
    completed and that its payload has a link. *)
Lemma fetch_after_loop_needs_link (fuel : nat) :
  forall (st : RunState) (operation : GenerateVideosOperation)
         (messageIndex : nat) (evs : list Event),
    trace (state_of
             (run fuel w st
                (completedOperation <~
                   pollOperation_from ai setLoadingMessage
                     (operation, messageIndex);;
                 generateVideoFromImage_download env setLoadingMessage
                   completedOperation)))
    = trace st ++ evs ->
    existsb is_fetch evs = true ->
    exists n, completes_at w (polls st) operation n
              /\ truthy (downloadLink_of (currentAfter w (polls st) operation n))
                 = true.
Proof.
  induction fuel as [fuel IH] using lt_wf_ind.
  intros st operation messageIndex evs Htrace Hfetch.
  destruct (truthy_bool (done operation)) eqn:Hdone.
  - (* the operation is done: the loop returns at once *)
    exists 0. split; [split; [intros i Hi; lia | exact Hdone]|].
    cbn [currentAfter].
    destruct (truthy (downloadLink_of operation)) eqn:Hlink; [reflexivity|].
    rewrite run_await, poll_exit in Htrace by exact Hdone.
    destruct (performs_download_without_link env operation Hlink w fuel st)
      as (evs' & Htrace' & _ & Hnone).
    rewrite Htrace' in Htrace. apply app_inv_head in Htrace. subst evs'.
    apply forallb_not_fetch in Hnone. congruence.
  - (* one more turn *)
    destruct (poll_turn w ai st operation messageIndex Hdone)
      as (cost & st1 & Hcost & Hrun & Hpolls & Htrace1 & _).
    destruct (le_lt_dec cost fuel) as [Hle|Hlt].
    + replace fuel with (cost + (fuel - cost)) in Htrace by lia.
      rewrite run_await, Hrun in Htrace.
      destruct (run_trace_extends w (fuel - cost) st1
                  (completedOperation <~
                     pollOperation_from ai setLoadingMessage
                       (next w (polls st) operation, S messageIndex);;
                   generateVideoFromImage_download env setLoadingMessage
                     completedOperation)) as (evs1 & Hevs1).
      pose proof Hevs1 as Hevs1'.
      rewrite run_await, Htrace, Htrace1, <- app_assoc in Hevs1'.
      apply app_inv_head in Hevs1'. subst evs.
      rewrite existsb_app, turn_events_no_fetch in Hfetch. cbn [orb] in Hfetch.
      destruct (IH (fuel - cost) ltac:(lia) st1 _ _ evs1 Hevs1 Hfetch)
        as (n & (Hbefore & Hat) & Hlink).
      rewrite Hpolls in Hbefore, Hat, Hlink.
      exists (S n). split; [split|].
      * intros [|i] Hi; [exact Hdone|]. apply Hbefore. lia.
      * exact Hat.
      * exact Hlink.
    + (* the budget ends within the turn *)
      assert (Hpending : exists st',
                 run fuel w st
                   (pollOperation_from ai setLoadingMessage
                      (operation, messageIndex)) = Pending st').
      { destruct (run fuel w st
                    (pollOperation_from ai setLoadingMessage
                       (operation, messageIndex)))
          as [st' r rest|st'] eqn:Hfuel; [|eauto].
        apply run_more with (extra := cost - fuel) in Hfuel.
        replace (fuel + (cost - fuel)) with (cost + 0) in Hfuel by lia.
        rewrite Hrun in Hfuel. apply run_rest_le in Hfuel. lia. }
      destruct Hpending as (st' & Hpending).
      rewrite run_await in Htrace.
      destruct (performs_pollOperation_from ai (operation, messageIndex)
                  w fuel st) as (evs' & Htrace' & _ & Hpoll).
      rewrite Hpending in Htrace, Htrace'. cbn [state_of] in Htrace, Htrace'.
      rewrite Htrace' in Htrace.
      apply app_inv_head in Htrace. subst evs'.
      assert (Hnone : forallb not_fetch evs = true).
      { rewrite forallb_forall in *. intros e He.
        apply poll_event_not_fetch, Hpoll, He. }
      apply forallb_not_fetch in Hnone. congruence.
Qed.

End FetchNeedsLink.

(* ===================================================================== *)
(** * Without a credential nothing leaves the browser *)
(* ===================================================================== *)

Lemma forallb_local (evs : list Event) :
  forallb local_event evs = true -> existsb is_network evs = false.
Proof.
  induction evs as [|e evs IH]; cbn; [reflexivity|].
  unfold local_event at 1. intros H. apply andb_true_iff in H as [He Hevs].
  apply negb_true_iff in He. rewrite He, IH by assumption. reflexivity.
Qed.

Lemma reader_event_local (e : Event) :
  reader_event e = true -> local_event e = true.
Proof. destruct e as [X e]; destruct e; cbn; congruence. Qed.

Lemma generate_without_key (w : World) (env : ProcessEnv)
    (base64Image : option string) (mimeType prompt : string)
    (onProgress : string -> itree appE unit) (fuel : nat) (st : RunState) :
  truthy (API_KEY env) = false ->
  run fuel w st (generateVideoFromImage env base64Image mimeType prompt onProgress)
  = Done st
      (inl (JsError
         "API key not found. Please ensure the API_KEY environment variable is set."))
      fuel.
Proof.
  intros Hkey. unfold generateVideoFromImage. rewrite Hkey. apply run_ret.
Qed.

Lemma performs_handler_without_key (env : ProcessEnv)
    (imageFile : option File) (prompt : string) :
  truthy (API_KEY env) = false ->
  performs local_event (handleGenerateVideo env imageFile prompt).
Proof.
  intros Hkey. unfold handleGenerateVideo.
  destruct (negb (truthy_obj imageFile) || negb (truthy (Some prompt)));
    [apply performs_trigger; reflexivity|].
  destruct imageFile as [file|]; [|apply performs_ret].
  apply performs_bind; [apply performs_trigger; reflexivity|]. intros _.
  apply performs_bind; [apply performs_trigger; reflexivity|]. intros _.
  apply performs_bind; [apply performs_trigger; reflexivity|]. intros _.
  apply performs_bind.
  - unfold handleGenerateVideo_try. apply performs_await.
    + apply performs_weaken with (P := reader_event);
        [apply reader_event_local | apply performs_fileToBase64].
    + intros base64Image. apply performs_await.
      * unfold generateVideoFromImage. rewrite Hkey. apply performs_ret.
      * intros videoBlob.
        apply performs_bind; [apply performs_trigger; reflexivity|].
        intros videoUrl.
        apply performs_bind; [apply performs_trigger; reflexivity|]. intros _.
        apply performs_bind; [apply performs_trigger; reflexivity|]. intros _.
        apply performs_ret.
  - intros [err|u]; [|apply performs_ret].
    unfold handleGenerateVideo_catch.
    apply performs_bind; [apply performs_trigger; reflexivity|]. intros _.
    apply performs_bind; [apply performs_trigger; reflexivity|]. intros _.
    apply performs_trigger; reflexivity.
Qed.

(* ===================================================================== *)
(** * A failure inside the [try] block *)
(* ===================================================================== *)

Lemma replay_loadingMessage (evs : list Event) :
  forall s, loadingMessage (replay evs s) = shown_after (loadingMessage s) evs.
Proof.
  induction evs as [|[X e] evs IH]; intros s; [reflexivity|].
  unfold replay, shown_after in *. cbn [fold_left]. rewrite IH.
  destruct e; reflexivity.
Qed.

Lemma last_cons (A : Type) (a d : A) (l : list A) :
  last (a :: l) d = last l a.
Proof.
  revert a d. induction l as [|b l IH]; intros a d; [reflexivity|].
  change (last (a :: b :: l) d) with (last (b :: l) d).
  rewrite (IH b d), (IH b a). reflexivity.
Qed.

(** The message on display is the last one that was shown. *)
Lemma shown_after_last (evs : list Event) :
  forall current, shown_after current evs = last (shown evs) current.
Proof.
  induction evs as [|[X e] evs IH]; intros current; [reflexivity|].
  unfold shown_after, shown in *. cbn [fold_left flat_map].
  rewrite IH. destruct e; cbn [projT2 app]; try reflexivity.
  symmetry. apply last_cons.
Qed.

Lemma shown_after_says (evs : list Event) :
  forall current,
    forallb says_something evs = true ->
    current <> "" ->
    shown_after current evs <> "".
Proof.
  induction evs as [|[X e] evs IH]; intros current Hsays Hcurrent;
    [exact Hcurrent|].
  cbn [forallb] in Hsays. apply andb_true_iff in Hsays as [He Hevs].
  unfold shown_after in *. cbn [fold_left]. apply IH; [exact Hevs|].
  destruct e; cbn [projT2]; try exact Hcurrent.
  cbn in He. apply negb_true_iff in He. apply String.eqb_neq in He. exact He.
Qed.

Lemma try_event_says_something (e : Event) :
  try_event e = true -> says_something e = true.
Proof.
  unfold try_event. destruct e as [X e]; destruct e; cbn; congruence.
Qed.

Section Failure.

Variable w : World.
Variable env : ProcessEnv.

Lemma fails_with_try (file : File) (prompt : string) (st : RunState)
    (fuel : nat) (err : JsValue) (st_f : RunState) (rest : nat) :
  fails_with w env file prompt st fuel err st_f rest ->
  run fuel w st (handleGenerateVideo_try env file prompt)
  = Done st_f (inl err) rest.
Proof.
  intros [Hencode | (st1 & base64Image & rest1 & Hencode & Hgenerate)];
    unfold handleGenerateVideo_try; rewrite run_await, Hencode.
  - reflexivity.
  - rewrite run_await, Hgenerate. reflexivity.
Qed.

(** A failure inside the [try] block is caught once: the [catch] block
    runs on the state the failure left. *)
Lemma failure_reaches_catch (file : File) (prompt : string) (st : RunState)
    (fuel : nat) (err : JsValue) (st_f : RunState) (rest : nat) :
  truthy (Some prompt) = true ->
  fails_with w env file prompt (advance st start_events 0) fuel err st_f rest ->
  run (3 + (fuel + 3)) w st (handleGenerateVideo env (Some file) prompt)
  = Done (advance st_f (catch_events err) 0) tt rest.
Proof.
  intros Hprompt Hfails. apply fails_with_try in Hfails.
  rewrite handler_enters_try by exact Hprompt.
  apply run_more with (extra := 3) in Hfails. rewrite Hfails.
  replace (rest + 3) with (3 + rest) by lia. apply catch_finishes.
Qed.

End Failure.

(** With a link, a successful fetch and a readable body, the part after the
    loop shows its message, fetches and resolves with the blob. *)
Lemma download_with_link (w : World) (env : ProcessEnv)
    (completedOperation : GenerateVideosOperation) (videoResponse : Response)
    (videoBlob : Blob) (st : RunState) (fuel : nat) :
  truthy (downloadLink_of completedOperation) = true ->
  fetch w (template (downloadLink_of completedOperation) ++ "&key="
           ++ template (API_KEY env)) = inr videoResponse ->
  ok videoResponse = true ->
  blob w videoResponse = inr videoBlob ->
  run (3 + fuel) w st
    (generateVideoFromImage_download env setLoadingMessage completedOperation)
  = Done (advance st
            [ ev (SetLoadingMessage "Downloading generated video...");
              ev (Fetch (template (downloadLink_of completedOperation) ++ "&key="
                         ++ template (API_KEY env)));
              ev (ResponseBlob videoResponse) ] 0)
      (inr videoBlob) fuel.
Proof.
  intros Hlink Hfetch Hok Hblob. unfold generateVideoFromImage_download.
  rewrite Hlink. cbn [negb Nat.add].
  unfold setLoadingMessage. rewrite run_bind, run_trigger. cbn [fst snd].
  rewrite run_await, run_trigger. cbn [fst snd perform answer].
  rewrite Hfetch, Hok. cbn [negb].
  rewrite run_await, run_trigger. cbn [fst snd perform answer].
  rewrite Hblob. unfold resolve. rewrite run_ret.
  unfold advance.
  cbn [session polls trace is_poll replay fold_left projT2 ev Nat.add update].
  rewrite <- !app_assoc. reflexivity.
Qed.

(* ===================================================================== *)
(** * Facts about the concrete worlds *)
(* ===================================================================== *)

(** In the world [stuck] the job never reports completion. *)
Lemma stuck_never_done (asked : nat) :
  never_done Scenario.stuck asked Scenario.submitted.
Proof.
  intros n. revert asked. induction n as [|n IH]; intros asked.
  - reflexivity.
  - cbn [currentAfter].
    replace (next Scenario.stuck asked Scenario.submitted)
      with Scenario.submitted.
    + apply IH.
    + unfold next. cbn. destruct (Nat.even asked); reflexivity.
Qed.

(** In the world [linkless] the job completes with the first status query. *)
Lemma linkless_completes :
  completes_at Scenario.linkless 0 Scenario.submitted 1.
Proof.
  split.
  - intros i Hi. assert (i = 0) as -> by lia. reflexivity.
  - reflexivity.
Qed.

(* ===================================================================== *)
(** * From the submission to the download *)
(* ===================================================================== *)

(** A run whose job completes with the query numbered [n] gets through the
    loop and enters the part after it. *)
Lemma generate_reaches_download (w : World) (env : ProcessEnv)
    (base64Image : option string) (mimeType prompt : string) (st : RunState)
    (operation : GenerateVideosOperation) (n : nat) :
  truthy (API_KEY env) = true ->
  generateVideos w {| apiKey := API_KEY env |}
    (generateVideos_params base64Image mimeType prompt) = inr operation ->
  completes_at w (polls st) operation n ->
  exists (cost : nat) (st1 : RunState),
    4 * n <= cost <= 5 * n
    /\ (forall fuel,
          run (3 + (cost + fuel)) w st
            (generateVideoFromImage env base64Image mimeType prompt
               setLoadingMessage)
          = run fuel w st1
              (generateVideoFromImage_download env setLoadingMessage
                 (currentAfter w (polls st) operation n)))
    /\ polls st1 = n + polls st
    /\ trace st1
       = trace st
         ++ submit_events env base64Image mimeType prompt
         ++ poll_events {| apiKey := API_KEY env |} w (polls st) operation 0 n
    /\ same_cells (session st) (session st1).
Proof.
  intros Hkey Hsubmit [Hbefore Hat].
  set (ai := {| apiKey := API_KEY env |}).
  set (st3 := advance st (submit_events env base64Image mimeType prompt) 0).
  destruct (poll_turns w ai (n := n) st3 operation 0 Hbefore)
    as (cost & st1 & Hcost & Hrun & Hpolls & Htrace & Hsession).
  exists cost, st1. split; [exact Hcost|]. split; [|split; [|split]].
  - intros fuel.
    rewrite (generate_enters_loop w env base64Image mimeType prompt st _
               Hkey Hsubmit).
    fold st3 ai. rewrite run_await, Hrun, poll_exit by exact Hat. reflexivity.
  - exact Hpolls.
  - rewrite Htrace. unfold st3. cbn [advance trace]. rewrite <- app_assoc.
    reflexivity.
  - rewrite Hsession. unfold st3. cbn [advance session].
    rewrite <- replay_app. apply replay_keeps_cells.
    rewrite forallb_app. apply andb_true_iff. split; [reflexivity|].
    destruct (performs_pollOperation_from ai (operation, 0) w cost st3)
      as (evs & Htrace' & _ & Hpoll).
    replace cost with (cost + 0) in Htrace' by lia.
    rewrite Hrun, poll_exit in Htrace' by exact Hat. cbn [state_of] in Htrace'.
    rewrite Htrace in Htrace'. apply app_inv_head in Htrace'. subst evs.
    rewrite forallb_forall in *. intros e He.
    apply service_event_keeps_cells, poll_event_service, Hpoll, He.
Qed.

(** The three ways the download can fail. *)
Lemma download_fetch_rejected (w : World) (env : ProcessEnv)
    (completedOperation : GenerateVideosOperation) (e : JsValue)
    (st : RunState) (fuel : nat) :
  truthy (downloadLink_of completedOperation) = true ->
  fetch w (download_url env completedOperation) = inl e ->
  run (2 + fuel) w st
    (generateVideoFromImage_download env setLoadingMessage completedOperation)
  = Done (advance st
            [ ev (SetLoadingMessage "Downloading generated video...");
              ev (Fetch (download_url env completedOperation)) ] 0)
      (inl e) fuel.
Proof.
  intros Hlink Hfetch. unfold generateVideoFromImage_download.
  rewrite Hlink. cbn [negb Nat.add].
  unfold setLoadingMessage. rewrite run_bind, run_trigger. cbn [fst snd].
  rewrite run_await, run_trigger. cbn [fst snd perform answer].
  fold (download_url env completedOperation). rewrite Hfetch.
  unfold advance.
  cbn [session polls trace is_poll replay fold_left projT2 ev Nat.add update].
  rewrite <- !app_assoc. reflexivity.
Qed.

Lemma download_not_ok (w : World) (env : ProcessEnv)
    (completedOperation : GenerateVideosOperation) (videoResponse : Response)
    (st : RunState) (fuel : nat) :
  truthy (downloadLink_of completedOperation) = true ->
  fetch w (download_url env completedOperation) = inr videoResponse ->
  ok videoResponse = false ->
  run (2 + fuel) w st
    (generateVideoFromImage_download env setLoadingMessage completedOperation)
  = Done (advance st
            [ ev (SetLoadingMessage "Downloading generated video...");
              ev (Fetch (download_url env completedOperation)) ] 0)
      (inl (JsError ("Failed to download video: " ++ statusText videoResponse)))
      fuel.
Proof.
  intros Hlink Hfetch Hok. unfold generateVideoFromImage_download.
  rewrite Hlink. cbn [negb Nat.add].
  unfold setLoadingMessage. rewrite run_bind, run_trigger. cbn [fst snd].
  rewrite run_await, run_trigger. cbn [fst snd perform answer].
  fold (download_url env completedOperation). rewrite Hfetch, Hok. cbn [negb].
  unfold throw. rewrite run_ret. unfold advance.
  cbn [session polls trace is_poll replay fold_left projT2 ev Nat.add update].
  rewrite <- !app_assoc. reflexivity.
Qed.

Lemma download_body_rejected (w : World) (env : ProcessEnv)
    (completedOperation : GenerateVideosOperation) (videoResponse : Response)
    (e : JsValue) (st : RunState) (fuel : nat) :
  truthy (downloadLink_of completedOperation) = true ->
  fetch w (download_url env completedOperation) = inr videoResponse ->
  ok videoResponse = true ->
  blob w videoResponse = inl e ->
  run (3 + fuel) w st
    (generateVideoFromImage_download env setLoadingMessage completedOperation)
  = Done (advance st
            [ ev (SetLoadingMessage "Downloading generated video...");
              ev (Fetch (download_url env completedOperation));
              ev (ResponseBlob videoResponse) ] 0)
      (inl e) fuel.
Proof.
  intros Hlink Hfetch Hok Hblob. unfold generateVideoFromImage_download.
  rewrite Hlink. cbn [negb Nat.add].
  unfold setLoadingMessage. rewrite run_bind, run_trigger. cbn [fst snd].
  rewrite run_await, run_trigger. cbn [fst snd perform answer].
  fold (download_url env completedOperation). rewrite Hfetch, Hok. cbn [negb].
  rewrite run_await, run_trigger. cbn [fst snd perform answer].
  rewrite Hblob. unfold advance.
  cbn [session polls trace is_poll replay fold_left projT2 ev Nat.add update].
  rewrite <- !app_assoc. reflexivity.
Qed.

(** When the jobs of the concrete worlds complete. *)
Lemma slow_completes :
  completes_at Outage.slow 0 Scenario.submitted 3.
Proof.
  split.
  - intros [|[|[|i]]] Hi; try reflexivity. lia.
  - reflexivity.
Qed.

Lemma first_query_completes (w : World) :
  getVideosOperation w 0 Scenario.submitted = inr Scenario.completed ->
  completes_at w 0 Scenario.submitted 1.
Proof.
  intros Hq. split.
  - intros i Hi. assert (i = 0) as -> by lia. reflexivity.
  - cbn [currentAfter]. unfold next. rewrite Hq. reflexivity.
Qed.

(* ===================================================================== *)
(** * The service with any callback *)
(* ===================================================================== *)

Section AnyCallback.

Variable P : Event -> bool.
Variable onProgress : string -> itree appE unit.
Hypothesis callback : forall message, performs P (onProgress message).

Lemma performs_callback (message : string) :
  performs (either service_call P) (onProgress message).
Proof.
  apply performs_weaken with (P := P); [|apply callback].
  intros e He. unfold either. rewrite He. apply orb_true_r.
Qed.

Lemma performs_pollOperation_with (ai : GoogleGenAI) (vars : PollState) :
  performs (either service_call P) (pollOperation_from ai onProgress vars).
Proof.
  unfold pollOperation_from. revert vars. apply performs_iter.
  intros [currentOperation messageIndex]. unfold pollOperation_body.
  destruct (negb (truthy_bool (done currentOperation))).
  - apply performs_bind; [apply performs_callback|]. intros _.
    apply performs_bind; [apply performs_trigger; reflexivity|]. intros _.
    apply performs_bind; [apply performs_trigger; reflexivity|].
    intros [e|answered].
    + apply performs_bind; [apply performs_trigger; reflexivity|]. intros _.
      apply performs_ret.
    + apply performs_ret.
  - apply performs_ret.
Qed.

Lemma performs_generateVideoFromImage_with (env : ProcessEnv)
    (base64Image : option string) (mimeType prompt : string) :
  performs (either service_call P)
    (generateVideoFromImage env base64Image mimeType prompt onProgress).
Proof.
  unfold generateVideoFromImage.
  destruct (negb (truthy (API_KEY env))); [apply performs_ret|].
  apply performs_bind; [apply performs_callback|]. intros _.
  apply performs_await; [apply performs_trigger; reflexivity|]. intros operation.
  apply performs_bind; [apply performs_callback|]. intros _.
  apply performs_await; [apply performs_pollOperation_with|].
  intros completedOperation. unfold generateVideoFromImage_download.
  destruct (negb (truthy (downloadLink_of completedOperation))).
  - apply performs_bind; [apply performs_trigger; reflexivity|]. intros _.
    apply performs_ret.
  - apply performs_bind; [apply performs_callback|]. intros _.
    apply performs_await; [apply performs_trigger; reflexivity|].
    intros videoResponse.
    destruct (negb (ok videoResponse)); [apply performs_ret|].
    apply performs_await; [apply performs_trigger; reflexivity|]. intros videoBlob.
    apply performs_ret.
Qed.

End AnyCallback.

Lemma performs_setLoadingMessage (message : string) :
  performs is_message (setLoadingMessage message).
Proof. apply performs_trigger. reflexivity. Qed.

(* ===================================================================== *)
(** * Splitting at a comma *)
(* ===================================================================== *)

Lemma split_without (sep : ascii) (s : string) :
  without sep s = true -> split sep s = [s].
Proof.
  induction s as [|c s IH]; cbn; [reflexivity|].
  intros H. apply andb_true_iff in H as [Hc Hs].
  apply negb_true_iff in Hc. rewrite Hc, IH by exact Hs. reflexivity.
Qed.

Lemma split_at_first (sep : ascii) (before after : string) :
  without sep before = true ->
  split sep (before ++ String sep after) = before :: split sep after.
Proof.
  induction before as [|c before IH]; cbn.
  - intros _. rewrite Ascii.eqb_refl. reflexivity.
  - intros H. apply andb_true_iff in H as [Hc Hs].
    apply negb_true_iff in Hc. rewrite Hc, IH by exact Hs. reflexivity.
Qed.

(* ===================================================================== *)
(** * More on the click handler *)
(* ===================================================================== *)

(** In every run the session is the old one with the new setters applied. *)
Lemma run_replays (R : Type) (t : itree appE R) : performs any_event t.
Proof.
  intros w fuel. revert t. induction fuel as [|n IH]; intros t st; cbn [run].
  - exists []. rewrite app_nil_r. destruct (observe t); auto.
  - destruct (observe t) as [r|t'|X e k].
    + exists []. rewrite app_nil_r. auto.
    + apply IH.
    + destruct (IH (k (snd (perform w st e))) (fst (perform w st e)))
        as (evs & Htrace & Hsession & Hevs).
      exists (ev e :: evs). cbn in Htrace, Hsession. cbn.
      rewrite Htrace, Hsession, <- app_assoc. auto.
Qed.

Lemma try_event_keeps_inputs (e : Event) :
  try_event e = true -> keeps_inputs e = true.
Proof.
  unfold try_event. destruct e as [X e]; destruct e; cbn; congruence.
Qed.

(** The handler sets [appState], [error], [loadingMessage] and
    [generatedVideoUrl], and no other cell. *)
Lemma performs_handleGenerateVideo (env : ProcessEnv)
    (imageFile : option File) (prompt : string) :
  performs keeps_inputs (handleGenerateVideo env imageFile prompt).
Proof.
  unfold handleGenerateVideo.
  destruct (negb (truthy_obj imageFile) || negb (truthy (Some prompt)));
    [apply performs_trigger; reflexivity|].
  destruct imageFile as [file|]; [|apply performs_ret].
  apply performs_bind; [apply performs_trigger; reflexivity|]. intros _.
  apply performs_bind; [apply performs_trigger; reflexivity|]. intros _.
  apply performs_bind; [apply performs_trigger; reflexivity|]. intros _.
  apply performs_bind.
  - unfold handleGenerateVideo_try. apply performs_await.
    + apply performs_weaken with (P := reader_event);
        [|apply performs_fileToBase64].
      intros e He. apply try_event_keeps_inputs. unfold try_event.
      rewrite He. reflexivity.
    + intros base64Image. apply performs_await.
      * apply performs_weaken with (P := service_event);
          [|apply performs_generateVideoFromImage].
        intros e He. apply try_event_keeps_inputs. unfold try_event.
        rewrite He. apply orb_true_r.
      * intros videoBlob.
        apply performs_bind; [apply performs_trigger; reflexivity|].
        intros videoUrl.
        apply performs_bind; [apply performs_trigger; reflexivity|]. intros _.
        apply performs_bind; [apply performs_trigger; reflexivity|]. intros _.
        apply performs_ret.
  - intros [err|u]; [|apply performs_ret].
    unfold handleGenerateVideo_catch.
    apply performs_bind; [apply performs_trigger; reflexivity|]. intros _.
    apply performs_bind; [apply performs_trigger; reflexivity|]. intros _.
    apply performs_trigger; reflexivity.
Qed.

Lemma replay_keeps_inputs (evs : list Event) (s : Session) :
  forallb keeps_inputs evs = true ->
  imageFile (replay evs s) = imageFile s
  /\ imagePreviewUrl (replay evs s) = imagePreviewUrl s
  /\ prompt (replay evs s) = prompt s.
Proof.
  intros H.
  repeat split;
    (apply replay_frame with (P := keeps_inputs); [|exact H]);
    intros [X e] s' He; destruct e; cbn in *; congruence.
Qed.

(** The text the [catch] block shows is never empty. *)
Lemma or_else_not_empty (a : option string) (b : string) :
  b <> "" -> or_else a b <> "".
Proof.
  intros Hb. destruct a as [s|]; cbn; [|exact Hb].
  destruct (s =? "") eqn:Hs; [exact Hb|]. apply String.eqb_neq, Hs.
Qed.

Section TryBlock.

Variable w : World.
Variable env : ProcessEnv.

Lemma succeeds_with_try (file : File) (prompt : string) (st : RunState)
    (fuel : nat) (videoBlob : Blob) (st_s : RunState) (rest : nat) :
  succeeds_with w env file prompt st fuel videoBlob st_s rest ->
  run (fuel + 3) w st (handleGenerateVideo_try env file prompt)
  = Done (advance st_s (success_events w videoBlob) 0) (inr tt) rest.
Proof.
  intros (st1 & base64Image & rest1 & Hencode & Hgenerate).
  apply run_more with (extra := 3) in Hencode.
  apply run_more with (extra := 3) in Hgenerate.
  unfold handleGenerateVideo_try.
  rewrite run_await, Hencode, run_await, Hgenerate.
  replace (rest + 3) with (3 + rest) by lia. cbn [Nat.add].
  rewrite run_bind, run_trigger. cbn [fst snd].
  rewrite run_bind, run_trigger. cbn [fst snd].
  rewrite run_bind, run_trigger. cbn [fst snd].
  unfold resolve. rewrite run_ret. unfold advance, success_events, perform.
  cbn [session polls trace is_poll replay fold_left projT2 ev Nat.add update
       answer fst snd].
  rewrite <- !app_assoc. reflexivity.
Qed.

(** A [try] block that resolved went through both awaited steps. *)
Lemma try_resolved (file : File) (prompt : string) (st st' : RunState)
    (fuel rest : nat) (u : unit) :
  run fuel w st (handleGenerateVideo_try env file prompt) = Done st' (inr u) rest ->
  exists (videoBlob : Blob) (st_s : RunState) (budget : nat),
    succeeds_with w env file prompt st budget videoBlob st_s (3 + rest)
    /\ fuel = budget
    /\ st' = advance st_s (success_events w videoBlob) 0.
Proof.
  unfold handleGenerateVideo_try. rewrite run_await.
  destruct (run fuel w st (fileToBase64 file))
    as [st1 [e|base64Image] rest1|st1] eqn:Hencode; try discriminate.
  rewrite run_await.
  destruct (run rest1 w st1
              (generateVideoFromImage env base64Image (type file) prompt
                 setLoadingMessage))
    as [st2 [e|videoBlob] rest2|st2] eqn:Hgenerate; try discriminate.
  destruct rest2 as [|[|[|rest2]]]; cbn; try discriminate.
  destruct rest2; cbn; intros H; inversion H; subst;
    (exists videoBlob, st2, fuel; split; [|split; [reflexivity|]];
     [ exists st1, base64Image, rest1; auto
     | unfold advance, success_events;
       cbn [session polls trace is_poll replay fold_left projT2 ev Nat.add
            update];
       rewrite <- !app_assoc; reflexivity ]).
Qed.

(** What the two awaited steps leave of the session. *)
Lemma succeeds_with_cells (file : File) (prompt : string) (st : RunState)
    (fuel : nat) (videoBlob : Blob) (st_s : RunState) (rest : nat) :
  succeeds_with w env file prompt st fuel videoBlob st_s rest ->
  same_cells (session st) (session st_s).
Proof.
  intros (st1 & base64Image & rest1 & Hencode & Hgenerate).
  destruct (performs_fileToBase64 file w fuel st) as (evs1 & _ & Hs1 & HP1).
  destruct (performs_generateVideoFromImage env base64Image (type file) prompt
              w rest1 st1) as (evs2 & _ & Hs2 & HP2).
  rewrite Hencode in Hs1. rewrite Hgenerate in Hs2. cbn [state_of] in Hs1, Hs2.
  rewrite Hs2, Hs1, <- replay_app. apply replay_keeps_cells.
  rewrite forallb_app, andb_true_iff, !forallb_forall in *.
  split; intros e He.
  - apply reader_event_keeps_cells, HP1, He.
  - apply service_event_keeps_cells, HP2, He.
Qed.

(** While a valid submit is pending, the session is Generating. *)
Lemma pending_submit_is_generating (file : File) (prompt : string)
    (st st' : RunState) (fuel : nat) :
  truthy (Some prompt) = true ->
  run (S fuel) w st (handleGenerateVideo env (Some file) prompt) = Pending st' ->
  appState (session st') = GENERATING.
Proof.
  intros Hprompt Hrun. destruct fuel as [|[|fuel]].
  - unfold handleGenerateVideo in Hrun. rewrite Hprompt in Hrun. cbn in Hrun.
    inversion Hrun. reflexivity.
  - unfold handleGenerateVideo in Hrun. rewrite Hprompt in Hrun. cbn in Hrun.
    inversion Hrun. reflexivity.
  - change (S (S (S fuel))) with (3 + fuel) in Hrun.
    rewrite handler_enters_try in Hrun by exact Hprompt.
    pose proof (try_outcome w env file prompt (advance st start_events 0) fuel)
      as Htry.
    destruct (run fuel w (advance st start_events 0)
                (handleGenerateVideo_try env file prompt))
      as [st1 [err|u] rest|st1].
    + destruct Htry as (evs & _ & Hs & HP).
      apply catch_pending in Hrun. rewrite Hrun, Hs.
      assert (HK : forallb keeps_cells evs = true).
      { rewrite forallb_forall in *. intros e He.
        apply try_event_keeps_cells, HP, He. }
      destruct (replay_keeps_cells evs (session (advance st start_events 0)) HK)
        as (-> & _).
      reflexivity.
    + discriminate.
    + inversion Hrun; subst. rewrite Htry. reflexivity.
Qed.

End TryBlock.

(** The submit button starts the handler, and only with both inputs. *)
Lemma dispatch_submit (env : ProcessEnv) (s : Session) (tree : itree appE unit) :
  dispatch env s submit = Some tree ->
  appState s = IDLE
  /\ (exists file, imageFile s = Some file)
  /\ truthy (Some (prompt s)) = true
  /\ tree = handleGenerateVideo env (imageFile s) (prompt s).
Proof.
  intros Hsubmit. unfold dispatch, renderContent, submit in Hsubmit.
  remember (negb (truthy_obj (imageFile s))
            || negb (truthy (Some (prompt s)))) as guard eqn:Hguard.
  destruct (appState s); cbn in Hsubmit.
  - destruct (truthy (imagePreviewUrl s)); destruct (truthy (error s));
      cbn in Hsubmit; destruct guard; cbn in Hsubmit;
      try discriminate; injection Hsubmit as <-;
      symmetry in Hguard; apply orb_false_iff in Hguard as [Hfile Hprompt];
      apply negb_false_iff in Hprompt;
      (destruct (imageFile s) as [file|]; [|discriminate]);
      repeat split; eauto.
  - discriminate.
  - destruct (truthy (generatedVideoUrl s)); discriminate.
  - discriminate.
Qed.

(* ===================================================================== *)
(** * Counting the calls of a run *)
(* ===================================================================== *)

Lemma count_app (P : Event -> bool) (evs1 evs2 : list Event) :
  count P (evs1 ++ evs2) = count P evs1 + count P evs2.
Proof. unfold count. rewrite filter_app, length_app. reflexivity. Qed.

Section AtMost.

Variable P : Event -> bool.

Lemma at_most_ret (R : Type) (n : nat) (r : R) :
  at_most P n (Ret r : itree appE R).
Proof.
  intros w fuel st. exists []. rewrite run_ret. cbn.
  rewrite app_nil_r. split; [reflexivity|lia].
Qed.

Lemma at_most_trigger (X : Type) (n : nat) (e : appE X) :
  (if P (ev e) then 1 else 0) <= n -> at_most P n (ITree.trigger e).
Proof.
  intros Hn w fuel st. destruct fuel as [|fuel].
  - exists []. cbn. rewrite app_nil_r. split; [reflexivity|lia].
  - exists [ev e]. rewrite run_trigger. cbn. split; [reflexivity|].
    unfold count. cbn. destruct (P (ev e)); cbn; lia.
Qed.

Lemma at_most_bind (R S : Type) (n1 n2 : nat) (t : itree appE R)
    (k : R -> itree appE S) :
  at_most P n1 t -> (forall r, at_most P n2 (k r)) ->
  at_most P (n1 + n2) (ITree.bind t k).
Proof.
  intros Ht Hk w fuel st. rewrite run_bind.
  destruct (Ht w fuel st) as (evs1 & Htr1 & Hn1).
  destruct (run fuel w st t) as [st1 r rest|st1]; cbn in Htr1.
  - destruct (Hk r w rest st1) as (evs2 & Htr2 & Hn2).
    exists (evs1 ++ evs2). rewrite Htr2, Htr1, app_assoc, count_app.
    split; [reflexivity|lia].
  - exists evs1. cbn. split; [exact Htr1|lia].
Qed.

Lemma at_most_await (A B : Type) (n1 n2 : nat) (p : Async A)
    (k : A -> Async B) :
  at_most P n1 p -> (forall a, at_most P n2 (k a)) ->
  at_most P (n1 + n2) (await p k).
Proof.
  intros Hp Hk. apply at_most_bind; [exact Hp|].
  intros [e|a]; [apply at_most_ret | apply Hk].
Qed.

(** Code that performs no event of the kind adds none. *)
Lemma at_most_none (R : Type) (Q : Event -> bool) (n : nat) (t : itree appE R) :
  (forall e, Q e = true -> P e = false) -> performs Q t -> at_most P n t.
Proof.
  intros HQ Ht w fuel st. destruct (Ht w fuel st) as (evs & Htrace & _ & Hevs).
  exists evs. split; [exact Htrace|].
  assert (Hzero : count P evs = 0).
  { clear Htrace. induction evs as [|e evs IH]; [reflexivity|].
    cbn in Hevs. apply andb_true_iff in Hevs as [He Hevs].
    unfold count in *. cbn. rewrite (HQ e He). apply IH, Hevs. }
  lia.
Qed.

End AtMost.

(** Each of the once-only calls, place by place. *)
Lemma at_most_fileToBase64 (kind : Outside) (file : File) :
  at_most (is_kind kind) (one kind ReadsFile) (fileToBase64 file).
Proof.
  unfold fileToBase64.
  replace (one kind ReadsFile) with (one kind ReadsFile + 0) by lia.
  apply at_most_bind; [apply at_most_trigger; reflexivity|].
  intros [[s| |]|error]; apply at_most_ret.
Qed.

Lemma at_most_setLoadingMessage (kind : Outside) (n : nat) (message : string) :
  at_most (is_kind kind) n (setLoadingMessage message).
Proof. apply at_most_trigger. cbn. lia. Qed.

Lemma poll_event_is_no_kind (kind : Outside) (e : Event) :
  poll_event e = true -> is_kind kind e = false.
Proof. destruct e as [X e]; destruct e; cbn; congruence. Qed.

Lemma at_most_download (kind : Outside) (env : ProcessEnv)
    (completedOperation : GenerateVideosOperation) :
  at_most (is_kind kind) (0 + (one kind FetchesVideo + (one kind ReadsBody + 0)))
    (generateVideoFromImage_download env setLoadingMessage completedOperation).
Proof.
  unfold generateVideoFromImage_download.
  destruct (negb (truthy (downloadLink_of completedOperation))).
  - apply at_most_bind; [apply at_most_trigger; reflexivity|]. intros _.
    apply at_most_ret.
  - apply at_most_bind; [apply at_most_setLoadingMessage|]. intros _.
    apply at_most_await; [apply at_most_trigger; reflexivity|].
    intros videoResponse.
    destruct (negb (ok videoResponse)); [apply at_most_ret|].
    apply at_most_await; [apply at_most_trigger; reflexivity|]. intros videoBlob.
    apply at_most_ret.
Qed.

Lemma at_most_generateVideoFromImage (kind : Outside) (env : ProcessEnv)
    (base64Image : option string) (mimeType prompt : string) :
  at_most (is_kind kind)
    (0 + (one kind SubmitsJob
          + (0 + (0 + (0 + (one kind FetchesVideo + (one kind ReadsBody + 0)))))))
    (generateVideoFromImage env base64Image mimeType prompt setLoadingMessage).
Proof.
  unfold generateVideoFromImage.
  destruct (negb (truthy (API_KEY env))); [apply at_most_ret|].
  apply at_most_bind; [apply at_most_setLoadingMessage|]. intros _.
  apply at_most_await; [apply at_most_trigger; reflexivity|]. intros operation.
  apply at_most_bind; [apply at_most_setLoadingMessage|]. intros _.
  apply at_most_await.
  - apply at_most_none with (Q := poll_event);
      [apply poll_event_is_no_kind | apply performs_pollOperation_from].
  - intros completedOperation. apply at_most_download.
Qed.

Lemma at_most_handleGenerateVideo (kind : Outside) (env : ProcessEnv)
    (imageFile : option File) (prompt : string) :
  at_most (is_kind kind) 1 (handleGenerateVideo env imageFile prompt).
Proof.
  unfold handleGenerateVideo.
  destruct (negb (truthy_obj imageFile) || negb (truthy (Some prompt)));
    [apply at_most_trigger; cbn; lia|].
  destruct imageFile as [file|]; [|apply at_most_ret].
  intros w fuel st.
  assert (Hsum :
    at_most (is_kind kind)
      (0 + (0 + (0 + ((one kind ReadsFile
                       + ((0 + (one kind SubmitsJob
                                + (0 + (0 + (0 + (one kind FetchesVideo
                                                  + (one kind ReadsBody + 0)))))))
                          + (one kind MakesUrl + (0 + (0 + 0)))))
                      + (0 + (0 + 0))))))
      (ITree.trigger (SetAppState GENERATING);;
       ITree.trigger (SetError None);;
       ITree.trigger (SetLoadingMessage "Preparing your image...");;
       settled <- handleGenerateVideo_try env file prompt;;
       match settled with
       | inl err => handleGenerateVideo_catch err
       | inr _ => Ret tt
       end)).
  { apply at_most_bind; [apply at_most_trigger; reflexivity|]. intros _.
    apply at_most_bind; [apply at_most_trigger; reflexivity|]. intros _.
    apply at_most_bind; [apply at_most_trigger; reflexivity|]. intros _.
    apply at_most_bind.
    - unfold handleGenerateVideo_try.
      apply at_most_await; [apply at_most_fileToBase64|]. intros base64Image.
      apply at_most_await; [apply at_most_generateVideoFromImage|].
      intros videoBlob.
      apply at_most_bind; [apply at_most_trigger; reflexivity|].
      intros videoUrl.
      apply at_most_bind; [apply at_most_trigger; reflexivity|]. intros _.
      apply at_most_bind; [apply at_most_trigger; reflexivity|]. intros _.
      apply at_most_ret.
    - intros [err|u]; [|apply at_most_ret].
      unfold handleGenerateVideo_catch.
      apply at_most_bind; [apply at_most_trigger; reflexivity|]. intros _.
      apply at_most_bind; [apply at_most_trigger; reflexivity|]. intros _.
      apply at_most_trigger; reflexivity. }
  destruct (Hsum w fuel st) as (evs & Htrace & Hcount).
  exists evs. split; [exact Htrace|].
  destruct kind; cbn in Hcount; lia.
Qed.

(* ===================================================================== *)
(** * The controls of the page *)
(* ===================================================================== *)

Lemma guard_false (s : Session) :
  negb (truthy_obj (imageFile s)) || negb (truthy (Some (prompt s))) = false
  <-> imageFile s <> None /\ prompt s <> "".
Proof.
  rewrite orb_false_iff, !negb_false_iff. cbn [truthy]. rewrite negb_true_iff.
  rewrite String.eqb_neq. split; intros [Hfile Hprompt]; split; try assumption.
  - destruct (imageFile s); [discriminate | discriminate].
  - destruct (imageFile s); [reflexivity | contradiction].
Qed.

(** The button the page has for a label, state by state. *)
Lemma find_button_page (s : Session) (label : string) :
  find_button label (renderContent s)
  = match appState s with
    | IDLE =>
        if (("Generate Video" =? label)
            && negb (negb (truthy_obj (imageFile s))
                     || negb (truthy (Some (prompt s)))))%bool
        then Some OnHandleGenerateVideo else None
    | GENERATING => None
    | SUCCESS =>
        if "Create Another Video" =? label then Some OnResetState else None
    | ERROR => if "Try Again" =? label then Some OnResetState else None
    end.
Proof.
  unfold renderContent. destruct (appState s).
  - destruct (truthy (imagePreviewUrl s)); destruct (truthy (error s));
      reflexivity.
  - reflexivity.
  - destruct (truthy (generatedVideoUrl s)); cbn;
      rewrite andb_true_r; reflexivity.
  - cbn. rewrite andb_true_r. reflexivity.
Qed.

Lemma find_inputs_page (s : Session) :
  find_file_input (renderContent s)
  = match appState s with
    | IDLE => Some OnHandleImageChange
    | _ => None
    end
  /\ find_textarea (renderContent s)
     = match appState s with
       | IDLE => Some OnSetPrompt
       | _ => None
       end.
Proof.
  unfold renderContent. destruct (appState s).
  - destruct (truthy (imagePreviewUrl s)); destruct (truthy (error s));
      split; reflexivity.
  - split; reflexivity.
  - destruct (truthy (generatedVideoUrl s)); split; reflexivity.
  - split; reflexivity.
Qed.

(** The button that runs [resetState] on the Success and Error pages. *)
Lemma reset_button (env : ProcessEnv) (s : Session) :
  appState s = SUCCESS \/ appState s = ERROR ->
  dispatch env s
    match appState s with SUCCESS => createAnother | _ => tryAgain end
  = Some resetState.
Proof.
  intros [Hstate | Hstate]; unfold dispatch;
    rewrite Hstate; unfold createAnother, tryAgain;
    rewrite find_button_page, Hstate; reflexivity.
Qed.

(* ===================================================================== *)
(** * Properties of the service and of the controller *)
(* ===================================================================== *)

Unset Implicit Arguments.

(** C1.  In a run of [generateVideoFromImage] whose job never reports
    completion, the function never settles, and for every number [n] of
    status queries the run reaches a point where it has made exactly [n] of
    them; up to that point the loop has called [onProgress] once before each
    query, and the message before query [i] (counted from 0) is the entry
    [i mod 7] of the list of seven progress messages. *)
Theorem poll_progress_messages_cycle :
  forall (w : World) (env : ProcessEnv) (base64Image : option string)
         (mimeType prompt : string) (operation : GenerateVideosOperation)
         (st : RunState),
    truthy (API_KEY env) = true ->
    generateVideos w {| apiKey := API_KEY env |}
      (generateVideos_params base64Image mimeType prompt) = inr operation ->
    never_done w (polls st) operation ->
    length progressMessages = 7
    /\ (forall fuel, exists st',
          run fuel w st
            (generateVideoFromImage env base64Image mimeType prompt
               setLoadingMessage) = Pending st')
    /\ (forall n, exists fuel st' loop_evs,
          run fuel w st
            (generateVideoFromImage env base64Image mimeType prompt
               setLoadingMessage) = Pending st'
          /\ polls st' = n + polls st
          /\ trace st' = trace st
                         ++ submit_events env base64Image mimeType prompt
                         ++ loop_evs
          /\ calls loop_evs
             = flat_map
                 (fun i => [ Progress (nth (i mod 7) progressMessages ""); Poll ])
                 (seq 0 n)).
Proof.
  intros w env base64Image mimeType prompt operation st Hkey Hsubmit Hnever.
  set (st3 := advance st (submit_events env base64Image mimeType prompt) 0).
  assert (Hturns : forall n, exists cost st',
             4 * n <= cost
             /\ run (3 + cost) w st
                  (generateVideoFromImage env base64Image mimeType prompt
                     setLoadingMessage) = Pending st'
             /\ polls st' = n + polls st
             /\ trace st' = trace st3
                  ++ poll_events {| apiKey := API_KEY env |} w (polls st3)
                       operation 0 n).
  { intros n.
    destruct (poll_turns w {| apiKey := API_KEY env |} (n := n) st3 operation 0)
      as (cost & st' & Hcost & Hrun & Hpolls & Htrace & _).
    { intros i _. apply Hnever. }
    exists cost, st'. split; [lia|]. split; [|split; assumption].
    rewrite (generate_enters_loop w env base64Image mimeType prompt st cost
               Hkey Hsubmit).
    fold st3. rewrite run_await.
    replace cost with (cost + 0) at 1 by lia. rewrite Hrun.
    rewrite poll_waiting; [reflexivity|]. apply Hnever. }
  split; [reflexivity|]. split.
  - intros fuel. destruct (Hturns fuel) as (cost & st' & Hcost & Hrun & _).
    apply run_pending_earlier with (extra := 3 + cost - fuel) (st' := st').
    replace (fuel + (3 + cost - fuel)) with (3 + cost) by lia. exact Hrun.
  - intros n. destruct (Hturns n) as (cost & st' & Hcost & Hrun & Hpolls & Htrace).
    exists (3 + cost), st',
      (poll_events {| apiKey := API_KEY env |} w (polls st3) operation 0 n).
    split; [exact Hrun|]. split; [exact Hpolls|]. split.
    + rewrite Htrace. unfold st3, advance. cbn [trace].
      rewrite <- app_assoc. reflexivity.
    + apply calls_poll_events.
Qed.

(** C3.  When one status query of the poll loop fails, the turn logs the
    failure with [console.error] and the loop goes round again with the same
    operation: the next turn calls [onProgress], waits the fixed 10000 ms and
    queries again.  The loop never rejects, so the failure does not reach
    the caller. *)
Theorem failed_poll_is_swallowed :
  forall (w : World) (ai : GoogleGenAI) (st : RunState)
         (operation : GenerateVideosOperation) (messageIndex : nat)
         (e : JsValue),
    truthy_bool (done operation) = false ->
    getVideosOperation w (polls st) operation = inl e ->
    exists st1 st2 : RunState,
      (forall fuel,
         run (5 + fuel) w st
           (pollOperation_from ai setLoadingMessage (operation, messageIndex))
         = run fuel w st1
             (pollOperation_from ai setLoadingMessage (operation, S messageIndex)))
      /\ trace st1
         = trace st
           ++ [ ev (SetLoadingMessage (nth (messageIndex mod 7) progressMessages ""));
                ev (SetTimeout 10000%N);
                ev (GetVideosOperation ai operation);
                ev (ConsoleError [LogString "Polling failed"; LogValue e]) ]
      /\ run 3 w st1
           (pollOperation_from ai setLoadingMessage (operation, S messageIndex))
         = Pending st2
      /\ trace st2
         = trace st1
           ++ [ ev (SetLoadingMessage (nth (S messageIndex mod 7) progressMessages ""));
                ev (SetTimeout 10000%N);
                ev (GetVideosOperation ai operation) ]
      /\ polls st2 = 2 + polls st
      /\ (forall fuel st' err rest,
            run fuel w st
              (pollOperation_from ai setLoadingMessage (operation, messageIndex))
            <> Done st' (inl err) rest).
Proof.
  intros w ai st operation messageIndex e Hdone Hq.
  destruct (getVideosOperation w (S (polls st)) operation) as [e2|answered] eqn:Hq2;
    (do 2 eexists; split; [|split; [|split; [|split; [|split]]]];
     [ intros fuel; unfold pollOperation_from at 1; rewrite run_iter;
       unfold pollOperation_body; rewrite Hdone;
       cbn -[Nat.modulo nth progressMessages]; rewrite Hq;
       cbn -[Nat.modulo nth progressMessages]; reflexivity
     | cbn -[Nat.modulo nth progressMessages]; rewrite <- !app_assoc; reflexivity
     | unfold pollOperation_from; rewrite run_iter;
       unfold pollOperation_body; rewrite Hdone;
       cbn -[Nat.modulo nth progressMessages]; rewrite Hq2;
       cbn -[Nat.modulo nth progressMessages]; reflexivity
     | cbn -[Nat.modulo nth progressMessages]; rewrite <- !app_assoc; reflexivity
     | reflexivity
     | intros fuel st' err rest Hrun;
       destruct (@pollOperation_from_resolves _ _ _ _ _ _ _ _ _ Hrun) as [a Ha];
       discriminate ]).
Qed.

(** C8.  When [handleGenerateVideo] runs without a selected image or with an
    empty prompt (or with neither), it sets the validation message and does
    nothing else: [appState] keeps its value (Idle stays Idle), every other
    cell is untouched, the file is not read and the service is not
    called. *)
Theorem submit_without_input_is_rejected :
  forall (w : World) (env : ProcessEnv) (s : Session) (fuel : nat),
    imageFile s = None \/ prompt s = "" ->
    exists st' : RunState,
      run (S fuel) w (start s) (handleGenerateVideo env (imageFile s) (prompt s))
      = Done st' tt fuel
      /\ trace st'
         = [ ev (SetError (Some "Please upload an image and provide a prompt.")) ]
      /\ error (session st') = Some "Please upload an image and provide a prompt."
      /\ appState (session st') = appState s
      /\ (appState s = IDLE -> appState (session st') = IDLE)
      /\ imageFile (session st') = imageFile s
      /\ imagePreviewUrl (session st') = imagePreviewUrl s
      /\ prompt (session st') = prompt s
      /\ generatedVideoUrl (session st') = generatedVideoUrl s
      /\ loadingMessage (session st') = loadingMessage s
      /\ existsb reader_event (trace st') = false
      /\ existsb is_network (trace st') = false.
Proof.
  intros w env s fuel Hmissing.
  eexists. split.
  - apply handler_rejects_input.
    destruct Hmissing as [-> | ->]; [reflexivity|].
    destruct (imageFile s); reflexivity.
  - cbn. repeat split; auto.
Qed.

(** C9.  A change event of the file input whose file has a MIME type that
    does not start with ["image/"] makes [handleImageChange] set the
    validation message and clear the stored file and the preview; it does
    not create an object URL for the file, and it leaves [appState] (which
    is Idle, the only page with the file input) and the other cells as they
    were. *)
Theorem non_image_file_is_refused :
  forall (w : World) (env : ProcessEnv) (s : Session) (e : ChangeEvent)
         (file : File) (fuel : nat),
    match files e with
    | Some fs => nth_error fs 0
    | None => None
    end = Some file ->
    prefix "image/" (type file) = false ->
    exists st' : RunState,
      run (3 + fuel) w (start s) (handleImageChange e) = Done st' tt fuel
      /\ trace st'
         = [ ev (SetError
                   (Some "Please upload a valid image file (e.g., PNG, JPG, WEBP)."));
             ev (SetImageFile None);
             ev (SetImagePreviewUrl None) ]
      /\ error (session st')
         = Some "Please upload a valid image file (e.g., PNG, JPG, WEBP)."
      /\ imageFile (session st') = None
      /\ imagePreviewUrl (session st') = None
      /\ appState (session st') = appState s
      /\ prompt (session st') = prompt s
      /\ generatedVideoUrl (session st') = generatedVideoUrl s
      /\ loadingMessage (session st') = loadingMessage s
      /\ (forall tree, dispatch env s (ChooseFile e) = Some tree ->
            tree = handleImageChange e
            /\ appState s = IDLE /\ appState (session st') = IDLE).
Proof.
  intros w env s e file fuel Hfile Htype.
  eexists. split.
  - unfold handleImageChange. rewrite Hfile, Htype. cbn. rewrite run_ret.
    reflexivity.
  - cbn. do 8 (split; [reflexivity|]).
    intros tree Hpick. unfold dispatch, renderContent in Hpick.
    destruct (appState s); cbn in Hpick.
    + destruct (truthy (imagePreviewUrl s)); cbn in Hpick;
        injection Hpick as <-; auto.
    + discriminate.
    + destruct (truthy (generatedVideoUrl s)); discriminate.
    + discriminate.
Qed.

(** C2.  The page rendered while the session is Generating has no control
    at all, so the submit action starts nothing there.  The submit button is
    on the Idle page only, and a job started from it keeps the session in
    Generating for as long as it is outstanding, so no second job can be
    submitted before the first has settled. *)
Theorem no_submit_while_generating :
  forall (env : ProcessEnv) (s : Session),
    (appState s = GENERATING -> forall a, dispatch env s a = None)
    /\ (forall tree,
          dispatch env s submit = Some tree ->
          appState s = IDLE
          /\ tree = handleGenerateVideo env (imageFile s) (prompt s)
          /\ forall (w : World) (fuel : nat) (st' : RunState),
               run (S fuel) w (start s) tree = Pending st' ->
               appState (session st') = GENERATING
               /\ forall a, dispatch env (session st') a = None).
Proof.
  intros env s.
  assert (Hnone : forall s', appState s' = GENERATING ->
                             forall a, dispatch env s' a = None).
  { intros s' Hgen a. unfold dispatch, renderContent. rewrite Hgen.
    destruct a; reflexivity. }
  split; [apply Hnone|].
  intros tree Hsubmit.
  assert (Hidle : appState s = IDLE
                  /\ negb (truthy_obj (imageFile s))
                     || negb (truthy (Some (prompt s))) = false
                  /\ tree = handleGenerateVideo env (imageFile s) (prompt s)).
  { unfold dispatch, renderContent, submit in Hsubmit.
    remember (negb (truthy_obj (imageFile s))
              || negb (truthy (Some (prompt s)))) as guard eqn:Hguard.
    destruct (appState s); cbn in Hsubmit.
    - destruct (truthy (imagePreviewUrl s)); destruct (truthy (error s));
        cbn in Hsubmit; destruct guard; cbn in Hsubmit;
        try discriminate; injection Hsubmit as <-; auto.
    - discriminate.
    - destruct (truthy (generatedVideoUrl s)); discriminate.
    - discriminate. }
  destruct Hidle as (Hidle & Hguard & ->).
  split; [exact Hidle|]. split; [reflexivity|].
  intros w fuel st' Hrun.
  cut (appState (session st') = GENERATING).
  { intros Hgen. split; [exact Hgen | apply Hnone, Hgen]. }
  apply orb_false_iff in Hguard as [Hfile Hprompt].
  apply negb_false_iff in Hprompt.
  destruct (imageFile s) as [file|]; [clear Hfile|discriminate].
  destruct fuel as [|[|fuel]].
  - unfold handleGenerateVideo in Hrun. rewrite Hprompt in Hrun. cbn in Hrun.
    inversion Hrun. reflexivity.
  - unfold handleGenerateVideo in Hrun. rewrite Hprompt in Hrun. cbn in Hrun.
    inversion Hrun. reflexivity.
  - change (S (S (S fuel))) with (3 + fuel) in Hrun.
    rewrite handler_enters_try in Hrun by exact Hprompt.
    pose proof (try_outcome w env file (prompt s)
                  (advance (start s) start_events 0) fuel) as Htry.
    destruct (run fuel w (advance (start s) start_events 0)
                (handleGenerateVideo_try env file (prompt s)))
      as [st1 [err|u] rest|st1].
    + destruct Htry as (evs & _ & Hs & HP).
      apply catch_pending in Hrun. rewrite Hrun, Hs.
      assert (HK : forallb keeps_cells evs = true).
      { rewrite forallb_forall in *. intros e He.
        apply try_event_keeps_cells, HP, He. }
      destruct (replay_keeps_cells evs
                  (session (advance (start s) start_events 0)) HK) as (-> & _).
      reflexivity.
    + discriminate.
    + inversion Hrun; subst. rewrite Htry. reflexivity.
Qed.

(** C4.  With a credential present: when the job completes and the payload
    of the completed operation has no video link, [generateVideoFromImage]
    logs the response and rejects with the error "Video generation failed or
    did not return a valid download link." without having requested a
    download; and whenever a run of the function has requested a download,
    the job had completed with a link in its payload. *)
Theorem missing_link_rejects_without_download :
  forall (w : World) (env : ProcessEnv) (base64Image : option string)
         (mimeType prompt : string) (st : RunState),
    truthy (API_KEY env) = true ->
    (forall (operation : GenerateVideosOperation) (n : nat),
        generateVideos w {| apiKey := API_KEY env |}
          (generateVideos_params base64Image mimeType prompt) = inr operation ->
        completes_at w (polls st) operation n ->
        truthy (downloadLink_of (currentAfter w (polls st) operation n)) = false ->
        exists (fuel : nat) (st' : RunState) (evs : list Event),
          (forall extra,
             run (fuel + extra) w st
               (generateVideoFromImage env base64Image mimeType prompt
                  setLoadingMessage)
             = Done st'
                 (inl (JsError
                    "Video generation failed or did not return a valid download link."))
                 extra)
          /\ trace st' = trace st ++ evs
          /\ existsb is_fetch evs = false)
    /\ (forall (fuel : nat) (evs : list Event),
          trace (state_of
                   (run fuel w st
                      (generateVideoFromImage env base64Image mimeType prompt
                         setLoadingMessage)))
          = trace st ++ evs ->
          existsb is_fetch evs = true ->
          exists (operation : GenerateVideosOperation) (n : nat),
            generateVideos w {| apiKey := API_KEY env |}
              (generateVideos_params base64Image mimeType prompt) = inr operation
            /\ completes_at w (polls st) operation n
            /\ truthy (downloadLink_of (currentAfter w (polls st) operation n))
               = true).
Proof.
  intros w env base64Image mimeType prompt st Hkey.
  set (ai := {| apiKey := API_KEY env |}).
  set (st3 := advance st (submit_events env base64Image mimeType prompt) 0).
  split.
  - intros operation n Hsubmit [Hbefore Hat] Hlink.
    destruct (poll_turns w ai (n := n) st3 operation 0 Hbefore)
      as (cost & st1 & _ & Hrun & _ & Htrace1 & _).
    exists (3 + (cost + 1)).
    exists (advance st1
              [ ev (ConsoleError
                      [LogString "API Response:";
                       LogOperation (currentAfter w (polls st) operation n)]) ] 0).
    eexists. split; [|split].
    + intros extra.
      replace (3 + (cost + 1) + extra) with (3 + (cost + (1 + extra))) by lia.
      rewrite (generate_enters_loop w env base64Image mimeType prompt st _
                 Hkey Hsubmit).
      fold st3 ai. rewrite run_await, Hrun, poll_exit by exact Hat.
      apply download_without_link, Hlink.
    + cbn [advance trace]. rewrite Htrace1. unfold st3. cbn [advance trace].
      rewrite <- !app_assoc. reflexivity.
    + rewrite !existsb_app, poll_events_no_fetch. reflexivity.
  - intros fuel evs Htrace Hfetch.
    destruct fuel as [|[|[|fuel]]].
    + unfold generateVideoFromImage in Htrace. rewrite Hkey in Htrace.
      cbn in Htrace. rewrite <- (app_nil_r (trace st)) in Htrace at 1.
      apply app_inv_head in Htrace. subst evs. discriminate.
    + unfold generateVideoFromImage in Htrace. rewrite Hkey in Htrace.
      cbn in Htrace. apply app_inv_head in Htrace. subst evs. discriminate.
    + unfold generateVideoFromImage in Htrace. rewrite Hkey in Htrace.
      cbn in Htrace.
      destruct (generateVideos w {| apiKey := API_KEY env |}
                  (generateVideos_params base64Image mimeType prompt));
        cbn in Htrace; rewrite <- app_assoc in Htrace;
        apply app_inv_head in Htrace; subst evs; discriminate.
    + change (S (S (S fuel))) with (3 + fuel) in Htrace.
      destruct (generateVideos w {| apiKey := API_KEY env |}
                  (generateVideos_params base64Image mimeType prompt))
        as [e|operation] eqn:Hsubmit.
      * unfold generateVideoFromImage in Htrace. rewrite Hkey in Htrace.
        cbn in Htrace. rewrite Hsubmit in Htrace. cbn in Htrace.
        destruct fuel; cbn in Htrace; rewrite <- app_assoc in Htrace;
          apply app_inv_head in Htrace; subst evs; discriminate.
      * rewrite (generate_enters_loop w env base64Image mimeType prompt st fuel
                   Hkey Hsubmit) in Htrace.
        fold st3 ai in Htrace.
        destruct (run_trace_extends w fuel st3
                    (completedOperation <~
                       pollOperation_from ai setLoadingMessage (operation, 0);;
                     generateVideoFromImage_download env setLoadingMessage
                       completedOperation)) as (evs1 & Hevs1).
        pose proof Hevs1 as Hevs1'.
        rewrite Htrace in Hevs1'. unfold st3 in Hevs1'. cbn [advance trace] in Hevs1'.
        rewrite <- app_assoc in Hevs1'. apply app_inv_head in Hevs1'. subst evs.
        rewrite existsb_app in Hfetch. cbn [submit_events existsb is_fetch ev
                                            projT2 orb] in Hfetch.
        destruct (fetch_after_loop_needs_link w env ai fuel st3 operation 0 evs1
                    Hevs1 Hfetch) as (n & Hat & Hlink).
        exists operation, n. auto.
Qed.

(** C5.  When [process.env.API_KEY] is missing (or empty),
    [generateVideoFromImage] rejects at once with the error "API key not
    found. Please ensure the API_KEY environment variable is set.": it
    performs nothing at all before that.  A submit in that situation never
    performs a network call (no submission, no status query, no download)
    and ends with the session in the Error state; when the file could be
    read, the message shown is that of the credential error. *)
Theorem missing_credential_fails_before_any_call :
  forall (w : World) (env : ProcessEnv),
    truthy (API_KEY env) = false ->
    (forall (base64Image : option string) (mimeType prompt : string)
            (onProgress : string -> itree appE unit) (fuel : nat)
            (st : RunState),
        run fuel w st
          (generateVideoFromImage env base64Image mimeType prompt onProgress)
        = Done st
            (inl (JsError
               "API key not found. Please ensure the API_KEY environment variable is set."))
            fuel)
    /\ (forall (s : Session) (file : File),
          imageFile s = Some file ->
          truthy (Some (prompt s)) = true ->
          (forall fuel,
             existsb is_network
               (trace (state_of
                  (run fuel w (start s)
                     (handleGenerateVideo env (imageFile s) (prompt s)))))
             = false)
          /\ (forall fuel, exists st' : RunState,
                run (7 + fuel) w (start s)
                  (handleGenerateVideo env (imageFile s) (prompt s))
                = Done st' tt fuel
                /\ appState (session st') = ERROR
                /\ (forall dataUrl,
                      readAsDataURL w file = Onload (ResultString dataUrl) ->
                      error (session st')
                      = Some "API key not found. Please ensure the API_KEY environment variable is set."
                      /\ trace st'
                         = start_events ++ [ ev (ReadAsDataURL file) ]
                           ++ catch_events
                                (JsError
                                   "API key not found. Please ensure the API_KEY environment variable is set.")))).
Proof.
  intros w env Hkey. split.
  - intros. apply generate_without_key, Hkey.
  - intros s file Hfile Hprompt. split.
    + intros fuel.
      destruct (performs_handler_without_key env (imageFile s) (prompt s) Hkey
                  w fuel (start s)) as (evs & Htrace & _ & Hlocal).
      rewrite Htrace. cbn [start trace app]. apply forallb_local, Hlocal.
    + intros fuel. rewrite Hfile.
      change (7 + fuel) with (3 + (4 + fuel)).
      rewrite handler_enters_try by exact Hprompt.
      unfold handleGenerateVideo_try. rewrite run_await.
      unfold fileToBase64. cbn [Nat.add]. rewrite run_bind, run_trigger.
      cbn [fst snd perform answer].
      destruct (readAsDataURL w file) as [[dataUrl| |]|readError] eqn:Hread.
      * unfold resolve at 1. rewrite run_ret, run_await, generate_without_key
          by exact Hkey.
        change (S (S (S fuel))) with (3 + fuel). rewrite catch_finishes.
        eexists. split; [reflexivity|]. split; [reflexivity|].
        intros dataUrl' _. split; reflexivity.
      * unfold throw at 1. rewrite run_ret.
        change (S (S (S fuel))) with (3 + fuel). rewrite catch_finishes.
        eexists. split; [reflexivity|]. split; [reflexivity|].
        intros dataUrl' Hno. discriminate.
      * unfold throw at 1. rewrite run_ret.
        change (S (S (S fuel))) with (3 + fuel). rewrite catch_finishes.
        eexists. split; [reflexivity|]. split; [reflexivity|].
        intros dataUrl' Hno. discriminate.
      * unfold throw at 1. rewrite run_ret.
        change (S (S (S fuel))) with (3 + fuel). rewrite catch_finishes.
        eexists. split; [reflexivity|]. split; [reflexivity|].
        intros dataUrl' Hno. discriminate.
Qed.

(** C7, as amended.  Every failure inside the [try] block, in the encode
    step or in [generateVideoFromImage], reaches the [catch] block as one
    rejection: the block logs it, and the session ends in the Error state
    whatever the kind of the failure.  The Error view shows the message of
    the rejection verbatim when the rejection is an [Error] object with a
    non-empty message; it shows the fixed text "An unknown error occurred
    during video generation." when the rejection is an [Error] with an empty
    message or the error event of the file reader. *)
Theorem failure_is_shown_in_error_state :
  forall (w : World) (env : ProcessEnv) (s : Session) (file : File)
         (fuel : nat) (err : JsValue) (st_f : RunState) (rest : nat),
    imageFile s = Some file ->
    truthy (Some (prompt s)) = true ->
    fails_with w env file (prompt s) (advance (start s) start_events 0)
      fuel err st_f rest ->
    exists st' : RunState,
      run (3 + (fuel + 3)) w (start s)
        (handleGenerateVideo env (imageFile s) (prompt s))
      = Done st' tt rest
      /\ trace st' = trace st_f ++ catch_events err
      /\ appState (session st') = ERROR
      /\ renderContent (session st')
         = [ Heading "An Error Occurred";
             Paragraph (jsx_text (error (session st')));
             Button "Try Again" OnResetState false ]
      /\ (forall m, err = JsError m -> m <> "" ->
            jsx_text (error (session st')) = m)
      /\ (err = JsError "" ->
            jsx_text (error (session st'))
            = "An unknown error occurred during video generation.")
      /\ (forall t, err = JsProgressEvent t ->
            jsx_text (error (session st'))
            = "An unknown error occurred during video generation.").
Proof.
  intros w env s file fuel err st_f rest Hfile Hprompt Hfails.
  exists (advance st_f (catch_events err) 0). rewrite Hfile.
  split; [apply failure_reaches_catch; assumption|].
  cbn. do 3 (split; [reflexivity|]). split; [|split].
  - intros m -> Hm. cbn. apply String.eqb_neq in Hm. rewrite Hm. reflexivity.
  - intros ->. reflexivity.
  - intros t ->. reflexivity.
Qed.

(** C10.  When a submit ends in failure, the [catch] block sets the error
    message and moves the session to Error, and changes nothing else: the
    image file, the preview, the prompt, the video reference and the
    progress message have the values they had when the failure occurred.
    The first four are also those of the time of the submit; the progress
    message is the last one that was shown, it is not empty, and it stays
    until the "Try Again" button runs [resetState], which clears it. *)
Theorem failure_changes_state_and_error_only :
  forall (w : World) (env : ProcessEnv) (s : Session) (file : File)
         (fuel : nat) (err : JsValue) (st_f : RunState) (rest : nat),
    imageFile s = Some file ->
    truthy (Some (prompt s)) = true ->
    fails_with w env file (prompt s) (advance (start s) start_events 0)
      fuel err st_f rest ->
    exists st' : RunState,
      run (3 + (fuel + 3)) w (start s)
        (handleGenerateVideo env (imageFile s) (prompt s))
      = Done st' tt rest
      /\ appState (session st') = ERROR
      /\ error (session st')
         = Some (or_else (message_of err)
                   "An unknown error occurred during video generation.")
      /\ (imageFile (session st') = imageFile (session st_f)
          /\ imagePreviewUrl (session st') = imagePreviewUrl (session st_f)
          /\ prompt (session st') = prompt (session st_f)
          /\ generatedVideoUrl (session st') = generatedVideoUrl (session st_f)
          /\ loadingMessage (session st') = loadingMessage (session st_f))
      /\ (imageFile (session st') = imageFile s
          /\ imagePreviewUrl (session st') = imagePreviewUrl s
          /\ prompt (session st') = prompt s
          /\ generatedVideoUrl (session st') = generatedVideoUrl s)
      /\ loadingMessage (session st') = last (shown (trace st')) ""
      /\ loadingMessage (session st') <> ""
      /\ dispatch env (session st') tryAgain = Some resetState
      /\ (forall budget,
            loadingMessage
              (session (state_of (run (7 + budget) w st' resetState))) = "").
Proof.
  intros w env s file fuel err st_f rest Hfile Hprompt Hfails.
  exists (advance st_f (catch_events err) 0).
  split; [rewrite Hfile; apply failure_reaches_catch; assumption|].
  pose proof (fails_with_try Hfails) as Htry.
  pose proof (try_outcome w env file (prompt s)
                (advance (start s) start_events 0) fuel) as Hout.
  rewrite Htry in Hout. destruct Hout as (evs & Htrace & Hsession & Hevs).
  assert (Hkeeps : forallb keeps_cells evs = true).
  { rewrite forallb_forall in *. intros e He.
    apply try_event_keeps_cells, Hevs, He. }
  assert (Hsays : forallb says_something evs = true).
  { rewrite forallb_forall in *. intros e He.
    apply try_event_says_something, Hevs, He. }
  destruct (replay_keeps_cells evs
              (session (advance (start s) start_events 0)) Hkeeps)
    as (_ & Himage & Hpreview & Hp & Hvideo & _).
  rewrite <- Hsession in Himage, Hpreview, Hp, Hvideo.
  cbn in Himage, Hpreview, Hp, Hvideo.
  assert (Hmessage : loadingMessage (session st_f)
                     = shown_after "Preparing your image..." evs).
  { rewrite Hsession. apply replay_loadingMessage. }
  assert (Hlast : last (shown (trace (advance st_f (catch_events err) 0))) ""
                  = shown_after "Preparing your image..." evs).
  { cbn [advance trace]. rewrite Htrace. cbn [advance trace start app].
    unfold shown. rewrite !flat_map_app.
    cbn [flat_map start_events catch_events projT2 ev app].
    rewrite app_nil_r, shown_after_last. apply last_cons. }
  rewrite Hlast. clear Hlast.
  cbn. do 2 (split; [reflexivity|]).
  split; [repeat split|]. split; [repeat split; assumption|].
  split; [|split; [|split]].
  - exact Hmessage.
  - rewrite Hmessage. apply shown_after_says; [exact Hsays|discriminate].
  - reflexivity.
  - intros budget. destruct budget; reflexivity.
Qed.

(** C6, as amended.  In the success scenario (an image and a non-empty
    prompt, a credential, the file read, the job accepted and completed by
    the first status query with a link in its payload, the download
    successful) the submit puts the session in the Generating state, whose
    view shows "Preparing your image..." first.  The messages shown are, in
    this order: "Preparing your image...", "Initializing video
    generation...", "Video generation started. This may take a few
    minutes.", "Warming up the AI generators..." (the first message of the
    poll loop) and "Downloading generated video...".  The run makes one
    status query and ends in the Success state with the object URL of the
    downloaded video as the playable asset. *)
Theorem success_scenario_messages :
  forall (w : World) (env : ProcessEnv) (s : Session) (file : File)
         (dataUrl : string) (operation completed : GenerateVideosOperation)
         (videoResponse : Response) (videoBlob : Blob),
    imageFile s = Some file ->
    truthy (Some (prompt s)) = true ->
    truthy (API_KEY env) = true ->
    readAsDataURL w file = Onload (ResultString dataUrl) ->
    generateVideos w {| apiKey := API_KEY env |}
      (generateVideos_params (nth_error (split "," dataUrl) 1) (type file)
         (prompt s)) = inr operation ->
    truthy_bool (done operation) = false ->
    getVideosOperation w 0 operation = inr completed ->
    truthy_bool (done completed) = true ->
    truthy (downloadLink_of completed) = true ->
    fetch w (template (downloadLink_of completed) ++ "&key="
             ++ template (API_KEY env)) = inr videoResponse ->
    ok videoResponse = true ->
    blob w videoResponse = inr videoBlob ->
    exists st1 st' : RunState,
      run 3 w (start s) (handleGenerateVideo env (imageFile s) (prompt s))
      = Pending st1
      /\ renderContent (session st1)
         = [ LoadingSpinner;
             Paragraph "Generating Your Video";
             Paragraph "Preparing your image..." ]
      /\ (forall fuel,
            run (17 + fuel) w (start s)
              (handleGenerateVideo env (imageFile s) (prompt s))
            = Done st' tt fuel)
      /\ shown (trace st')
         = [ "Preparing your image...";
             "Initializing video generation...";
             "Video generation started. This may take a few minutes.";
             "Warming up the AI generators...";
             "Downloading generated video..." ]
      /\ polls st' = 1
      /\ appState (session st') = SUCCESS
      /\ generatedVideoUrl (session st')
         = Some (createObjectURL w (inr videoBlob))
      /\ renderContent (session st')
         = [ Heading "Video Generated Successfully!" ]
           ++ (if truthy (Some (createObjectURL w (inr videoBlob)))
               then [ VideoPlayer (createObjectURL w (inr videoBlob)) ]
               else [])
           ++ [ Button "Create Another Video" OnResetState false ].
Proof.
  intros w env s file dataUrl operation completed videoResponse videoBlob
         Hfile Hprompt Hkey Hread Hsubmit Hnotdone Hpoll Hdone Hlink Hfetch
         Hok Hblob.
  rewrite Hfile. do 2 eexists.
  split; [|split; [|split]].
  - unfold handleGenerateVideo. rewrite Hprompt. cbn. reflexivity.
  - reflexivity.
  - intros fuel. change (17 + fuel) with (3 + (14 + fuel)).
    rewrite handler_enters_try by exact Hprompt.
    unfold handleGenerateVideo_try. rewrite run_await.
    unfold fileToBase64. rewrite run_bind.
    change (14 + fuel) with (S (13 + fuel)).
    rewrite run_trigger. cbn [fst snd perform answer]. rewrite Hread.
    unfold resolve at 1. rewrite run_ret, run_await.
    change (13 + fuel) with (3 + (10 + fuel)).
    rewrite (generate_enters_loop w env _ _ _ _ (10 + fuel) Hkey Hsubmit).
    rewrite run_await.
    change (10 + fuel) with (4 + (6 + fuel)).
    rewrite poll_turn_answered with (answered := completed);
      [|exact Hnotdone|exact Hpoll].
    rewrite poll_exit by exact Hdone.
    change (6 + fuel) with (3 + (3 + fuel)).
    rewrite (download_with_link w env completed _ (3 + fuel)
               Hlink Hfetch Hok Hblob).
    cbn -[Nat.modulo nth progressMessages]. rewrite !Hpoll.
    cbn -[Nat.modulo nth progressMessages]. destruct fuel; reflexivity.
  - cbn. destruct (createObjectURL w (inr videoBlob) =? ""); repeat split.
Qed.

(* ===================================================================== *)
(** * The properties at concrete inputs *)
(* ===================================================================== *)

(** The first nine turns of the loop in the world [stuck]: the eighth and
    the ninth message are the first and the second again. *)
Example nine_turns_of_the_loop :
  calls (trace (state_of
    (run 41 Scenario.stuck (start Scenario.ready)
       (pollOperation {| apiKey := Some "KEY" |} Scenario.submitted
          setLoadingMessage))))
  = [ Progress "Warming up the AI generators..."; Poll;
      Progress "Analyzing image composition..."; Poll;
      Progress "Dreaming up video frames..."; Poll;
      Progress "Stitching scenes together..."; Poll;
      Progress "Applying cinematic effects..."; Poll;
      Progress "Rendering the final cut..."; Poll;
      Progress "Almost there, adding final touches..."; Poll;
      Progress "Warming up the AI generators..."; Poll;
      Progress "Analyzing image composition..."; Poll ].
Proof. vm_compute. reflexivity. Qed.

(** The cycle of messages in the world [stuck], where the job is never done. *)
Lemma poll_progress_messages_cycle_witness :
  truthy (API_KEY Scenario.keyed) = true
  /\ never_done Scenario.stuck 0 Scenario.submitted
  /\ length progressMessages = 7
  /\ (forall fuel, exists st',
        run fuel Scenario.stuck (start Scenario.ready)
          (generateVideoFromImage Scenario.keyed (Some "iVBORw0KGgo=")
             "image/png" "a cat walking" setLoadingMessage) = Pending st')
  /\ (forall n, exists fuel st' loop_evs,
        run fuel Scenario.stuck (start Scenario.ready)
          (generateVideoFromImage Scenario.keyed (Some "iVBORw0KGgo=")
             "image/png" "a cat walking" setLoadingMessage) = Pending st'
        /\ polls st' = n + 0
        /\ trace st' = []
                       ++ submit_events Scenario.keyed (Some "iVBORw0KGgo=")
                            "image/png" "a cat walking"
                       ++ loop_evs
        /\ calls loop_evs
           = flat_map
               (fun i => [ Progress (nth (i mod 7) progressMessages ""); Poll ])
               (seq 0 n)).
Proof.
  split; [reflexivity|]. split; [apply stuck_never_done|].
  apply (poll_progress_messages_cycle Scenario.stuck Scenario.keyed
           (Some "iVBORw0KGgo=") "image/png" "a cat walking"
           Scenario.submitted (start Scenario.ready)
           eq_refl eq_refl (stuck_never_done 0)).
Defined.

(** No submit on the page of a Generating session; a submit from the Idle
    session [ready] keeps the session Generating while it is pending. *)
Lemma no_submit_while_generating_witness :
  appState Scenario.generating = GENERATING
  /\ dispatch Scenario.keyed Scenario.generating submit = None
  /\ dispatch Scenario.keyed Scenario.ready submit
     = Some (handleGenerateVideo Scenario.keyed (imageFile Scenario.ready)
               (prompt Scenario.ready))
  /\ appState Scenario.ready = IDLE
  /\ (forall (w : World) (fuel : nat) (st' : RunState),
        run (S fuel) w (start Scenario.ready)
          (handleGenerateVideo Scenario.keyed (imageFile Scenario.ready)
             (prompt Scenario.ready)) = Pending st' ->
        appState (session st') = GENERATING
        /\ forall a, dispatch Scenario.keyed (session st') a = None).
Proof.
  split; [reflexivity|].
  split; [exact (proj1 (no_submit_while_generating Scenario.keyed
                          Scenario.generating) eq_refl submit)|].
  split; [reflexivity|].
  destruct (proj2 (no_submit_while_generating Scenario.keyed Scenario.ready)
              _ eq_refl) as (Hidle & _ & Hrun).
  split; [exact Hidle | exact Hrun].
Defined.

(** In the world [stuck] the first status query fails and the second is
    made all the same. *)
Example a_failed_query_then_the_next :
  trace (state_of
    (run 8 Scenario.stuck (start Scenario.ready)
       (pollOperation {| apiKey := Some "KEY" |} Scenario.submitted
          setLoadingMessage)))
  = [ ev (SetLoadingMessage "Warming up the AI generators...");
      ev (SetTimeout 10000%N);
      ev (GetVideosOperation {| apiKey := Some "KEY" |} Scenario.submitted);
      ev (ConsoleError [LogString "Polling failed";
                        LogValue (JsError "Failed to fetch")]);
      ev (SetLoadingMessage "Analyzing image composition...");
      ev (SetTimeout 10000%N);
      ev (GetVideosOperation {| apiKey := Some "KEY" |} Scenario.submitted) ].
Proof. vm_compute. reflexivity. Qed.

(** The failed first query of the world [stuck] is logged and followed by a
    second query. *)
Lemma failed_poll_is_swallowed_witness :
  truthy_bool (done Scenario.submitted) = false
  /\ getVideosOperation Scenario.stuck (polls (start Scenario.ready))
       Scenario.submitted = inl (JsError "Failed to fetch")
  /\ exists st1 st2 : RunState,
       (forall fuel,
          run (5 + fuel) Scenario.stuck (start Scenario.ready)
            (pollOperation_from {| apiKey := Some "KEY" |} setLoadingMessage
               (Scenario.submitted, 0))
          = run fuel Scenario.stuck st1
              (pollOperation_from {| apiKey := Some "KEY" |} setLoadingMessage
                 (Scenario.submitted, 1)))
       /\ trace st1
          = trace (start Scenario.ready)
            ++ [ ev (SetLoadingMessage (nth (0 mod 7) progressMessages ""));
                 ev (SetTimeout 10000%N);
                 ev (GetVideosOperation {| apiKey := Some "KEY" |}
                       Scenario.submitted);
                 ev (ConsoleError [LogString "Polling failed";
                                   LogValue (JsError "Failed to fetch")]) ]
       /\ run 3 Scenario.stuck st1
            (pollOperation_from {| apiKey := Some "KEY" |} setLoadingMessage
               (Scenario.submitted, 1))
          = Pending st2
       /\ trace st2
          = trace st1
            ++ [ ev (SetLoadingMessage (nth (1 mod 7) progressMessages ""));
                 ev (SetTimeout 10000%N);
                 ev (GetVideosOperation {| apiKey := Some "KEY" |}
                       Scenario.submitted) ]
       /\ polls st2 = 2 + polls (start Scenario.ready)
       /\ (forall fuel st' err rest,
             run fuel Scenario.stuck (start Scenario.ready)
               (pollOperation_from {| apiKey := Some "KEY" |} setLoadingMessage
                  (Scenario.submitted, 0))
             <> Done st' (inl err) rest).
Proof.
  split; [reflexivity|]. split; [reflexivity|].
  exact (failed_poll_is_swallowed Scenario.stuck {| apiKey := Some "KEY" |}
           (start Scenario.ready) Scenario.submitted 0
           (JsError "Failed to fetch") eq_refl eq_refl).
Defined.

(** In the world [linkless] the run ends with the rejection, and nothing
    was fetched. *)
Example a_completed_job_without_link :
  run 8 Scenario.linkless (start Scenario.ready)
    (generateVideoFromImage Scenario.keyed (Some "iVBORw0KGgo=") "image/png"
       "a cat walking" setLoadingMessage)
  = Done
      (advance (start Scenario.ready)
         [ ev (SetLoadingMessage "Initializing video generation...");
           ev (GenerateVideos {| apiKey := Some "KEY" |}
                 (generateVideos_params (Some "iVBORw0KGgo=") "image/png"
                    "a cat walking"));
           ev (SetLoadingMessage
                 "Video generation started. This may take a few minutes.");
           ev (SetLoadingMessage "Warming up the AI generators...");
           ev (SetTimeout 10000%N);
           ev (GetVideosOperation {| apiKey := Some "KEY" |} Scenario.submitted);
           ev (ConsoleError [LogString "API Response:";
                             LogOperation Scenario.completedEmpty]) ] 1)
      (inl (JsError
         "Video generation failed or did not return a valid download link."))
      0.
Proof. vm_compute. reflexivity. Qed.

(** The rejection in the world [linkless], whose completed job has no video. *)
Lemma missing_link_rejects_without_download_witness :
  truthy (API_KEY Scenario.keyed) = true
  /\ completes_at Scenario.linkless 0 Scenario.submitted 1
  /\ truthy (downloadLink_of
               (currentAfter Scenario.linkless 0 Scenario.submitted 1)) = false
  /\ exists (fuel : nat) (st' : RunState) (evs : list Event),
       (forall extra,
          run (fuel + extra) Scenario.linkless (start Scenario.ready)
            (generateVideoFromImage Scenario.keyed (Some "iVBORw0KGgo=")
               "image/png" "a cat walking" setLoadingMessage)
          = Done st'
              (inl (JsError
                 "Video generation failed or did not return a valid download link."))
              extra)
       /\ trace st' = trace (start Scenario.ready) ++ evs
       /\ existsb is_fetch evs = false.
Proof.
  split; [reflexivity|]. split; [exact linkless_completes|].
  split; [reflexivity|].
  exact (proj1 (missing_link_rejects_without_download Scenario.linkless
                  Scenario.keyed (Some "iVBORw0KGgo=") "image/png"
                  "a cat walking" (start Scenario.ready) eq_refl)
           Scenario.submitted 1 eq_refl linkless_completes eq_refl).
Defined.

(** A submit without a credential: no network call, and the Error state. *)
Lemma missing_credential_fails_before_any_call_witness :
  truthy (API_KEY Scenario.unkeyed) = false
  /\ imageFile Scenario.ready = Some Scenario.png
  /\ truthy (Some (prompt Scenario.ready)) = true
  /\ run 5 Scenario.happy (start Scenario.ready)
       (generateVideoFromImage Scenario.unkeyed (Some "iVBORw0KGgo=")
          "image/png" "a cat walking" setLoadingMessage)
     = Done (start Scenario.ready)
         (inl (JsError
            "API key not found. Please ensure the API_KEY environment variable is set."))
         5
  /\ (forall fuel,
        existsb is_network
          (trace (state_of
             (run fuel Scenario.happy (start Scenario.ready)
                (handleGenerateVideo Scenario.unkeyed
                   (imageFile Scenario.ready) (prompt Scenario.ready)))))
        = false)
  /\ exists st' : RunState,
       run (7 + 0) Scenario.happy (start Scenario.ready)
         (handleGenerateVideo Scenario.unkeyed (imageFile Scenario.ready)
            (prompt Scenario.ready))
       = Done st' tt 0
       /\ appState (session st') = ERROR
       /\ (forall dataUrl,
             readAsDataURL Scenario.happy Scenario.png
             = Onload (ResultString dataUrl) ->
             error (session st')
             = Some "API key not found. Please ensure the API_KEY environment variable is set."
             /\ trace st'
                = start_events ++ [ ev (ReadAsDataURL Scenario.png) ]
                  ++ catch_events
                       (JsError
                          "API key not found. Please ensure the API_KEY environment variable is set.")).
Proof.
  destruct (missing_credential_fails_before_any_call Scenario.happy
              Scenario.unkeyed eq_refl) as (Hservice & Hcontroller).
  destruct (Hcontroller Scenario.ready Scenario.png eq_refl eq_refl)
    as (Hlocal & Hends).
  split; [reflexivity|]. split; [reflexivity|]. split; [reflexivity|].
  split; [apply Hservice|]. split; [exact Hlocal | exact (Hends 0)].
Defined.

(** The five messages and the Success state in the world [happy]. *)
Lemma success_scenario_messages_witness :
  imageFile Scenario.ready = Some Scenario.png
  /\ truthy (Some (prompt Scenario.ready)) = true
  /\ truthy (API_KEY Scenario.keyed) = true
  /\ truthy_bool (done Scenario.submitted) = false
  /\ getVideosOperation Scenario.happy 0 Scenario.submitted
     = inr Scenario.completed
  /\ truthy_bool (done Scenario.completed) = true
  /\ truthy (downloadLink_of Scenario.completed) = true
  /\ exists st1 st' : RunState,
       run 3 Scenario.happy (start Scenario.ready)
         (handleGenerateVideo Scenario.keyed (imageFile Scenario.ready)
            (prompt Scenario.ready))
       = Pending st1
       /\ renderContent (session st1)
          = [ LoadingSpinner;
              Paragraph "Generating Your Video";
              Paragraph "Preparing your image..." ]
       /\ (forall fuel,
             run (17 + fuel) Scenario.happy (start Scenario.ready)
               (handleGenerateVideo Scenario.keyed (imageFile Scenario.ready)
                  (prompt Scenario.ready))
             = Done st' tt fuel)
       /\ shown (trace st')
          = [ "Preparing your image...";
              "Initializing video generation...";
              "Video generation started. This may take a few minutes.";
              "Warming up the AI generators...";
              "Downloading generated video..." ]
       /\ polls st' = 1
       /\ appState (session st') = SUCCESS
       /\ generatedVideoUrl (session st')
          = Some (createObjectURL Scenario.happy (inr Scenario.mp4))
       /\ renderContent (session st')
          = [ Heading "Video Generated Successfully!" ]
            ++ (if truthy (Some (createObjectURL Scenario.happy
                                   (inr Scenario.mp4)))
                then [ VideoPlayer (createObjectURL Scenario.happy
                                      (inr Scenario.mp4)) ]
                else [])
            ++ [ Button "Create Another Video" OnResetState false ].
Proof.
  do 7 (split; [reflexivity|]).
  exact (success_scenario_messages Scenario.happy Scenario.keyed Scenario.ready
           Scenario.png "data:image/png;base64,iVBORw0KGgo="
           Scenario.submitted Scenario.completed
           {| ok := true; statusText := "OK";
              url := "https://video.test/1?alt=media&key=KEY" |}
           Scenario.mp4
           eq_refl eq_refl eq_refl eq_refl eq_refl eq_refl eq_refl eq_refl
           eq_refl eq_refl eq_refl eq_refl).
Defined.

(** C6 as the spec states it fails: in the success scenario the first
    message shown after the submit is "Preparing your image...", not
    "Warming up the AI generators...". *)
Lemma first_shown_message_counterexample :
  exists st' : RunState,
    run 17 Scenario.happy (start Scenario.ready)
      (handleGenerateVideo Scenario.keyed (imageFile Scenario.ready)
         (prompt Scenario.ready))
    = Done st' tt 0
    /\ appState (session st') = SUCCESS
    /\ hd_error (shown (trace st')) = Some "Preparing your image..."
    /\ hd_error (shown (trace st')) <> Some "Warming up the AI generators...".
Proof.
  eexists. split; [vm_compute; reflexivity|].
  split; [reflexivity|]. split; [reflexivity|].
  cbn. discriminate.
Qed.

(** The credential error is an [Error] with a message: the Error view shows
    that message. *)
Lemma failure_is_shown_in_error_state_witness :
  imageFile Scenario.ready = Some Scenario.png
  /\ truthy (Some (prompt Scenario.ready)) = true
  /\ fails_with Scenario.happy Scenario.unkeyed Scenario.png
       (prompt Scenario.ready) (advance (start Scenario.ready) start_events 0) 1
       (JsError
          "API key not found. Please ensure the API_KEY environment variable is set.")
       (advance (start Scenario.ready)
          (start_events ++ [ ev (ReadAsDataURL Scenario.png) ]) 0)
       0
  /\ exists st' : RunState,
       run (3 + (1 + 3)) Scenario.happy (start Scenario.ready)
         (handleGenerateVideo Scenario.unkeyed (imageFile Scenario.ready)
            (prompt Scenario.ready))
       = Done st' tt 0
       /\ appState (session st') = ERROR
       /\ renderContent (session st')
          = [ Heading "An Error Occurred";
              Paragraph
                "API key not found. Please ensure the API_KEY environment variable is set.";
              Button "Try Again" OnResetState false ].
Proof.
  assert (Hfails :
    fails_with Scenario.happy Scenario.unkeyed Scenario.png
      (prompt Scenario.ready) (advance (start Scenario.ready) start_events 0) 1
      (JsError
         "API key not found. Please ensure the API_KEY environment variable is set.")
      (advance (start Scenario.ready)
         (start_events ++ [ ev (ReadAsDataURL Scenario.png) ]) 0)
      0).
  { right. do 3 eexists. split; reflexivity. }
  split; [reflexivity|]. split; [reflexivity|]. split; [exact Hfails|].
  destruct (failure_is_shown_in_error_state Scenario.happy Scenario.unkeyed
              Scenario.ready Scenario.png 1 _ _ 0 eq_refl eq_refl Hfails)
    as (st' & Hrun & _ & Hstate & Hview & Hverbatim & _).
  exists st'. split; [exact Hrun|]. split; [exact Hstate|].
  rewrite Hview, (Hverbatim _ eq_refl); [reflexivity|discriminate].
Defined.

(** C7 as the spec states it fails: when the file reader fires [onerror],
    the rejection is the reader's event, which has no message, and the Error
    view shows the fixed text instead. *)
Lemma unreadable_file_counterexample :
  exists st_f st' : RunState,
    fails_with Scenario.unreadable Scenario.keyed Scenario.png
      (prompt Scenario.ready) (advance (start Scenario.ready) start_events 0) 1
      (JsProgressEvent "error") st_f 0
    /\ run 7 Scenario.unreadable (start Scenario.ready)
         (handleGenerateVideo Scenario.keyed (imageFile Scenario.ready)
            (prompt Scenario.ready))
       = Done st' tt 0
    /\ appState (session st') = ERROR
    /\ message_of (JsProgressEvent "error") = None
    /\ error (session st')
       = Some "An unknown error occurred during video generation."
    /\ ~ (exists m, message_of (JsProgressEvent "error") = Some m
                    /\ error (session st') = Some m).
Proof.
  do 2 eexists. split; [left; vm_compute; reflexivity|].
  split; [vm_compute; reflexivity|].
  split; [reflexivity|]. split; [reflexivity|]. split; [reflexivity|].
  intros (m & Hm & _). discriminate.
Qed.

(** A submit with an image and an empty prompt. *)
Lemma submit_without_input_is_rejected_witness :
  prompt Scenario.promptless = ""
  /\ exists st' : RunState,
       run 1 Scenario.happy (start Scenario.promptless)
         (handleGenerateVideo Scenario.keyed (imageFile Scenario.promptless)
            (prompt Scenario.promptless))
       = Done st' tt 0
       /\ trace st'
          = [ ev (SetError (Some "Please upload an image and provide a prompt.")) ]
       /\ error (session st')
          = Some "Please upload an image and provide a prompt."
       /\ appState (session st') = IDLE.
Proof.
  split; [reflexivity|].
  destruct (submit_without_input_is_rejected Scenario.happy Scenario.keyed
              Scenario.promptless 0 (or_intror eq_refl))
    as (st' & Hrun & Htrace & Herror & _ & Hidle & _).
  exists st'. split; [exact Hrun|]. split; [exact Htrace|].
  split; [exact Herror | exact (Hidle eq_refl)].
Defined.

(** A text file chosen in the session [ready]. *)
Lemma non_image_file_is_refused_witness :
  prefix "image/" (type Scenario.notes) = false
  /\ exists st' : RunState,
       run (3 + 0) Scenario.happy (start Scenario.ready)
         (handleImageChange {| files := Some [Scenario.notes] |})
       = Done st' tt 0
       /\ error (session st')
          = Some "Please upload a valid image file (e.g., PNG, JPG, WEBP)."
       /\ imageFile (session st') = None
       /\ imagePreviewUrl (session st') = None
       /\ appState (session st') = IDLE.
Proof.
  split; [reflexivity|].
  destruct (non_image_file_is_refused Scenario.happy Scenario.keyed
              Scenario.ready {| files := Some [Scenario.notes] |}
              Scenario.notes 0 eq_refl eq_refl)
    as (st' & Hrun & _ & Herror & Hfile & Hpreview & Hstate & _).
  exists st'. split; [exact Hrun|]. split; [exact Herror|].
  split; [exact Hfile|]. split; [exact Hpreview | exact Hstate].
Defined.

(** A submit whose file cannot be read: the cells after the failure. *)
Lemma failure_changes_state_and_error_only_witness :
  imageFile Scenario.ready = Some Scenario.png
  /\ truthy (Some (prompt Scenario.ready)) = true
  /\ fails_with Scenario.unreadable Scenario.keyed Scenario.png
       (prompt Scenario.ready) (advance (start Scenario.ready) start_events 0) 1
       (JsProgressEvent "error")
       (advance (start Scenario.ready)
          (start_events ++ [ ev (ReadAsDataURL Scenario.png) ]) 0)
       0
  /\ exists st' : RunState,
       run (3 + (1 + 3)) Scenario.unreadable (start Scenario.ready)
         (handleGenerateVideo Scenario.keyed (imageFile Scenario.ready)
            (prompt Scenario.ready))
       = Done st' tt 0
       /\ appState (session st') = ERROR
       /\ imageFile (session st') = Some Scenario.png
       /\ imagePreviewUrl (session st') = Some "blob:0"
       /\ prompt (session st') = "a cat walking"
       /\ generatedVideoUrl (session st') = None
       /\ loadingMessage (session st') <> ""
       /\ dispatch Scenario.keyed (session st') tryAgain = Some resetState.
Proof.
  assert (Hfails :
    fails_with Scenario.unreadable Scenario.keyed Scenario.png
      (prompt Scenario.ready) (advance (start Scenario.ready) start_events 0) 1
      (JsProgressEvent "error")
      (advance (start Scenario.ready)
         (start_events ++ [ ev (ReadAsDataURL Scenario.png) ]) 0)
      0).
  { left. reflexivity. }
  split; [reflexivity|]. split; [reflexivity|]. split; [exact Hfails|].
  destruct (failure_changes_state_and_error_only Scenario.unreadable
              Scenario.keyed Scenario.ready Scenario.png 1 _ _ 0
              eq_refl eq_refl Hfails)
    as (st' & Hrun & Hstate & _ & _ & (Hi & Hp & Hq & Hv) & _ & Hm & Hd & _).
  exists st'. split; [exact Hrun|]. split; [exact Hstate|].
  split; [exact Hi|]. split; [exact Hp|]. split; [exact Hq|].
  split; [exact Hv|]. split; [exact Hm | exact Hd].
Defined.

(* ===================================================================== *)
(** * Further facts about the controller *)
(* ===================================================================== *)

(** [resetState] puts every cell back to its initial value. *)
Example reset_returns_to_the_initial_session :
  forall (w : World) (st : RunState) (fuel : nat),
    session (state_of (run (7 + fuel) w st resetState)) = initialSession.
Proof. intros w st fuel. cbn. destruct fuel; reflexivity. Qed.

(** Without an image or without a prompt the submit button of the Idle page
    is disabled, so on the page the guard of [handleGenerateVideo] is not
    reached: it guards a direct call of the handler. *)
Example submit_button_is_disabled_without_input :
  forall (env : ProcessEnv) (s : Session),
    imageFile s = None \/ prompt s = "" ->
    dispatch env s submit = None.
Proof.
  intros env s Hmissing.
  assert (Hguard : negb (truthy_obj (imageFile s))
                   || negb (truthy (Some (prompt s))) = true).
  { destruct Hmissing as [-> | ->]; [reflexivity|].
    destruct (imageFile s); reflexivity. }
  unfold dispatch, renderContent, submit.
  destruct (appState s); cbn [find_button app].
  - destruct (truthy (imagePreviewUrl s)); destruct (truthy (error s));
      cbn [find_button app]; rewrite Hguard; reflexivity.
  - reflexivity.
  - destruct (truthy (generatedVideoUrl s)); reflexivity.
  - reflexivity.
Qed.

(** The handler itself does not look at [appState]: called directly in a
    Generating session it starts over.  What keeps a second job from being
    submitted is the page, which has no submit button in that state. *)
Example handler_does_not_look_at_the_state :
  trace (state_of
    (run 4 Scenario.happy (start Scenario.generating)
       (handleGenerateVideo Scenario.keyed (imageFile Scenario.generating)
          (prompt Scenario.generating))))
  = start_events ++ [ ev (ReadAsDataURL Scenario.png) ].
Proof. vm_compute. reflexivity. Qed.

(* ===================================================================== *)
(** * Further properties of the service *)
(* ===================================================================== *)

(** X1.  When the job completes with the status query numbered [n],
    [pollOperation] resolves with the operation that reported completion,
    after exactly [n] queries, each preceded by one call of [onProgress] and
    the 10000 ms timer; failed queries on the way are logged and do not
    count as an answer.  With [n = 0] (the operation is done when the
    function is called) it resolves at once: no message, no timer, no
    query. *)
Theorem poll_returns_when_job_completes :
  forall (w : World) (ai : GoogleGenAI) (st : RunState)
         (operation : GenerateVideosOperation) (n : nat),
    completes_at w (polls st) operation n ->
    exists (cost : nat) (st' : RunState),
      4 * n <= cost <= 5 * n
      /\ (forall fuel,
            run (cost + fuel) w st (pollOperation ai operation setLoadingMessage)
            = Done st' (inr (currentAfter w (polls st) operation n)) fuel)
      /\ polls st' = n + polls st
      /\ trace st' = trace st ++ poll_events ai w (polls st) operation 0 n
      /\ calls (poll_events ai w (polls st) operation 0 n)
         = flat_map
             (fun i => [ Progress (nth (i mod 7) progressMessages ""); Poll ])
             (seq 0 n)
      /\ (n = 0 -> st' = st).
Proof.
  intros w ai st operation n [Hbefore Hat].
  destruct (poll_turns w ai (n := n) st operation 0 Hbefore)
    as (cost & st' & Hcost & Hrun & Hpolls & Htrace & Hsession).
  exists cost, st'. split; [exact Hcost|]. split; [|split; [|split; [|split]]].
  - intros fuel. unfold pollOperation. rewrite Hrun.
    apply poll_exit. exact Hat.
  - exact Hpolls.
  - exact Htrace.
  - apply calls_poll_events.
  - intros ->. cbn in *. rewrite app_nil_r in Htrace.
    destruct st, st'. cbn in *. congruence.
Qed.

(** The world [slow]: three queries, the first of them failed. *)
Lemma poll_returns_when_job_completes_witness :
  completes_at Outage.slow (polls (start Scenario.ready)) Scenario.submitted 3
  /\ exists (cost : nat) (st' : RunState),
       4 * 3 <= cost <= 5 * 3
       /\ (forall fuel,
             run (cost + fuel) Outage.slow (start Scenario.ready)
               (pollOperation {| apiKey := Some "KEY" |} Scenario.submitted
                  setLoadingMessage)
             = Done st' (inr Scenario.completed) fuel)
       /\ polls st' = 3
       /\ calls (trace st')
          = [ Progress "Warming up the AI generators..."; Poll;
              Progress "Analyzing image composition..."; Poll;
              Progress "Dreaming up video frames..."; Poll ].
Proof.
  split; [exact slow_completes|].
  destruct (poll_returns_when_job_completes Outage.slow
              {| apiKey := Some "KEY" |} (start Scenario.ready)
              Scenario.submitted 3 slow_completes)
    as (cost & st' & Hcost & Hrun & Hpolls & Htrace & Hcalls & _).
  exists cost, st'. split; [exact Hcost|]. split; [exact Hrun|].
  split; [exact Hpolls|]. rewrite Htrace. exact Hcalls.
Defined.

(** X2.  When the service rejects the submission, [generateVideoFromImage]
    rejects with the very value the service gave, after its first message
    and the one call: it shows no further message, starts no timer and makes
    no status query and no download. *)
Theorem rejected_submission_is_passed_on :
  forall (w : World) (env : ProcessEnv) (base64Image : option string)
         (mimeType prompt : string) (st : RunState) (e : JsValue) (fuel : nat),
    truthy (API_KEY env) = true ->
    generateVideos w {| apiKey := API_KEY env |}
      (generateVideos_params base64Image mimeType prompt) = inl e ->
    run (2 + fuel) w st
      (generateVideoFromImage env base64Image mimeType prompt setLoadingMessage)
    = Done (advance st
              [ ev (SetLoadingMessage "Initializing video generation...");
                ev (GenerateVideos {| apiKey := API_KEY env |}
                      (generateVideos_params base64Image mimeType prompt)) ] 0)
        (inl e) fuel.
Proof.
  intros w env base64Image mimeType prompt st e fuel Hkey Hsubmit.
  unfold generateVideoFromImage. rewrite Hkey. cbn [negb Nat.add].
  unfold setLoadingMessage at 1. rewrite run_bind, run_trigger. cbn [fst snd].
  rewrite run_await, run_trigger. cbn [fst snd perform answer].
  rewrite Hsubmit. unfold advance.
  cbn [session polls trace is_poll replay fold_left projT2 ev Nat.add update].
  rewrite <- !app_assoc. reflexivity.
Qed.

Lemma rejected_submission_is_passed_on_witness :
  truthy (API_KEY Scenario.keyed) = true
  /\ run (2 + 0) Outage.refused (start Scenario.ready)
       (generateVideoFromImage Scenario.keyed (Some "iVBORw0KGgo=") "image/png"
          "a cat walking" setLoadingMessage)
     = Done (advance (start Scenario.ready)
               [ ev (SetLoadingMessage "Initializing video generation...");
                 ev (GenerateVideos {| apiKey := Some "KEY" |}
                       (generateVideos_params (Some "iVBORw0KGgo=") "image/png"
                          "a cat walking")) ] 0)
         (inl (JsError "Quota exceeded")) 0.
Proof.
  split; [reflexivity|].
  exact (rejected_submission_is_passed_on Outage.refused Scenario.keyed
           (Some "iVBORw0KGgo=") "image/png" "a cat walking"
           (start Scenario.ready) (JsError "Quota exceeded") 0
           eq_refl eq_refl).
Defined.

(** X3.  When the fetch of the video is answered with a response that is
    not [ok], [generateVideoFromImage] rejects with an [Error] whose message
    is "Failed to download video: " followed by the status text of the
    response; the fetch is its last call, the body of the response is not
    read. *)
Theorem failed_download_reports_status_text :
  forall (w : World) (env : ProcessEnv) (base64Image : option string)
         (mimeType prompt : string) (st : RunState)
         (operation : GenerateVideosOperation) (n : nat)
         (videoResponse : Response),
    reaches_download w env base64Image mimeType prompt st operation n ->
    fetch w (download_url env (currentAfter w (polls st) operation n))
    = inr videoResponse ->
    ok videoResponse = false ->
    exists (budget : nat) (st' : RunState),
      (forall extra,
         run (budget + extra) w st
           (generateVideoFromImage env base64Image mimeType prompt
              setLoadingMessage)
         = Done st'
             (inl (JsError ("Failed to download video: "
                            ++ statusText videoResponse)))
             extra)
      /\ trace st'
         = trace st
           ++ events_to_fetch w env base64Image mimeType prompt st operation n
      /\ polls st' = n + polls st.
Proof.
  intros w env base64Image mimeType prompt st operation n videoResponse
         (Hkey & Hsubmit & Hat & Hlink) Hfetch Hok.
  destruct (@generate_reaches_download w env base64Image mimeType prompt st
              operation n Hkey Hsubmit Hat)
    as (cost & st1 & _ & Hrun & Hpolls & Htrace & _).
  exists (3 + (cost + 2)). eexists. split; [|split].
  - intros extra.
    replace (3 + (cost + 2) + extra) with (3 + (cost + (2 + extra))) by lia.
    rewrite Hrun.
    apply download_not_ok with (videoResponse := videoResponse); assumption.
  - cbn [advance trace]. rewrite Htrace. unfold events_to_fetch.
    rewrite <- !app_assoc. reflexivity.
  - cbn [advance polls]. exact Hpolls.
Qed.

Lemma failed_download_reports_status_text_witness :
  reaches_download Outage.forbidden Scenario.keyed (Some "iVBORw0KGgo=")
    "image/png" "a cat walking" (start Scenario.ready) Scenario.submitted 1
  /\ exists (budget : nat) (st' : RunState),
       (forall extra,
          run (budget + extra) Outage.forbidden (start Scenario.ready)
            (generateVideoFromImage Scenario.keyed (Some "iVBORw0KGgo=")
               "image/png" "a cat walking" setLoadingMessage)
          = Done st' (inl (JsError "Failed to download video: Forbidden")) extra)
       /\ existsb is_fetch (trace st') = true
       /\ polls st' = 1.
Proof.
  assert (Hreach :
    reaches_download Outage.forbidden Scenario.keyed (Some "iVBORw0KGgo=")
      "image/png" "a cat walking" (start Scenario.ready) Scenario.submitted 1).
  { split; [reflexivity|]. split; [reflexivity|].
    split; [apply first_query_completes; reflexivity | reflexivity]. }
  split; [exact Hreach|].
  destruct (failed_download_reports_status_text Outage.forbidden Scenario.keyed
              (Some "iVBORw0KGgo=") "image/png" "a cat walking"
              (start Scenario.ready) Scenario.submitted 1
              {| ok := false; statusText := "Forbidden";
                 url := "https://video.test/1?alt=media&key=KEY" |}
              Hreach eq_refl eq_refl)
    as (budget & st' & Hrun & Htrace & Hpolls).
  exists budget, st'. split; [exact Hrun|]. split; [|exact Hpolls].
  rewrite Htrace. reflexivity.
Defined.

(** X4.  A rejection of the fetch, or of the reading of the body of an [ok]
    response, is not caught: [generateVideoFromImage] rejects with the very
    value of that rejection.  (A rejected status query, in contrast, is
    caught inside the loop.) *)
Theorem download_rejections_are_passed_on :
  forall (w : World) (env : ProcessEnv) (base64Image : option string)
         (mimeType prompt : string) (st : RunState)
         (operation : GenerateVideosOperation) (n : nat) (e : JsValue),
    reaches_download w env base64Image mimeType prompt st operation n ->
    (fetch w (download_url env (currentAfter w (polls st) operation n)) = inl e ->
     exists (budget : nat) (st' : RunState),
       (forall extra,
          run (budget + extra) w st
            (generateVideoFromImage env base64Image mimeType prompt
               setLoadingMessage)
          = Done st' (inl e) extra)
       /\ trace st'
          = trace st
            ++ events_to_fetch w env base64Image mimeType prompt st operation n)
    /\ (forall videoResponse,
          fetch w (download_url env (currentAfter w (polls st) operation n))
          = inr videoResponse ->
          ok videoResponse = true ->
          blob w videoResponse = inl e ->
          exists (budget : nat) (st' : RunState),
            (forall extra,
               run (budget + extra) w st
                 (generateVideoFromImage env base64Image mimeType prompt
                    setLoadingMessage)
               = Done st' (inl e) extra)
            /\ trace st'
               = trace st
                 ++ events_to_fetch w env base64Image mimeType prompt st
                      operation n
                 ++ [ ev (ResponseBlob videoResponse) ]).
Proof.
  intros w env base64Image mimeType prompt st operation n e
         (Hkey & Hsubmit & Hat & Hlink).
  destruct (@generate_reaches_download w env base64Image mimeType prompt st
              operation n Hkey Hsubmit Hat)
    as (cost & st1 & _ & Hrun & Hpolls & Htrace & _).
  split.
  - intros Hfetch. exists (3 + (cost + 2)). eexists. split.
    + intros extra.
      replace (3 + (cost + 2) + extra) with (3 + (cost + (2 + extra))) by lia.
      rewrite Hrun. apply download_fetch_rejected; assumption.
    + cbn [advance trace]. rewrite Htrace. unfold events_to_fetch.
      rewrite <- !app_assoc. reflexivity.
  - intros videoResponse Hfetch Hok Hblob.
    exists (3 + (cost + 3)). eexists. split.
    + intros extra.
      replace (3 + (cost + 3) + extra) with (3 + (cost + (3 + extra))) by lia.
      rewrite Hrun.
      apply download_body_rejected with (videoResponse := videoResponse);
        assumption.
    + cbn [advance trace]. rewrite Htrace. unfold events_to_fetch.
      rewrite <- !app_assoc. reflexivity.
Qed.

Lemma download_rejections_are_passed_on_witness :
  reaches_download Outage.offline Scenario.keyed (Some "iVBORw0KGgo=")
    "image/png" "a cat walking" (start Scenario.ready) Scenario.submitted 1
  /\ (exists (budget : nat) (st' : RunState),
        forall extra,
          run (budget + extra) Outage.offline (start Scenario.ready)
            (generateVideoFromImage Scenario.keyed (Some "iVBORw0KGgo=")
               "image/png" "a cat walking" setLoadingMessage)
          = Done st' (inl (JsError "Failed to fetch")) extra)
  /\ reaches_download Outage.truncated Scenario.keyed (Some "iVBORw0KGgo=")
       "image/png" "a cat walking" (start Scenario.ready) Scenario.submitted 1
  /\ (exists (budget : nat) (st' : RunState),
        forall extra,
          run (budget + extra) Outage.truncated (start Scenario.ready)
            (generateVideoFromImage Scenario.keyed (Some "iVBORw0KGgo=")
               "image/png" "a cat walking" setLoadingMessage)
          = Done st' (inl (JsError "The body stream was interrupted")) extra).
Proof.
  assert (Hoffline :
    reaches_download Outage.offline Scenario.keyed (Some "iVBORw0KGgo=")
      "image/png" "a cat walking" (start Scenario.ready) Scenario.submitted 1).
  { split; [reflexivity|]. split; [reflexivity|].
    split; [apply first_query_completes; reflexivity | reflexivity]. }
  assert (Htruncated :
    reaches_download Outage.truncated Scenario.keyed (Some "iVBORw0KGgo=")
      "image/png" "a cat walking" (start Scenario.ready) Scenario.submitted 1).
  { split; [reflexivity|]. split; [reflexivity|].
    split; [apply first_query_completes; reflexivity | reflexivity]. }
  split; [exact Hoffline|]. split; [|split; [exact Htruncated|]].
  - destruct (proj1 (download_rejections_are_passed_on Outage.offline
                       Scenario.keyed (Some "iVBORw0KGgo=") "image/png"
                       "a cat walking" (start Scenario.ready)
                       Scenario.submitted 1 (JsError "Failed to fetch")
                       Hoffline) eq_refl)
      as (budget & st' & Hrun & _).
    exists budget, st'. exact Hrun.
  - destruct (proj2 (download_rejections_are_passed_on Outage.truncated
                       Scenario.keyed (Some "iVBORw0KGgo=") "image/png"
                       "a cat walking" (start Scenario.ready)
                       Scenario.submitted 1
                       (JsError "The body stream was interrupted")
                       Htruncated)
                _ eq_refl eq_refl eq_refl)
      as (budget & st' & Hrun & _).
    exists budget, st'. exact Hrun.
Defined.

(** X5.  When the job completes with a link, the fetch is answered [ok] and
    the body can be read, [generateVideoFromImage] resolves with the blob of
    that body.  It has fetched exactly the link of the completed operation
    with "&key=" and the credential appended, it has made [n] status
    queries, and of the session it has set [loadingMessage] only, last to
    "Downloading generated video...". *)
Theorem generation_resolves_with_downloaded_blob :
  forall (w : World) (env : ProcessEnv) (base64Image : option string)
         (mimeType prompt : string) (st : RunState)
         (operation : GenerateVideosOperation) (n : nat)
         (videoResponse : Response) (videoBlob : Blob),
    reaches_download w env base64Image mimeType prompt st operation n ->
    fetch w (download_url env (currentAfter w (polls st) operation n))
    = inr videoResponse ->
    ok videoResponse = true ->
    blob w videoResponse = inr videoBlob ->
    exists (budget : nat) (st' : RunState),
      (forall extra,
         run (budget + extra) w st
           (generateVideoFromImage env base64Image mimeType prompt
              setLoadingMessage)
         = Done st' (inr videoBlob) extra)
      /\ trace st'
         = trace st
           ++ events_to_fetch w env base64Image mimeType prompt st operation n
           ++ [ ev (ResponseBlob videoResponse) ]
      /\ polls st' = n + polls st
      /\ same_cells (session st) (session st')
      /\ loadingMessage (session st') = "Downloading generated video...".
Proof.
  intros w env base64Image mimeType prompt st operation n videoResponse
         videoBlob (Hkey & Hsubmit & Hat & Hlink) Hfetch Hok Hblob.
  destruct (@generate_reaches_download w env base64Image mimeType prompt st
              operation n Hkey Hsubmit Hat)
    as (cost & st1 & _ & Hrun & Hpolls & Htrace & Hcells).
  exists (3 + (cost + 3)). eexists. split; [|split; [|split; [|split]]].
  - intros extra.
    replace (3 + (cost + 3) + extra) with (3 + (cost + (3 + extra))) by lia.
    rewrite Hrun.
    apply download_with_link with (videoResponse := videoResponse); assumption.
  - cbn [advance trace]. rewrite Htrace. unfold events_to_fetch, download_url.
    rewrite <- !app_assoc. reflexivity.
  - cbn [advance polls]. exact Hpolls.
  - destruct Hcells as (H1 & H2 & H3 & H4 & H5 & H6).
    unfold same_cells. cbn. repeat split; assumption.
  - reflexivity.
Qed.

Lemma generation_resolves_with_downloaded_blob_witness :
  reaches_download Outage.slow Scenario.keyed (Some "iVBORw0KGgo=")
    "image/png" "a cat walking" (start Scenario.ready) Scenario.submitted 3
  /\ exists (budget : nat) (st' : RunState),
       (forall extra,
          run (budget + extra) Outage.slow (start Scenario.ready)
            (generateVideoFromImage Scenario.keyed (Some "iVBORw0KGgo=")
               "image/png" "a cat walking" setLoadingMessage)
          = Done st' (inr Scenario.mp4) extra)
       /\ polls st' = 3
       /\ loadingMessage (session st') = "Downloading generated video...".
Proof.
  assert (Hreach :
    reaches_download Outage.slow Scenario.keyed (Some "iVBORw0KGgo=")
      "image/png" "a cat walking" (start Scenario.ready) Scenario.submitted 3).
  { split; [reflexivity|]. split; [reflexivity|].
    split; [exact slow_completes | reflexivity]. }
  split; [exact Hreach|].
  destruct (generation_resolves_with_downloaded_blob Outage.slow Scenario.keyed
              (Some "iVBORw0KGgo=") "image/png" "a cat walking"
              (start Scenario.ready) Scenario.submitted 3
              {| ok := true; statusText := "OK";
                 url := "https://video.test/1?alt=media&key=KEY" |}
              Scenario.mp4 Hreach eq_refl eq_refl eq_refl)
    as (budget & st' & Hrun & _ & Hpolls & _ & Hmessage).
  exists budget, st'. split; [exact Hrun|]. split; [exact Hpolls | exact Hmessage].
Defined.

(** X6.  Whatever callback it is given, [generateVideoFromImage] performs on
    its own account only calls of the SDK, the timer, [fetch], the reading
    of the response body and [console.error]: every other event of a run
    comes from the callback.  In particular it reads no file, creates no
    object URL and sets no cell of the session itself. *)
Theorem service_makes_only_its_own_calls :
  forall (P : Event -> bool) (onProgress : string -> itree appE unit)
         (env : ProcessEnv) (base64Image : option string)
         (mimeType prompt : string),
    (forall message, performs P (onProgress message)) ->
    forall (w : World) (fuel : nat) (st : RunState),
    exists evs : list Event,
      trace (state_of
               (run fuel w st
                  (generateVideoFromImage env base64Image mimeType prompt
                     onProgress)))
      = trace st ++ evs
      /\ forallb (either service_call P) evs = true.
Proof.
  intros P onProgress env base64Image mimeType prompt Hcallback w fuel st.
  destruct (@performs_generateVideoFromImage_with P onProgress Hcallback env
              base64Image mimeType prompt w fuel st)
    as (evs & Htrace & _ & Hevs).
  exists evs. split; assumption.
Qed.

(** With [setLoadingMessage] as the callback, in the world [stuck]. *)
Lemma service_makes_only_its_own_calls_witness :
  (forall message, performs is_message (setLoadingMessage message))
  /\ exists evs : list Event,
       trace (state_of
                (run 40 Scenario.stuck (start Scenario.ready)
                   (generateVideoFromImage Scenario.keyed (Some "iVBORw0KGgo=")
                      "image/png" "a cat walking" setLoadingMessage)))
       = trace (start Scenario.ready) ++ evs
       /\ forallb (either service_call is_message) evs = true.
Proof.
  split; [exact performs_setLoadingMessage|].
  exact (service_makes_only_its_own_calls is_message setLoadingMessage
           Scenario.keyed (Some "iVBORw0KGgo=") "image/png" "a cat walking"
           performs_setLoadingMessage Scenario.stuck 40 (start Scenario.ready)).
Defined.

(* ===================================================================== *)
(** * Further properties of the encode step *)
(* ===================================================================== *)

(** X7.  When the reader's result is a string with a comma, [fileToBase64]
    resolves with the text between the first comma and the second (or the
    end): for a data URL, whose header has no comma and whose base64 payload
    has none either, that is the payload without the header.  Anything after
    a second comma is dropped.  The call reads the file once and does
    nothing else. *)
Theorem encoding_is_the_text_after_the_first_comma :
  forall (w : World) (file : File) (header payload rest : string)
         (st : RunState) (fuel : nat),
    without "," header = true ->
    without "," payload = true ->
    readAsDataURL w file = Onload (ResultString (header ++ "," ++ payload))
    \/ readAsDataURL w file
       = Onload (ResultString (header ++ "," ++ payload ++ "," ++ rest)) ->
    run (1 + fuel) w st (fileToBase64 file)
    = Done (advance st [ ev (ReadAsDataURL file) ] 0) (inr (Some payload)) fuel.
Proof.
  intros w file header payload rest st fuel Hheader Hpayload Hread.
  unfold fileToBase64. cbn [Nat.add]. rewrite run_bind, run_trigger.
  cbn [fst snd perform answer].
  destruct Hread as [-> | ->]; unfold resolve; rewrite run_ret.
  - change (header ++ "," ++ payload)%string
      with (header ++ String ","%char payload)%string.
    rewrite split_at_first, split_without by assumption. reflexivity.
  - change (header ++ "," ++ payload ++ "," ++ rest)%string
      with (header ++ String ","%char
                        (payload ++ String ","%char rest))%string.
    rewrite !split_at_first by assumption. reflexivity.
Qed.

(** The data URL of the file [png] in the world [happy]. *)
Lemma encoding_is_the_text_after_the_first_comma_witness :
  without "," "data:image/png;base64" = true
  /\ without "," "iVBORw0KGgo=" = true
  /\ readAsDataURL Scenario.happy Scenario.png
     = Onload (ResultString ("data:image/png;base64" ++ "," ++ "iVBORw0KGgo="))
  /\ run (1 + 0) Scenario.happy (start Scenario.ready)
       (fileToBase64 Scenario.png)
     = Done (advance (start Scenario.ready) [ ev (ReadAsDataURL Scenario.png) ] 0)
         (inr (Some "iVBORw0KGgo=")) 0.
Proof.
  split; [reflexivity|]. split; [reflexivity|]. split; [reflexivity|].
  exact (encoding_is_the_text_after_the_first_comma Scenario.happy Scenario.png
           "data:image/png;base64" "iVBORw0KGgo=" ""
           (start Scenario.ready) 0 eq_refl eq_refl (or_introl eq_refl)).
Defined.

(** X8.  A reader result that is a string without any comma is not an
    error for the encode step: [fileToBase64] resolves with [undefined], and
    the submit goes on to call the service with no image bytes in the
    request. *)
Theorem result_without_comma_is_submitted_without_image :
  forall (w : World) (env : ProcessEnv) (s : Session) (file : File)
         (text : string),
    imageFile s = Some file ->
    truthy (Some (prompt s)) = true ->
    truthy (API_KEY env) = true ->
    readAsDataURL w file = Onload (ResultString text) ->
    without "," text = true ->
    (forall fuel (st : RunState),
       run (1 + fuel) w st (fileToBase64 file)
       = Done (advance st [ ev (ReadAsDataURL file) ] 0) (inr None) fuel)
    /\ trace (state_of
                (run 6 w (start s)
                   (handleGenerateVideo env (imageFile s) (prompt s))))
       = start_events
         ++ [ ev (ReadAsDataURL file);
              ev (SetLoadingMessage "Initializing video generation...");
              ev (GenerateVideos {| apiKey := API_KEY env |}
                    {| gv_model := "veo-2.0-generate-001";
                       gv_prompt := prompt s;
                       gv_imageBytes := None;
                       gv_mimeType := type file;
                       gv_numberOfVideos := 1 |}) ].
Proof.
  intros w env s file text Hfile Hprompt Hkey Hread Htext.
  assert (Hencode : forall fuel (st : RunState),
             run (1 + fuel) w st (fileToBase64 file)
             = Done (advance st [ ev (ReadAsDataURL file) ] 0) (inr None) fuel).
  { intros fuel st. unfold fileToBase64. cbn [Nat.add].
    rewrite run_bind, run_trigger. cbn [fst snd perform answer].
    rewrite Hread. unfold resolve. rewrite run_ret.
    rewrite split_without by exact Htext. reflexivity. }
  split; [exact Hencode|].
  rewrite Hfile. change 6 with (3 + (1 + 2)).
  rewrite handler_enters_try by exact Hprompt.
  unfold handleGenerateVideo_try. rewrite run_await, Hencode, run_await.
  unfold generateVideoFromImage. rewrite Hkey. cbn [negb].
  unfold setLoadingMessage at 1. rewrite run_bind, run_trigger. cbn [fst snd].
  rewrite run_await, run_trigger. cbn [fst snd perform answer].
  destruct (generateVideos w {| apiKey := API_KEY env |}
              (generateVideos_params None (type file) (prompt s)));
    reflexivity.
Qed.

(** A reader that hands back the bare text "corrupt". *)
Lemma result_without_comma_is_submitted_without_image_witness :
  imageFile Scenario.ready = Some Scenario.png
  /\ without "," "corrupt" = true
  /\ run (1 + 0)
       {| readAsDataURL := fun _ => Onload (ResultString "corrupt");
          generateVideos := generateVideos Scenario.happy;
          getVideosOperation := getVideosOperation Scenario.happy;
          fetch := fetch Scenario.happy;
          blob := blob Scenario.happy;
          createObjectURL := createObjectURL Scenario.happy |}
       (start Scenario.ready) (fileToBase64 Scenario.png)
     = Done (advance (start Scenario.ready) [ ev (ReadAsDataURL Scenario.png) ] 0)
         (inr None) 0.
Proof.
  split; [reflexivity|]. split; [reflexivity|].
  exact (proj1 (result_without_comma_is_submitted_without_image
                  {| readAsDataURL := fun _ => Onload (ResultString "corrupt");
                     generateVideos := generateVideos Scenario.happy;
                     getVideosOperation := getVideosOperation Scenario.happy;
                     fetch := fetch Scenario.happy;
                     blob := blob Scenario.happy;
                     createObjectURL := createObjectURL Scenario.happy |}
                  Scenario.keyed Scenario.ready Scenario.png "corrupt"
                  eq_refl eq_refl eq_refl eq_refl eq_refl)
           0 (start Scenario.ready)).
Defined.

(* ===================================================================== *)
(** * Further properties of the click handler *)
(* ===================================================================== *)

(** X9.  A run of [handleGenerateVideo] never changes the user's inputs: at
    every point of every run, whether it is rejected by the guard, pending,
    failed or successful, the selected file, its preview and the prompt are
    the ones the session had before. *)
Theorem submit_never_changes_the_inputs :
  forall (w : World) (env : ProcessEnv) (file : option File) (text : string)
         (st : RunState) (fuel : nat),
    imageFile (session (state_of
       (run fuel w st (handleGenerateVideo env file text))))
    = imageFile (session st)
    /\ imagePreviewUrl (session (state_of
         (run fuel w st (handleGenerateVideo env file text))))
       = imagePreviewUrl (session st)
    /\ prompt (session (state_of
         (run fuel w st (handleGenerateVideo env file text))))
       = prompt (session st).
Proof.
  intros w env file text st fuel.
  destruct (performs_handleGenerateVideo env file text w fuel st)
    as (evs & _ & -> & Hevs).
  apply replay_keeps_inputs, Hevs.
Qed.

(** X10.  When the encode step resolves and [generateVideoFromImage]
    resolves with a blob, the handler creates an object URL for that blob,
    stores it and moves the session to Success: the error cell is empty, the
    user's inputs and the progress message are as the download left them,
    the Success page plays the URL (when it is a non-empty string) and
    offers "Create Another Video", which runs [resetState]. *)
Theorem success_shows_the_video :
  forall (w : World) (env : ProcessEnv) (s : Session) (file : File)
         (fuel : nat) (videoBlob : Blob) (st_s : RunState) (rest : nat),
    imageFile s = Some file ->
    truthy (Some (prompt s)) = true ->
    succeeds_with w env file (prompt s) (advance (start s) start_events 0)
      fuel videoBlob st_s rest ->
    exists st' : RunState,
      run (3 + (fuel + 3)) w (start s)
        (handleGenerateVideo env (imageFile s) (prompt s))
      = Done st' tt rest
      /\ trace st' = trace st_s ++ success_events w videoBlob
      /\ appState (session st') = SUCCESS
      /\ generatedVideoUrl (session st')
         = Some (createObjectURL w (inr videoBlob))
      /\ error (session st') = None
      /\ imageFile (session st') = imageFile s
      /\ imagePreviewUrl (session st') = imagePreviewUrl s
      /\ prompt (session st') = prompt s
      /\ loadingMessage (session st') = loadingMessage (session st_s)
      /\ renderContent (session st')
         = [ Heading "Video Generated Successfully!" ]
           ++ (if truthy (Some (createObjectURL w (inr videoBlob)))
               then [ VideoPlayer (createObjectURL w (inr videoBlob)) ]
               else [])
           ++ [ Button "Create Another Video" OnResetState false ]
      /\ dispatch env (session st') createAnother = Some resetState.
Proof.
  intros w env s file fuel videoBlob st_s rest Hfile Hprompt Hsucceeds.
  exists (advance st_s (success_events w videoBlob) 0).
  destruct (succeeds_with_cells Hsucceeds)
    as (_ & Himage & Hpreview & Hp & _ & Herror).
  cbn in Himage, Hpreview, Hp, Herror.
  split.
  { rewrite Hfile, handler_enters_try by exact Hprompt.
    rewrite (succeeds_with_try Hsucceeds). reflexivity. }
  cbn. do 3 (split; [reflexivity|]). do 4 (split; [assumption|]).
  split; [reflexivity|].
  split.
  - destruct (createObjectURL w (inr videoBlob) =? ""); reflexivity.
  - unfold dispatch, renderContent, createAnother. cbn.
    destruct (createObjectURL w (inr videoBlob) =? ""); reflexivity.
Qed.

(** The download of the world [happy]. *)
Lemma success_shows_the_video_witness :
  imageFile Scenario.ready = Some Scenario.png
  /\ truthy (Some (prompt Scenario.ready)) = true
  /\ exists st_s st' : RunState,
       succeeds_with Scenario.happy Scenario.keyed Scenario.png
         (prompt Scenario.ready)
         (advance (start Scenario.ready) start_events 0)
         11 Scenario.mp4 st_s 0
       /\ run (3 + (11 + 3)) Scenario.happy (start Scenario.ready)
            (handleGenerateVideo Scenario.keyed (imageFile Scenario.ready)
               (prompt Scenario.ready))
          = Done st' tt 0
       /\ appState (session st') = SUCCESS
       /\ generatedVideoUrl (session st') = Some "blob:1"
       /\ error (session st') = None.
Proof.
  split; [reflexivity|]. split; [reflexivity|].
  assert (Hsucceeds :
    succeeds_with Scenario.happy Scenario.keyed Scenario.png
      (prompt Scenario.ready)
      (advance (start Scenario.ready) start_events 0) 11 Scenario.mp4
      (state_of
         (run 11 Scenario.happy
            (advance (start Scenario.ready) start_events 0)
            (base64Image <~ fileToBase64 Scenario.png;;
             generateVideoFromImage Scenario.keyed base64Image "image/png"
               "a cat walking" setLoadingMessage))) 0).
  { do 3 eexists. split; vm_compute; reflexivity. }
  destruct (success_shows_the_video Scenario.happy Scenario.keyed
              Scenario.ready Scenario.png 11 Scenario.mp4 _ 0
              eq_refl eq_refl Hsucceeds)
    as (st' & Hrun & _ & Hstate & Hurl & Herror & _).
  eexists. exists st'. split; [exact Hsucceeds|]. split; [exact Hrun|].
  split; [exact Hstate|]. split; [exact Hurl | exact Herror].
Defined.

(** X11.  Every finished run of a valid submit leaves the session in one of
    two shapes: Success, with an empty error cell and the object URL of a
    downloaded blob as the video; or Error, with a message that is not
    empty and the video reference the session had before the submit. *)
Theorem finished_submit_is_success_or_error :
  forall (w : World) (env : ProcessEnv) (s : Session) (file : File)
         (fuel : nat) (st' : RunState) (rest : nat),
    imageFile s = Some file ->
    truthy (Some (prompt s)) = true ->
    run fuel w (start s) (handleGenerateVideo env (imageFile s) (prompt s))
    = Done st' tt rest ->
    (appState (session st') = SUCCESS
     /\ error (session st') = None
     /\ exists videoBlob,
          generatedVideoUrl (session st')
          = Some (createObjectURL w (inr videoBlob)))
    \/ (appState (session st') = ERROR
        /\ (exists message, error (session st') = Some message
                            /\ message <> "")
        /\ generatedVideoUrl (session st') = generatedVideoUrl s).
Proof.
  intros w env s file fuel st' rest Hfile Hprompt Hrun. rewrite Hfile in Hrun.
  destruct fuel as [|[|[|fuel]]];
    try (unfold handleGenerateVideo in Hrun; rewrite Hprompt in Hrun;
         cbn in Hrun; discriminate).
  change (S (S (S fuel))) with (3 + fuel) in Hrun.
  rewrite handler_enters_try in Hrun by exact Hprompt.
  pose proof (try_outcome w env file (prompt s)
                (advance (start s) start_events 0) fuel) as Hout.
  destruct (run fuel w (advance (start s) start_events 0)
              (handleGenerateVideo_try env file (prompt s)))
    as [st1 [err|u] rest1|st1] eqn:Htry; [| |discriminate].
  - right. destruct Hout as (evs & _ & Hsession & Hevs).
    destruct rest1 as [|[|[|rest1]]];
      try (cbn in Hrun; discriminate).
    change (S (S (S rest1))) with (3 + rest1) in Hrun.
    rewrite catch_finishes in Hrun. inversion Hrun; subst. cbn.
    split; [reflexivity|]. split.
    + eexists. split; [reflexivity|].
      apply or_else_not_empty. discriminate.
    + rewrite Hsession.
      assert (HK : forallb keeps_cells evs = true).
      { rewrite forallb_forall in *. intros e He.
        apply try_event_keeps_cells, Hevs, He. }
      destruct (replay_keeps_cells evs
                  (session (advance (start s) start_events 0)) HK)
        as (_ & _ & _ & _ & -> & _).
      reflexivity.
  - left. inversion Hrun; subst.
    apply try_resolved in Htry.
    destruct Htry as (videoBlob & st_s & budget & Hs & _ & ->).
    destruct (succeeds_with_cells Hs) as (_ & _ & _ & _ & _ & Herror).
    cbn in Herror. cbn. split; [reflexivity|]. split; [exact Herror|].
    exists videoBlob. reflexivity.
Qed.

(** The run that fails on the unreadable file ends in the second shape. *)
Lemma finished_submit_is_success_or_error_witness :
  imageFile Scenario.ready = Some Scenario.png
  /\ truthy (Some (prompt Scenario.ready)) = true
  /\ exists st' : RunState,
       run 7 Scenario.unreadable (start Scenario.ready)
         (handleGenerateVideo Scenario.keyed (imageFile Scenario.ready)
            (prompt Scenario.ready))
       = Done st' tt 0
       /\ ((appState (session st') = SUCCESS
            /\ error (session st') = None
            /\ exists videoBlob,
                 generatedVideoUrl (session st')
                 = Some (createObjectURL Scenario.unreadable (inr videoBlob)))
           \/ (appState (session st') = ERROR
               /\ (exists message, error (session st') = Some message
                                   /\ message <> "")
               /\ generatedVideoUrl (session st')
                  = generatedVideoUrl Scenario.ready)).
Proof.
  split; [reflexivity|]. split; [reflexivity|].
  eexists. split; [vm_compute; reflexivity|].
  exact (finished_submit_is_success_or_error Scenario.unreadable
           Scenario.keyed Scenario.ready Scenario.png 7 _ 0
           eq_refl eq_refl eq_refl).
Defined.

(** X12.  While a job started from the submit button is outstanding, the
    page is the Generating view: the spinner, the fixed caption and the
    message last given to [setLoadingMessage] (before the first one, the
    message the session had). *)
Theorem generating_page_shows_the_latest_message :
  forall (env : ProcessEnv) (s : Session) (tree : itree appE unit)
         (w : World) (fuel : nat) (st' : RunState),
    dispatch env s submit = Some tree ->
    run (S fuel) w (start s) tree = Pending st' ->
    renderContent (session st')
    = [ LoadingSpinner;
        Paragraph "Generating Your Video";
        Paragraph (last (shown (trace st')) (loadingMessage s)) ].
Proof.
  intros env s tree w fuel st' Hsubmit Hrun.
  apply dispatch_submit in Hsubmit.
  destruct Hsubmit as (_ & (file & Hfile) & Hprompt & ->).
  destruct (run_replays (handleGenerateVideo env (imageFile s) (prompt s))
              w (S fuel) (start s)) as (evs & Htrace & Hsession & _).
  rewrite Hrun in Htrace, Hsession. cbn [state_of start trace session app] in *.
  rewrite Hfile in Hrun.
  apply pending_submit_is_generating in Hrun; [|exact Hprompt].
  unfold renderContent. rewrite Hrun, Htrace.
  rewrite Hsession, replay_loadingMessage, shown_after_last. reflexivity.
Qed.

(** Seven steps into the run of the world [happy]. *)
Lemma generating_page_shows_the_latest_message_witness :
  dispatch Scenario.keyed Scenario.ready submit
  = Some (handleGenerateVideo Scenario.keyed (imageFile Scenario.ready)
            (prompt Scenario.ready))
  /\ exists st' : RunState,
       run 7 Scenario.happy (start Scenario.ready)
         (handleGenerateVideo Scenario.keyed (imageFile Scenario.ready)
            (prompt Scenario.ready))
       = Pending st'
       /\ renderContent (session st')
          = [ LoadingSpinner;
              Paragraph "Generating Your Video";
              Paragraph "Video generation started. This may take a few minutes." ].
Proof.
  split; [reflexivity|].
  eexists. split; [vm_compute; reflexivity|].
  exact (generating_page_shows_the_latest_message Scenario.keyed
           Scenario.ready _ Scenario.happy 6 _ eq_refl eq_refl).
Defined.

(** X13.  In a run of [handleGenerateVideo], however far it gets and
    whatever the world answers, the file is read at most once, at most one
    job is submitted, at most one download is fetched, at most one response
    body is read and at most one object URL is created.  (Status queries are
    the only outside call that repeats.) *)
Theorem submit_makes_each_call_at_most_once :
  forall (w : World) (env : ProcessEnv) (file : option File) (text : string)
         (st : RunState) (fuel : nat) (kind : Outside),
    exists evs : list Event,
      trace (state_of (run fuel w st (handleGenerateVideo env file text)))
      = trace st ++ evs
      /\ count (is_kind kind) evs <= 1.
Proof.
  intros w env file text st fuel kind.
  apply at_most_handleGenerateVideo.
Qed.

(** The complete run of the world [slow] makes each of the five calls
    exactly once, and three status queries. *)
Example calls_of_a_complete_run :
  List.map (fun kind =>
         count (is_kind kind)
           (trace (state_of
              (run 40 Outage.slow (start Scenario.ready)
                 (handleGenerateVideo Scenario.keyed (imageFile Scenario.ready)
                    (prompt Scenario.ready))))))
    [ReadsFile; SubmitsJob; FetchesVideo; ReadsBody; MakesUrl]
  = [1; 1; 1; 1; 1]
  /\ polls (state_of
       (run 40 Outage.slow (start Scenario.ready)
          (handleGenerateVideo Scenario.keyed (imageFile Scenario.ready)
             (prompt Scenario.ready)))) = 3.
Proof. vm_compute. split; reflexivity. Qed.

(* ===================================================================== *)
(** * Further properties of the page *)
(* ===================================================================== *)

(** X14.  The controls of the four pages.  A user action starts code exactly
    in these cases: on the Idle page, a file choice runs [handleImageChange],
    typing runs [setPrompt], and a click on "Generate Video" runs
    [handleGenerateVideo] provided a file is selected and the prompt is not
    empty; on the Success page a click on "Create Another Video" and on the
    Error page a click on "Try Again" run [resetState].  The Generating
    page has no control. *)
Theorem controls_of_each_page :
  forall (env : ProcessEnv) (s : Session) (a : UserAction)
         (tree : itree appE unit),
    dispatch env s a = Some tree
    <-> (appState s = IDLE
         /\ ((exists e, a = ChooseFile e /\ tree = handleImageChange e)
             \/ (exists text, a = TypePrompt text
                              /\ tree = ITree.trigger (SetPrompt text))
             \/ (a = submit
                 /\ imageFile s <> None /\ prompt s <> ""
                 /\ tree = handleGenerateVideo env (imageFile s) (prompt s))))
        \/ (appState s = SUCCESS /\ a = createAnother /\ tree = resetState)
        \/ (appState s = ERROR /\ a = tryAgain /\ tree = resetState).
Proof.
  intros env s a tree. unfold dispatch.
  destruct (find_inputs_page s) as (Hinput & Harea).
  destruct a as [label|e|text].
  - rewrite find_button_page. split.
    + destruct (appState s); try discriminate.
      * destruct ("Generate Video" =? label) eqn:Hlabel;
          [|discriminate].
        apply String.eqb_eq in Hlabel. subst label.
        destruct (negb (truthy_obj (imageFile s))
                  || negb (truthy (Some (prompt s)))) eqn:Hguard;
          [discriminate|].
        apply guard_false in Hguard. destruct Hguard as [Hfile Hprompt].
        cbn. intros H. injection H as <-. left. split; [reflexivity|].
        right. right. auto.
      * destruct ("Create Another Video" =? label) eqn:Hlabel;
          [|discriminate].
        apply String.eqb_eq in Hlabel. subst label.
        cbn. intros H. injection H as <-. right. left. auto.
      * destruct ("Try Again" =? label) eqn:Hlabel; [|discriminate].
        apply String.eqb_eq in Hlabel. subst label.
        cbn. intros H. injection H as <-. right. right. auto.
    + intros [(Hstate & [(e & Ha & _) | [(text & Ha & _)
                                        | (Ha & Hfile & Hprompt & ->)]])
             | [(Hstate & Ha & ->) | (Hstate & Ha & ->)]];
        try discriminate; rewrite Hstate; injection Ha as ->.
      * assert (Hguard : negb (truthy_obj (imageFile s))
                         || negb (truthy (Some (prompt s))) = false)
          by (apply guard_false; auto).
        rewrite Hguard. reflexivity.
      * reflexivity.
      * reflexivity.
  - rewrite Hinput. split.
    + destruct (appState s); try discriminate.
      cbn. intros H. injection H as <-. left. split; [reflexivity|].
      left. exists e. auto.
    + intros [(Hstate & [(e' & Ha & ->) | [(text & Ha & _)
                                          | (Ha & _)]])
             | [(_ & Ha & _) | (_ & Ha & _)]];
        try discriminate.
      rewrite Hstate. injection Ha as ->. reflexivity.
  - rewrite Harea. split.
    + destruct (appState s); try discriminate.
      cbn. intros H. injection H as <-. left. split; [reflexivity|].
      right. left. exists text. auto.
    + intros [(Hstate & [(e' & Ha & _) | [(text' & Ha & ->)
                                         | (Ha & _)]])
             | [(_ & Ha & _) | (_ & Ha & _)]];
        try discriminate.
      rewrite Hstate. injection Ha as ->. reflexivity.
Qed.

(** The submit of the session [ready]. *)
Lemma controls_of_each_page_witness :
  dispatch Scenario.keyed Scenario.ready submit
  = Some (handleGenerateVideo Scenario.keyed (imageFile Scenario.ready)
            (prompt Scenario.ready))
  /\ ((appState Scenario.ready = IDLE
       /\ ((exists e, submit = ChooseFile e
                      /\ handleGenerateVideo Scenario.keyed
                           (imageFile Scenario.ready) (prompt Scenario.ready)
                         = handleImageChange e)
           \/ (exists text, submit = TypePrompt text
                            /\ handleGenerateVideo Scenario.keyed
                                 (imageFile Scenario.ready)
                                 (prompt Scenario.ready)
                               = ITree.trigger (SetPrompt text))
           \/ (submit = submit
               /\ imageFile Scenario.ready <> None
               /\ prompt Scenario.ready <> ""
               /\ handleGenerateVideo Scenario.keyed
                    (imageFile Scenario.ready) (prompt Scenario.ready)
                  = handleGenerateVideo Scenario.keyed
                      (imageFile Scenario.ready) (prompt Scenario.ready))))
      \/ (appState Scenario.ready = SUCCESS /\ submit = createAnother
          /\ handleGenerateVideo Scenario.keyed (imageFile Scenario.ready)
               (prompt Scenario.ready) = resetState)
      \/ (appState Scenario.ready = ERROR /\ submit = tryAgain
          /\ handleGenerateVideo Scenario.keyed (imageFile Scenario.ready)
               (prompt Scenario.ready) = resetState)).
Proof.
  split; [reflexivity|].
  exact (proj1 (controls_of_each_page Scenario.keyed Scenario.ready submit
                  (handleGenerateVideo Scenario.keyed
                     (imageFile Scenario.ready) (prompt Scenario.ready)))
           eq_refl).
Defined.

(** X15.  From the Success page and from the Error page the reset button
    runs [resetState], which puts every cell back to its initial value; the
    page is then the empty Idle page: the upload hint instead of a preview,
    an empty prompt, no error line and a disabled submit button. *)
Theorem reset_returns_to_the_empty_idle_page :
  forall (env : ProcessEnv) (w : World) (s : Session) (fuel : nat),
    appState s = SUCCESS \/ appState s = ERROR ->
    exists (a : UserAction) (st' : RunState),
      dispatch env s a = Some resetState
      /\ run (7 + fuel) w (start s) resetState = Done st' tt fuel
      /\ session st' = initialSession
      /\ renderContent (session st')
         = [ Heading "1. Upload Image";
             UploadHint;
             FileInput OnHandleImageChange "image/*";
             Heading "2. Describe the Video";
             Textarea "" OnSetPrompt;
             Button "Generate Video" OnHandleGenerateVideo true ]
      /\ dispatch env (session st') submit = None.
Proof.
  intros env w s fuel Hstate.
  exists (match appState s with SUCCESS => createAnother | _ => tryAgain end).
  eexists. split; [|split].
  - apply reset_button, Hstate.
  - cbn. rewrite run_ret. reflexivity.
  - cbn. repeat split.
Qed.

(** The "Try Again" button of a failed session. *)
Lemma reset_returns_to_the_empty_idle_page_witness :
  appState Outcome.failed = ERROR
  /\ exists (a : UserAction) (st' : RunState),
       dispatch Scenario.keyed Outcome.failed a = Some resetState
       /\ run (7 + 0) Scenario.happy (start Outcome.failed) resetState
          = Done st' tt 0
       /\ session st' = initialSession
       /\ dispatch Scenario.keyed (session st') submit = None.
Proof.
  split; [reflexivity|].
  destruct (reset_returns_to_the_empty_idle_page Scenario.keyed Scenario.happy
              Outcome.failed 0 (or_intror eq_refl))
    as (a & st' & Hbutton & Hrun & Hsession & _ & Hsubmit).
  exists a, st'. split; [exact Hbutton|]. split; [exact Hrun|].
  split; [exact Hsession | exact Hsubmit].
Defined.

(** X16.  On the Idle page, choosing an image file and typing a non-empty
    prompt, in either order, leaves a session with that file, the object URL
    of the file as its preview, that prompt and no error (an earlier
    validation message is cleared by the file choice); the submit button is
    then enabled and starts [handleGenerateVideo] with that file and that
    prompt. *)
Theorem image_and_prompt_enable_submit :
  forall (env : ProcessEnv) (w : World) (s : Session) (e : ChangeEvent)
         (file : File) (text : string),
    appState s = IDLE ->
    match files e with
    | Some fs => nth_error fs 0
    | None => None
    end = Some file ->
    prefix "image/" (type file) = true ->
    text <> "" ->
    exists st1 st2 st1' st2' : RunState,
      dispatch env s (ChooseFile e) = Some (handleImageChange e)
      /\ run 4 w (start s) (handleImageChange e) = Done st1 tt 0
      /\ dispatch env (session st1) (TypePrompt text)
         = Some (ITree.trigger (SetPrompt text))
      /\ run 1 w st1 (ITree.trigger (SetPrompt text)) = Done st2 tt 0
      /\ session st2
         = {| appState := IDLE;
              imageFile := Some file;
              imagePreviewUrl := Some (createObjectURL w (inl file));
              prompt := text;
              generatedVideoUrl := generatedVideoUrl s;
              error := None;
              loadingMessage := loadingMessage s |}
      /\ dispatch env (session st2) submit
         = Some (handleGenerateVideo env (Some file) text)
      /\ run 1 w (start s) (ITree.trigger (SetPrompt text)) = Done st1' tt 0
      /\ run 4 w st1' (handleImageChange e) = Done st2' tt 0
      /\ session st2' = session st2.
Proof.
  intros env w s e file text Hidle Hfile Htype Htext.
  destruct s as [state image preview old video problem message].
  cbn in Hidle. subst state.
  assert (Hguard : negb (truthy_obj (Some file))
                   || negb (truthy (Some text)) = false).
  { cbn. apply String.eqb_neq in Htext. rewrite Htext. reflexivity. }
  do 4 eexists.
  split; [|split; [|split; [|split; [|split; [|split; [|split; [|split]]]]]]].
  - unfold dispatch. rewrite (proj1 (find_inputs_page _)). reflexivity.
  - unfold handleImageChange. rewrite Hfile, Htype. cbn. reflexivity.
  - unfold dispatch. rewrite (proj2 (find_inputs_page _)). reflexivity.
  - cbn. reflexivity.
  - reflexivity.
  - unfold dispatch, submit. rewrite find_button_page.
    cbn [session appState imageFile prompt].
    rewrite Hguard. reflexivity.
  - cbn. reflexivity.
  - unfold handleImageChange. rewrite Hfile, Htype. cbn. reflexivity.
  - reflexivity.
Qed.

(** From the warned session: the file [png], then the prompt "a cat". *)
Lemma image_and_prompt_enable_submit_witness :
  appState Outcome.warned = IDLE
  /\ prefix "image/" (type Scenario.png) = true
  /\ "a cat" <> ""
  /\ exists st1 st2 : RunState,
       run 4 Scenario.happy (start Outcome.warned)
         (handleImageChange {| files := Some [Scenario.png] |})
       = Done st1 tt 0
       /\ run 1 Scenario.happy st1 (ITree.trigger (SetPrompt "a cat"))
          = Done st2 tt 0
       /\ error (session st2) = None
       /\ dispatch Scenario.keyed (session st2) submit
          = Some (handleGenerateVideo Scenario.keyed (Some Scenario.png) "a cat").
Proof.
  assert (Htext : "a cat" <> "") by discriminate.
  split; [reflexivity|]. split; [reflexivity|]. split; [exact Htext|].
  destruct (image_and_prompt_enable_submit Scenario.keyed Scenario.happy
              Outcome.warned {| files := Some [Scenario.png] |} Scenario.png
              "a cat" eq_refl eq_refl eq_refl Htext)
    as (st1 & st2 & _ & _ & _ & Hrun1 & _ & Hrun2 & Hsession & Hsubmit & _).
  exists st1, st2. split; [exact Hrun1|]. split; [exact Hrun2|].
  split; [rewrite Hsession; reflexivity | exact Hsubmit].
Defined.

(** X17.  On the Idle page, choosing a file that is not an image leaves a
    page with the upload hint instead of a preview, the validation message
    under the inputs and a disabled submit button, whatever was selected
    before; the prompt is kept. *)
Theorem non_image_upload_disables_submit :
  forall (env : ProcessEnv) (w : World) (s : Session) (e : ChangeEvent)
         (file : File),
    appState s = IDLE ->
    match files e with
    | Some fs => nth_error fs 0
    | None => None
    end = Some file ->
    prefix "image/" (type file) = false ->
    exists st' : RunState,
      run 3 w (start s) (handleImageChange e) = Done st' tt 0
      /\ renderContent (session st')
         = [ Heading "1. Upload Image";
             UploadHint;
             FileInput OnHandleImageChange "image/*";
             Heading "2. Describe the Video";
             Textarea (prompt s) OnSetPrompt;
             Paragraph "Please upload a valid image file (e.g., PNG, JPG, WEBP).";
             Button "Generate Video" OnHandleGenerateVideo true ]
      /\ dispatch env (session st') submit = None.
Proof.
  intros env w s e file Hidle Hfile Htype.
  destruct s as [state image preview old video problem message].
  cbn in Hidle. subst state.
  eexists. split; [|split].
  - unfold handleImageChange. rewrite Hfile, Htype. cbn. reflexivity.
  - reflexivity.
  - unfold dispatch, submit. rewrite find_button_page. reflexivity.
Qed.

(** The text file [notes] chosen in the session [ready]. *)
Lemma non_image_upload_disables_submit_witness :
  appState Scenario.ready = IDLE
  /\ prefix "image/" (type Scenario.notes) = false
  /\ dispatch Scenario.keyed Scenario.ready submit <> None
  /\ exists st' : RunState,
       run 3 Scenario.happy (start Scenario.ready)
         (handleImageChange {| files := Some [Scenario.notes] |})
       = Done st' tt 0
       /\ dispatch Scenario.keyed (session st') submit = None.
Proof.
  split; [reflexivity|]. split; [reflexivity|]. split; [discriminate|].
  destruct (non_image_upload_disables_submit Scenario.keyed Scenario.happy
              Scenario.ready {| files := Some [Scenario.notes] |}
              Scenario.notes eq_refl eq_refl eq_refl)
    as (st' & Hrun & _ & Hsubmit).
  exists st'. split; [exact Hrun | exact Hsubmit].
Defined.
